(** * module-query and check-activation: a shallow embedding

    The two command line programs of the repository,
    [p3/apps/moduleQuery.py] and [p3/apps/checkActivation.py], are
    Python 2 scripts.  Each one parses its arguments, opens a database
    connection with a bounded retry loop, runs one parameterised query
    and then either renders text reports or runs shell commands.

    Pure code is embedded as Rocq functions.  Code with effects lives
    in a small monad that threads the chronological trace of what the
    process did (connection attempts, sleeps, queries, writes to the
    standard streams, shell commands) and that can raise a Python
    exception.  What the outside world answers is read from an
    environment record.  Library code the programs call ([json.loads],
    the line breaking of [textwrap], the iteration order of Python 2
    dicts) is a parameter of the renderers.

    Text is a string of characters with codes below 256: the bytes
    of a byte string, or the code points of a unicode text (the values
    [json.loads] returns and the columns of a fetched row).  A unicode
    text that goes into a field of a byte-string template is encoded
    with the ascii codec, and the error Python raises where it cannot
    is part of the model; encoding errors when a text is written to a
    stream are outside the model.

    The file has two parts: the embedding ([Py], [Runtime],
    [ModuleQuery], [CheckActivation], then [Reading], which holds the
    vocabulary the statements use, [Samples], [Terminal], [Setup] and
    [Census], more vocabulary), and the properties, grouped by
    component. *)

From Stdlib Require Import String Ascii List ZArith Lia Bool Arith Permutation.
Import ListNotations.
Local Open Scope string_scope.

(** ** Python built-ins used by the programs *)

Module Py.

(** The characters [\s] matches in a byte-string pattern. *)
Definition isspace (c : ascii) : bool :=
  let n := nat_of_ascii c in
  (((9 <=? n) && (n <=? 13)) || (n =? 32))%nat.

(** The characters [unicode.strip] removes, among the code points below
    256 (the documents [json.loads] returns hold unicode strings). *)
Definition uni_isspace (c : ascii) : bool :=
  let n := nat_of_ascii c in
  (((9 <=? n) && (n <=? 13)) || ((28 <=? n) && (n <=? 32))
   || (n =? 133) || (n =? 160))%nat.

Definition nl : string := String "010"%char EmptyString.
Definition dquote : string := String "034"%char EmptyString.

(** [s.translate(None, deletechars)] of Python 2: drop every character
    that occurs in [deletechars]. *)
Fixpoint mem_char (c : ascii) (cs : string) : bool :=
  match cs with
  | EmptyString => false
  | String d cs' => if Ascii.eqb c d then true else mem_char c cs'
  end.

Fixpoint translate_delete (deletechars s : string) : string :=
  match s with
  | EmptyString => EmptyString
  | String c s' =>
      if mem_char c deletechars then translate_delete deletechars s'
      else String c (translate_delete deletechars s')
  end.

(** [sep.join(l)]. *)
Definition join (sep : string) (l : list string) : string := String.concat sep l.

(** [s * n]: a negative count gives the empty string. *)
Fixpoint repeat_string (s : string) (n : nat) : string :=
  match n with
  | O => EmptyString
  | S n' => s ++ repeat_string s n'
  end.

Definition str_mul (s : string) (n : Z) : string := repeat_string s (Z.to_nat n).

(** [s.replace(old, new)] for a one-character [old]. *)
Fixpoint replace_char (old : ascii) (new : string) (s : string) : string :=
  match s with
  | EmptyString => EmptyString
  | String c s' =>
      if Ascii.eqb c old then new ++ replace_char old new s'
      else String c (replace_char old new s')
  end.

(** [s.strip()]. *)
Fixpoint lstrip (s : string) : string :=
  match s with
  | EmptyString => EmptyString
  | String c s' => if uni_isspace c then lstrip s' else s
  end.

Fixpoint rstrip (s : string) : string :=
  match s with
  | EmptyString => EmptyString
  | String c s' =>
      match rstrip s' with
      | EmptyString => if uni_isspace c then EmptyString else String c EmptyString
      | r => String c r
      end
  end.

Definition strip (s : string) : string := rstrip (lstrip s).

(** *** [str.format]

    Replacement fields [{}], [{name}] and [{name:spec}]; doubled braces
    are literal braces.  [None] stands for the exception Python raises
    (a field with no argument, a lone brace).  Of the format
    specifications only the one the programs use is covered: a fill
    character, an alignment [<] or [>] and a decimal width. *)

Fixpoint split_colon (f : string) : string * option string :=
  match f with
  | EmptyString => (EmptyString, None)
  | String c f' =>
      if Ascii.eqb c ":"%char then (EmptyString, Some f')
      else let '(n, sp) := split_colon f' in (String c n, sp)
  end.

Definition digit_of (c : ascii) : option nat :=
  let n := nat_of_ascii c in
  if ((48 <=? n) && (n <=? 57))%nat then Some (n - 48) else None.

Fixpoint parse_nat_acc (s : string) (acc : nat) : option nat :=
  match s with
  | EmptyString => Some acc
  | String c s' =>
      match digit_of c with
      | Some d => parse_nat_acc s' (10 * acc + d)
      | None => None
      end
  end.

Definition parse_nat (s : string) : option nat :=
  match s with
  | EmptyString => None
  | _ => parse_nat_acc s 0
  end.

Definition ljust (fill : ascii) (width : nat) (v : string) : string :=
  v ++ repeat_string (String fill EmptyString) (width - String.length v).

Definition rjust (fill : ascii) (width : nat) (v : string) : string :=
  repeat_string (String fill EmptyString) (width - String.length v) ++ v.

Definition apply_spec (spec : option string) (v : string) : option string :=
  match spec with
  | None => Some v
  | Some EmptyString => Some v
  | Some (String fill (String align w)) =>
      match parse_nat w with
      | Some width =>
          if Ascii.eqb align "<"%char then Some (ljust fill width v)
          else if Ascii.eqb align ">"%char then Some (rjust fill width v)
          else None
      | None => None
      end
  | Some _ => None
  end.

Fixpoint assoc {V : Type} (k : string) (d : list (string * V)) : option V :=
  match d with
  | [] => None
  | (k', v) :: d' => if String.eqb k k' then Some v else assoc k d'
  end.

(** An argument of [format]: given the field's format specification it
    yields the formatted text, or [None] where Python raises. *)
Definition Arg : Type := option string -> option string.

Definition text (s : string) : Arg := fun spec => apply_spec spec s.

(** Whether the ascii codec can encode a text. *)
Fixpoint is_ascii (s : string) : bool :=
  match s with
  | EmptyString => true
  | String c s' => (nat_of_ascii c <? 128)%nat && is_ascii s'
  end.

(** A unicode text as an argument of [format] on a byte-string
    template: Python encodes the formatted field with the ascii codec,
    and raises [UnicodeEncodeError] where the text is not ASCII.  On a
    unicode template, and for a byte string, [text] is the argument. *)
Definition unicode (s : string) : Arg :=
  fun spec => if is_ascii s then apply_spec spec s else None.

Definition field_value (f : string) (auto : nat)
    (args : list Arg) (kwargs : list (string * Arg)) : option string :=
  let '(name, spec) := split_colon f in
  match (match name with
         | EmptyString => nth_error args auto
         | _ => assoc name kwargs
         end) with
  | Some v => v spec
  | None => None
  end.

Definition is_auto (f : string) : bool :=
  match fst (split_colon f) with
  | EmptyString => true
  | _ => false
  end.

Definition prepend (p : string) (r : option string) : option string :=
  match r with
  | Some s => Some (p ++ s)
  | None => None
  end.

(** [field] is [Some f] while the scan is inside a replacement field
    whose text so far is [f]. *)
Fixpoint format_go (t : string) (field : option string) (auto : nat)
    (args : list Arg) (kwargs : list (string * Arg)) : option string :=
  match t with
  | EmptyString =>
      match field with
      | None => Some EmptyString
      | Some _ => None
      end
  | String c t' =>
      match field with
      | None =>
          if Ascii.eqb c "{"%char then
            match t' with
            | String "{"%char t'' =>
                prepend "{" (format_go t'' None auto args kwargs)
            | _ => format_go t' (Some EmptyString) auto args kwargs
            end
          else if Ascii.eqb c "}"%char then
            match t' with
            | String "}"%char t'' =>
                prepend "}" (format_go t'' None auto args kwargs)
            | _ => None
            end
          else prepend (String c EmptyString) (format_go t' None auto args kwargs)
      | Some f =>
          if Ascii.eqb c "}"%char then
            match field_value f auto args kwargs with
            | Some v =>
                prepend v (format_go t' None
                             (if is_auto f then S auto else auto) args kwargs)
            | None => None
            end
          else format_go t' (Some (f ++ String c EmptyString)) auto args kwargs
      end
  end.

Definition format (t : string) (args : list Arg)
    (kwargs : list (string * Arg)) : option string :=
  format_go t None 0 args kwargs.

(** *** [template % args] with [%s] conversions and [%%]. *)
Fixpoint percent_format (t : string) (args : list string) : option string :=
  match t with
  | EmptyString =>
      match args with
      | [] => Some EmptyString
      | _ => None
      end
  | String c t' =>
      if Ascii.eqb c "%"%char then
        match t' with
        | String "s"%char t'' =>
            match args with
            | a :: args' => prepend a (percent_format t'' args')
            | [] => None
            end
        | String "%"%char t'' => prepend "%" (percent_format t'' args)
        | _ => None
        end
      else prepend (String c EmptyString) (percent_format t' args)
  end.

(** *** Searching in strings (used to read a generated query back). *)

(** [str.count(sub)]: occurrences of [sub], not overlapping. *)
Fixpoint strip_prefix (p s : string) : option string :=
  match p with
  | EmptyString => Some s
  | String c p' =>
      match s with
      | EmptyString => None
      | String d s' => if Ascii.eqb c d then strip_prefix p' s' else None
      end
  end.

Fixpoint count_go (sub s : string) (skip : nat) : nat :=
  match s with
  | EmptyString => 0
  | String _ s' =>
      match skip with
      | S skip' => count_go sub s' skip'
      | O =>
          match strip_prefix sub s with
          | Some _ => S (count_go sub s' (String.length sub - 1))
          | None => count_go sub s' 0
          end
      end
  end.

Definition count (sub s : string) : nat :=
  match sub with
  | EmptyString => S (String.length s)
  | _ => count_go sub s 0
  end.

(** The text after the first occurrence of [marker]. *)
Fixpoint after_first (marker s : string) : option string :=
  match strip_prefix marker s with
  | Some rest => Some rest
  | None =>
      match s with
      | EmptyString => None
      | String _ s' => after_first marker s'
      end
  end.

(** The text before the first occurrence of the character [c]. *)
Fixpoint before_char (c : ascii) (s : string) : option string :=
  match s with
  | EmptyString => None
  | String d s' =>
      if Ascii.eqb c d then Some EmptyString
      else match before_char c s' with
           | Some r => Some (String d r)
           | None => None
           end
  end.

End Py.

(** ** The process and its surroundings *)

Module Runtime.

(** A live database connection, as returned by [MySQLdb.connect]; such
    an object is true. *)
Definition Connection : Type := nat.

(** A column value of a fetched row; the columns the programs read are
    text columns. *)
Inductive SqlValue : Type :=
| SqlNull
| SqlText (s : string).

(** [dict(zip(columns, row))]. *)
Definition Row : Type := list (string * SqlValue).

(** Python exceptions.  [PyError] is any instance of [Exception]; the
    programs tell them apart only by whether a [user_msg] attribute was
    attached.  [KeyboardInterrupt] is not an [Exception]. *)
Inductive Exn : Type :=
| KeyboardInterrupt
| PyError (kind : string) (user_msg : option string).

Inductive Outcome (A : Type) : Type :=
| Return (a : A)
| Raise (e : Exn).
Arguments Return {A} a.
Arguments Raise {A} e.

Inductive Stream : Type := Out | Err.

(** What the process does, in the order it does it.  [EvDiagnostic] is a
    write of [text] followed by text that [repr] or [traceback] formats
    and that is not modelled. *)
Inductive Event : Type :=
| EvConnect
| EvSleep (seconds : Z)
| EvExecute (connection : Connection) (sql : string) (params : list string)
| EvPut (f : Stream) (text : string)
| EvDiagnostic (f : Stream) (text : string)
| EvSystem (command : string).

Definition Trace : Type := list Event.

(** What the surroundings answer. *)
Record Env : Type := {
  DEBUG : bool;                       (* truth value of MODULE_QUERY_DEBUG *)
  SQL_DSN_host : string;              (* SQL_DSN["host"] *)
  program_name : string;              (* os.path.basename(sys.argv[0]) *)
  db_connect : nat -> Outcome Connection;
      (* MySQLdb.connect( **SQL_DSN ), by number of earlier calls *)
  db_fetch : Connection -> string -> list string -> Outcome (list Row);
      (* cursor.execute(sql, params); cursor.fetchall() *)
  getTerminalSize : Outcome Z;
      (* getTerminalSize(): the columns the terminal reports, or those of
         the environment, or 80; int() may raise *)
  os_system : nat -> string -> Z;
      (* status returned by os.system(command), by number of earlier calls *)
}.

Definition M (A : Type) : Type := Trace -> Outcome A * Trace.

Definition ret {A} (a : A) : M A := fun tr => (Return a, tr).
Definition raise {A} (e : Exn) : M A := fun tr => (Raise e, tr).
Definition bind {A B} (m : M A) (k : A -> M B) : M B :=
  fun tr =>
    match m tr with
    | (Return a, tr') => k a tr'
    | (Raise e, tr') => (Raise e, tr')
    end.
Definition lift {A} (o : Outcome A) : M A := fun tr => (o, tr).
Definition emit (e : Event) : M unit := fun tr => (Return tt, (tr ++ [e])%list).

(** [try: m except ...]: the outcome of [m] becomes a value. *)
Definition attempt {A} (m : M A) : M (Outcome A) :=
  fun tr => let '(o, tr') := m tr in (Return o, tr').

Definition when (b : bool) (m : M unit) : M unit := if b then m else ret tt.

(** Where [str.format] or [%] raises, the exception is an [Exception]. *)
Definition formatted (o : option string) : Outcome string :=
  match o with
  | Some s => Return s
  | None => Raise (PyError "KeyError" None)
  end.

(** [format] on a byte-string template whose fields are unicode texts:
    where it raises, a field could not be encoded. *)
Definition encoded (o : option string) : Outcome string :=
  match o with
  | Some s => Return s
  | None => Raise (PyError "UnicodeEncodeError" None)
  end.

Definition print (s : string) : M unit := emit (EvPut Out (s ++ Py.nl)).
Definition stdout_write (s : string) : M unit := emit (EvPut Out s).
Definition stderr_write (s : string) : M unit := emit (EvPut Err s).

Definition is_connect (e : Event) : bool :=
  match e with EvConnect => true | _ => false end.
Definition is_system (e : Event) : bool :=
  match e with EvSystem _ => true | _ => false end.

Definition connects (tr : Trace) : nat := List.length (filter is_connect tr).
Definition systems (tr : Trace) : nat := List.length (filter is_system tr).

(** Seconds slept, over a trace. *)
Fixpoint slept (tr : Trace) : Z :=
  match tr with
  | [] => 0%Z
  | EvSleep n :: tr' => (n + slept tr')%Z
  | _ :: tr' => slept tr'
  end.

Definition sleeps (tr : Trace) : list Z :=
  flat_map (fun e => match e with EvSleep n => [n] | _ => [] end) tr.

Definition executed (tr : Trace) : list (string * list string) :=
  flat_map (fun e => match e with EvExecute _ q ps => [(q, ps)] | _ => [] end) tr.

Definition written (f : Stream) (tr : Trace) : list string :=
  flat_map (fun e => match e with
                     | EvPut Out s => match f with Out => [s] | Err => [] end
                     | EvPut Err s => match f with Err => [s] | Out => [] end
                     | _ => []
                     end) tr.

Definition commands (tr : Trace) : list string :=
  flat_map (fun e => match e with EvSystem c => [c] | _ => [] end) tr.

Definition mysql_connect (env : Env) : M Connection :=
  fun tr => (db_connect env (connects tr), (tr ++ [EvConnect])%list).

Definition time_sleep (seconds : Z) : M unit := emit (EvSleep seconds).

Definition cursor_execute_fetchall (env : Env) (c : Connection)
    (sql : string) (params : list string) : M (list Row) :=
  fun tr => (db_fetch env c sql params, (tr ++ [EvExecute c sql params])%list).

Definition system (env : Env) (command : string) : M Z :=
  fun tr => (Return (os_system env (systems tr) command),
            (tr ++ [EvSystem command])%list).

Definition MAX_ATTEMPTS : nat := 3.
Definition CONNECTION_WAIT : Z := 2.

Module Notations.
  Notation "x <- m ;; k" := (bind m (fun x => k))
    (at level 61, m at next level, right associativity).
  Notation "m ;; k" := (bind m (fun _ => k))
    (at level 61, right associativity).
End Notations.
Import Notations.

(** The connection loop, which the two programs share word for word:
<<
    connection = None
    connection_attempts = 0
    while connection is None and connection_attempts < MAX_ATTEMPTS:
        try:
            connection = MySQLdb.connect( **SQL_DSN )
        except Exception as e:
            if DEBUG: sys.stderr.write(...)
            time.sleep(CONNECTION_WAIT)
            connection_attempts += 1
>>
    [budget] bounds the number of iterations; [connect_loop_exit] below
    shows that the loop condition is false when [connect_loop] returns
    from the budget the programs give it, so the bound never cuts the
    loop short. *)
Definition loop_condition (connection : option Connection)
    (connection_attempts : nat) : bool :=
  match connection with
  | None => (connection_attempts <? MAX_ATTEMPTS)%nat
  | Some _ => false
  end.

Fixpoint connect_loop (env : Env) (budget : nat)
    (connection : option Connection) (connection_attempts : nat)
    : M (option Connection * nat) :=
  match budget with
  | O => ret (connection, connection_attempts)
  | S budget' =>
      if loop_condition connection connection_attempts then
        r <- attempt (mysql_connect env) ;;
        match r with
        | Return c => connect_loop env budget' (Some c) connection_attempts
        | Raise KeyboardInterrupt => raise KeyboardInterrupt
        | Raise (PyError _ _) =>
            when (DEBUG env) (emit (EvDiagnostic Err "Connection error ")) ;;
            time_sleep CONNECTION_WAIT ;;
            connect_loop env budget' None (S connection_attempts)
        end
      else ret (connection, connection_attempts)
  end.

(** The loop and the test that follows it:
<<
    if not connection:
        e = Exception()
        e.user_msg = 'Unable to connect to {}'.format(SQL_DSN["host"])
        raise e
>> *)
Definition connect_with_retry (env : Env) : M Connection :=
  st <- connect_loop env MAX_ATTEMPTS None 0 ;;
  match fst st with
  | None =>
      user_msg <- lift (formatted (Py.format "Unable to connect to {}"
                                     [Py.text (SQL_DSN_host env)] [])) ;;
      raise (PyError "Exception" (Some user_msg))
  | Some connection => ret connection
  end.

(** [re.split(r'\s*,\s*', s)]: one pass over [s].  [cur] is the current
    piece without its trailing blanks, [pend] the blanks seen since its
    last other character (they belong to the separator if a comma
    follows), and [skipping] holds right after a comma, while the
    separator's trailing blanks are consumed. *)
Fixpoint re_split_go (s cur pend : string) (skipping : bool) : list string :=
  match s with
  | EmptyString => [cur ++ pend]
  | String c s' =>
      if Ascii.eqb c ","%char then cur :: re_split_go s' EmptyString EmptyString true
      else if Py.isspace c then
        if skipping then re_split_go s' cur pend true
        else re_split_go s' cur (pend ++ String c EmptyString) false
      else re_split_go s' (cur ++ pend ++ String c EmptyString) EmptyString false
  end.

Definition re_split_commas (s : string) : list string :=
  re_split_go s EmptyString EmptyString false.

Definition str_of_bool (b : bool) : string := if b then "True" else "False".

(** [try: ... except Exception as e: e.user_msg = msg; raise]. *)
Definition with_user_msg {A} (msg : string) (m : M A) : M A :=
  r <- attempt m ;;
  match r with
  | Return a => ret a
  | Raise KeyboardInterrupt => raise KeyboardInterrupt
  | Raise (PyError kind _) => raise (PyError kind (Some msg))
  end.

Fixpoint for_each {A S : Type} (body : S -> A -> M S) (l : list A) (st : S) : M S :=
  match l with
  | [] => ret st
  | a :: l' => st' <- body st a ;; for_each body l' st'
  end.

(** Reading a name or a key that may not be there yet. *)
Definition bound {A} (kind : string) (x : option A) : Outcome A :=
  match x with
  | Some a => Return a
  | None => Raise (PyError kind None)
  end.

End Runtime.

(** ** p3/apps/moduleQuery.py *)

Module ModuleQuery.
Import Runtime Runtime.Notations.

(** *** fetchBuildReports *)

Definition sql_by_name : string :=
"
        select
            br.*
        from
            build_report br
        where
            br.build_name like %s and
            br.build_stack_name in ({in_clause})
        order by
            app_name, br.build_order
    ".

Definition sql_fulltext : string :=
"
            select
                br.*
            from
                build_report br
            where
                br.report_text like %s and
                br.build_stack_name in ({in_clause})
            order by
                app_name, br.build_order
        ".

(** The template and the bound parameters [fetchBuildReports] hands to
    [cursor.execute]:
<<
    term = '%{}%'.format(search)
    format_strings = ','.join(['%s'] * len(build_stack_names))
    sql = sql_by_name.translate(None, "\n").format(in_clause=format_strings)
    if fulltext:
        sql = sql_fulltext.translate(None, "\n").format(in_clause=format_strings)
    ...
    wheres = [term]
    wheres.extend(build_stack_names)
>> *)
Definition build_query (search : string) (build_stack_names : list string)
    (fulltext : bool) : Outcome (string * list string) :=
  match Py.format "%{}%" [Py.text search] [] with
  | None => Raise (PyError "KeyError" None)
  | Some term =>
      let format_strings :=
        Py.join "," (repeat "%s" (List.length build_stack_names)) in
      match Py.format (Py.translate_delete Py.nl sql_by_name) []
              [("in_clause", Py.text format_strings)] with
      | None => Raise (PyError "KeyError" None)
      | Some sql =>
          match (if fulltext
                 then Py.format (Py.translate_delete Py.nl sql_fulltext) []
                        [("in_clause", Py.text format_strings)]
                 else Some sql) with
          | None => Raise (PyError "KeyError" None)
          | Some sql =>
              let wheres := ([term] ++ build_stack_names)%list in
              Return (sql, wheres)
          end
      end
  end.

Definition fetchBuildReports (env : Env) (search : string)
    (build_stack_names : list string) (fulltext : bool) : M (list Row) :=
  when (DEBUG env)
    (line <- lift (formatted
               (Py.format "search {}, build_stack_names {}, fulltext {}"
                  [Py.text search; Py.text (Py.join "," build_stack_names);
                   Py.text (str_of_bool fulltext)] [])) ;;
     print line) ;;
  q <- lift (build_query search build_stack_names fulltext) ;;
  connection <- connect_with_retry env ;;
  when (DEBUG env) (emit (EvDiagnostic Out EmptyString)) ;;
  cursor_execute_fetchall env connection (fst q) (snd q).

(** *** Parsed report documents *)

(** What [json.loads] returns.  Numbers are integers here; a dict is the
    list of its items in insertion order, the first binding of a key
    being the live one. *)
#[warnings="-register-all"]
Inductive JValue : Type :=
| JNull
| JBool (b : bool)
| JNum (z : Z)
| JStr (s : string)
| JList (l : list JValue)
| JObj (d : list (string * JValue)).

(** [bool(v)]. *)
Definition truthy (v : JValue) : bool :=
  match v with
  | JNull => false
  | JBool b => b
  | JNum z => negb (z =? 0)%Z
  | JStr s => negb (String.eqb s EmptyString)
  | JList l => match l with [] => false | _ => true end
  | JObj d => match d with [] => false | _ => true end
  end.

(** [v[key]] for a string [key]: a missing key is a [KeyError], and a
    value that is not a dict cannot be indexed by a string. *)
Definition getitem (v : JValue) (key : string) : Outcome JValue :=
  match v with
  | JObj d =>
      match Py.assoc key d with
      | Some x => Return x
      | None => Raise (PyError "KeyError" None)
      end
  | _ => Raise (PyError "TypeError" None)
  end.

Definition is_JStr (s : string) (v : JValue) : bool :=
  match v with
  | JStr s' => String.eqb s s'
  | _ => false
  end.

(** [key in v]. *)
Definition contains (key : string) (v : JValue) : Outcome bool :=
  match v with
  | JObj d => Return (match Py.assoc key d with Some _ => true | None => false end)
  | JList l => Return (existsb (is_JStr key) l)
  | JStr s => Return (match Py.after_first key s with Some _ => true | None => false end)
  | _ => Raise (PyError "TypeError" None)
  end.

(** [v.strip()]: only strings have the method. *)
Definition str_strip (v : JValue) : Outcome string :=
  match v with
  | JStr s => Return (Py.strip s)
  | _ => Raise (PyError "AttributeError" None)
  end.

(** [v.replace(old, new)], likewise. *)
Definition str_replace (old : ascii) (new : string) (v : JValue) : Outcome string :=
  match v with
  | JStr s => Return (Py.replace_char old new s)
  | _ => Raise (PyError "AttributeError" None)
  end.

Fixpoint all_strings (l : list JValue) : option (list string) :=
  match l with
  | [] => Some []
  | JStr s :: l' =>
      match all_strings l' with
      | Some r => Some (s :: r)
      | None => None
      end
  | _ :: _ => None
  end.

Fixpoint chars (s : string) : list string :=
  match s with
  | EmptyString => []
  | String c s' => String c EmptyString :: chars s'
  end.

(** Keys of the dicts the consolidated report builds ([apps] and the
    [build_stacks] of an application): lists and dicts cannot be hashed;
    [True == 1] and [False == 0]. *)
Definition hashable (k : JValue) : bool :=
  match k with
  | JList _ | JObj _ => false
  | _ => true
  end.

Definition as_number (k : JValue) : option Z :=
  match k with
  | JBool b => Some (if b then 1 else 0)%Z
  | JNum z => Some z
  | _ => None
  end.

Definition key_eqb (a b : JValue) : bool :=
  match a, b with
  | JStr x, JStr y => String.eqb x y
  | JNull, JNull => true
  | _, _ =>
      match as_number a, as_number b with
      | Some x, Some y => (x =? y)%Z
      | _, _ => false
      end
  end.

Fixpoint dict_get {V : Type} (k : JValue) (d : list (JValue * V)) : option V :=
  match d with
  | [] => None
  | (k', v) :: d' => if key_eqb k k' then Some v else dict_get k d'
  end.

(** [d[k] = v]: an existing key keeps its place. *)
Fixpoint dict_set {V : Type} (k : JValue) (v : V) (d : list (JValue * V))
    : list (JValue * V) :=
  match d with
  | [] => [(k, v)]
  | (k', v') :: d' =>
      if key_eqb k k' then (k', v) :: d' else (k', v') :: dict_set k v d'
  end.

Record TextWrapper : Type := {
  replace_whitespace : bool;
  width : Z;
  initial_indent : string;
  subsequent_indent : string;
}.

(** [details] of one application in [apps]. *)
Record AppDetails : Type := {
  details_build_stacks : list (JValue * list string);
      (* details["build_stacks"], a defaultdict(list) *)
  details_description : option JValue;
      (* details["description"] *)
}.

(** The variables of the first loop of [printConsolidatedReport] that
    are read after it; [None] is a name not yet bound. *)
Record LoopState : Type := {
  apps : list (JValue * AppDetails);
  moduletitle : option JValue;
  buildstack : option JValue;
  preferredbuildexplanation : option string;
}.

Definition parse_msg : string :=
  "Unable to parse the build report for this module.  Please report to rchelp.".

Definition dependency_template : string :=
"
    This module also loads:
{run_dependencies}
".

Definition comments_template : string :=
"
    Build comments:
{comments}
".

Definition activation_template : string :=
"
    {build_stack} activation:
{build_stack_activation}
".

Definition detail_template : string :=
"
{border}
  {app_name} : {build_name}
{border}
    Build flavor: {build_stack}
    Description:
{descriptionlines}
{commentsmessage}
    This module can be loaded as follows:
      {moduleloadlines}
{dependencymessage}
{buildstackactivationmessage}

".

Definition version_template : string :=
"{margin}{preferredbuild}{moduletitle:.<40} {buildcomments}".

Definition consolidated_template : string :=
"
{border}
  {app_name}
{border}
    Description:
{descriptionlines}

    Versions:
{versionlines}


    To find detailed information about a module, search the full name.

      module-query {example}

    You may need to specify the build " ++ Py.dquote ++ "flavor" ++ Py.dquote ++ " to get a single record

      module-query {example} --flavor '{exampleflavor}'

    {preferredbuildexplanation}


    ".

Definition no_match_template : string :=
"
Unable to find a match for '%s' 
search was limited to build flavors %s

".

Section Renderer.

(** Library code the renderers call and this development does not
    look into. *)

(** [json.loads]; [None] where it raises [ValueError]. *)
Variable json_loads : string -> option JValue.

(** The lines [TextWrapper.wrap] lays out, joined by newlines, for a
    positive width. *)
Variable wrap_layout : TextWrapper -> string -> string.

(** How [format] renders a value that is not a string. *)
Variable py_format : JValue -> Py.Arg.

(** The order in which Python 2 iterates over a dict, given its items
    in insertion order. *)
Variable dict_items : forall K V : Type, list (K * V) -> list (K * V).

Variable env : Env.

Definition arg_of (v : JValue) : Py.Arg :=
  match v with
  | JStr s => Py.text s
  | _ => py_format v
  end.

(** The same value as a field of a byte-string template: the values
    [json.loads] returns hold unicode texts. *)
Definition bytes_arg_of (v : JValue) : Py.Arg :=
  match v with
  | JStr s => Py.unicode s
  | _ => py_format v
  end.

(** [sep.join(v)]: a list of strings, the characters of a string, or
    the keys of a dict. *)
Definition join_value (sep : string) (v : JValue) : Outcome string :=
  match v with
  | JList l =>
      match all_strings l with
      | Some ss => Return (Py.join sep ss)
      | None => Raise (PyError "TypeError" None)
      end
  | JStr s => Return (Py.join sep (chars s))
  | JObj d => Return (Py.join sep (map fst (dict_items _ _ d)))
  | _ => Raise (PyError "TypeError" None)
  end.

(** [wrapper.fill(text)]: [text.expandtabs()] comes first and needs a
    string; [_wrap_chunks] then refuses a width that is not positive. *)
Definition fill (w : TextWrapper) (text : JValue) : Outcome string :=
  match text with
  | JStr s =>
      if (width w <=? 0)%Z then Raise (PyError "ValueError" None)
      else Return (wrap_layout w s)
  | _ => Raise (PyError "AttributeError" None)
  end.

Definition json_loads_column (v : option SqlValue) : Outcome JValue :=
  match v with
  | None => Raise (PyError "KeyError" None)
  | Some SqlNull => Raise (PyError "TypeError" None)
  | Some (SqlText s) =>
      match json_loads s with
      | Some br => Return br
      | None => Raise (PyError "ValueError" None)
      end
  end.

Definition load_report (buildreport : Row) : M JValue :=
  with_user_msg parse_msg
    (br <- lift (json_loads_column (Py.assoc "report_text" buildreport)) ;;
     when (DEBUG env) (emit (EvDiagnostic Out EmptyString)) ;;
     ret br).

(** The test that guards the comments, in both renderers: the key is
    there, its value is true and, stripped, is not the empty string. *)
Definition has_comments (br : JValue) : M bool :=
  present <- lift (contains "comments" br) ;;
  if present then
    comments <- lift (getitem br "comments") ;;
    if truthy comments then
      stripped <- lift (str_strip comments) ;;
      ret (negb (String.eqb stripped EmptyString))
    else ret false
  else ret false.

(** *** printDetailReport *)

Definition printDetailReport (buildreport : Row) (terminalsize : Z) : M unit :=
  let terminalsize := if (terminalsize =? 0)%Z then 80%Z else terminalsize in
  br <- load_report buildreport ;;
  let width := (terminalsize - 2)%Z in
  let textmargin := 6%Z in
  let textwidth := (width - textmargin * 2)%Z in
  let border := Py.str_mul "-" width in
  let wrapper :=
    {| replace_whitespace := false; width := textwidth;
       initial_indent := Py.str_mul " " textmargin;
       subsequent_indent := Py.str_mul " " textmargin |} in
  let descwrapper :=
    {| replace_whitespace := true; width := textwidth;
       initial_indent := Py.str_mul " " textmargin;
       subsequent_indent := Py.str_mul " " textmargin |} in
  app_name <- lift (getitem br "title") ;;
  run_dependencies <- lift (getitem br "run_dependencies") ;;
  dependencymessage <-
    (if truthy run_dependencies then
       joined <- lift (join_value " " run_dependencies) ;;
       filled <- lift (fill wrapper (JStr joined)) ;;
       lift (encoded (Py.format dependency_template []
                        [("run_dependencies", Py.unicode filled)]))
     else ret EmptyString) ;;
  comments_shown <- has_comments br ;;
  commentsmessage <-
    (if comments_shown then
       comments <- lift (getitem br "comments") ;;
       filled <- lift (fill wrapper comments) ;;
       lift (encoded (Py.format comments_template []
                        [("comments", Py.unicode filled)]))
     else ret EmptyString) ;;
  activation_present <- lift (contains "build_stack_activation" br) ;;
  activation_shown <-
    (if activation_present then
       v <- lift (getitem br "build_stack_activation") ;; ret (truthy v)
     else ret false) ;;
  buildstackactivationmessage <-
    (if activation_shown then
       build_stack <- lift (getitem br "build_stack") ;;
       build_stack_activation <- lift (getitem br "build_stack_activation") ;;
       filled <- lift (fill wrapper build_stack_activation) ;;
       lift (encoded (Py.format activation_template []
                        [("build_stack", bytes_arg_of build_stack);
                         ("build_stack_activation", Py.unicode filled)]))
     else ret EmptyString) ;;
  build_name <- lift (getitem br "name") ;;
  description <- lift (getitem br "description") ;;
  descriptionlines <- lift (fill descwrapper description) ;;
  activation <- lift (getitem br "activation") ;;
  moduleloadlines <-
    lift (str_replace "010"%char (Py.nl ++ "      ") activation) ;;
  build_stack <- lift (getitem br "build_stack") ;;
  report <- lift (formatted (Py.format detail_template []
                     [("border", Py.text border);
                      ("app_name", arg_of app_name);
                      ("build_name", arg_of build_name);
                      ("descriptionlines", Py.text descriptionlines);
                      ("moduleloadlines", Py.text moduleloadlines);
                      ("dependencymessage", Py.text dependencymessage);
                      ("commentsmessage", Py.text commentsmessage);
                      ("build_stack", arg_of build_stack);
                      ("buildstackactivationmessage",
                       Py.text buildstackactivationmessage)])) ;;
  print report.

(** *** printConsolidatedReport *)

(** A key that cannot be hashed makes the dict operation raise. *)
Definition hashed (k : JValue) : Outcome JValue :=
  if hashable k then Return k else Raise (PyError "TypeError" None).

(** [build_stacks[key].append(line)] on a [defaultdict(list)]. *)
Definition defaultdict_append (key : JValue) (line : string)
    (d : list (JValue * list string)) : list (JValue * list string) :=
  match dict_get key d with
  | Some lines => dict_set key (lines ++ [line])%list d
  | None => dict_set key [line] d
  end.

(** The body of the first loop, one row at a time. *)
Definition consolidate_row (versionwrapper : TextWrapper) (textmargin : Z)
    (st : LoopState) (buildreport : Row) : M LoopState :=
  br <- load_report buildreport ;;
  app_name <- lift (getitem br "title") ;;
  app_name <- lift (hashed app_name) ;;
  let apps :=
    match dict_get app_name (apps st) with
    | Some _ => apps st
    | None => dict_set app_name {| details_build_stacks := []; details_description := None |}
                (apps st)
    end in
  description <- lift (getitem br "description") ;;
  let apps :=
    match dict_get app_name apps with
    | Some details =>
        dict_set app_name {| details_build_stacks := details_build_stacks details;
                             details_description := Some description |} apps
    | None => apps
    end in
  moduletitle <- lift (getitem br "name") ;;
  buildstack <- lift (getitem br "build_stack") ;;
  comments_shown <- has_comments br ;;
  buildcomments <-
    (if comments_shown then lift (getitem br "comments")
     else ret (JStr EmptyString)) ;;
  preferred_build <- lift (getitem br "preferred_build") ;;
  let preferredbuild :=
    if truthy preferred_build then "* " else EmptyString in
  let preferredbuildexplanation :=
    if truthy preferred_build then "* denotes preferred build."
    else EmptyString in
  vstr <- lift (encoded (Py.format version_template []
                   [("margin", Py.text (Py.str_mul " " textmargin));
                    ("moduletitle", bytes_arg_of moduletitle);
                    ("buildcomments", bytes_arg_of buildcomments);
                    ("preferredbuild", Py.text preferredbuild)])) ;;
  key <- lift (getitem br "build_stack") ;;
  key <- lift (hashed key) ;;
  line <- lift (fill versionwrapper (JStr vstr)) ;;
  let apps :=
    match dict_get app_name apps with
    | Some details =>
        dict_set app_name
          {| details_build_stacks :=
               defaultdict_append key line (details_build_stacks details);
             details_description := details_description details |} apps
    | None => apps
    end in
  ret {| apps := apps;
         moduletitle := Some moduletitle;
         buildstack := Some buildstack;
         preferredbuildexplanation := Some preferredbuildexplanation |}.

(** The body of the second loop: the block of one application. *)
Definition print_app (border : string) (descwrapper buildstackwrapper : TextWrapper)
    (st : LoopState) (item : JValue * AppDetails) : M unit :=
  let '(app_name, details) := item in
  build_stack_strs <-
    for_each
      (fun (build_stack_strs : list string) (entry : JValue * list string) =>
         let '(build_stack, versionlines) := entry in
         label <- lift (fill buildstackwrapper build_stack) ;;
         let lines := ([label] ++ versionlines)%list in
         ret (build_stack_strs ++ [Py.join Py.nl lines])%list)
      (dict_items _ _ (details_build_stacks details)) [] ;;
  description <- lift (bound "KeyError" (details_description details)) ;;
  descriptionlines <- lift (fill descwrapper description) ;;
  example <- lift (bound "NameError" (moduletitle st)) ;;
  exampleflavor <- lift (bound "NameError" (buildstack st)) ;;
  explanation <- lift (bound "NameError" (preferredbuildexplanation st)) ;;
  report <- lift (formatted (Py.format consolidated_template []
                     [("border", Py.text border);
                      ("app_name", arg_of app_name);
                      ("descriptionlines", Py.text descriptionlines);
                      ("versionlines", Py.text (Py.join Py.nl build_stack_strs));
                      ("example", arg_of example);
                      ("exampleflavor", arg_of exampleflavor);
                      ("preferredbuildexplanation", Py.text explanation)])) ;;
  print report.

Definition empty_state : LoopState :=
  {| apps := []; moduletitle := None; buildstack := None;
     preferredbuildexplanation := None |}.

Definition printConsolidatedReport (buildreports : list Row) (terminalsize : Z)
    : M unit :=
  let terminalsize := if (terminalsize =? 0)%Z then 80%Z else terminalsize in
  let width := (terminalsize - 2)%Z in
  let textmargin := 6%Z in
  let textwidth := (width - textmargin * 2)%Z in
  let border := Py.str_mul "-" width in
  let descwrapper :=
    {| replace_whitespace := true; width := textwidth;
       initial_indent := Py.str_mul " " textmargin;
       subsequent_indent := Py.str_mul " " textmargin |} in
  let buildstackwrapper :=
    {| replace_whitespace := true; width := textwidth;
       initial_indent := Py.str_mul " " textmargin;
       subsequent_indent := Py.str_mul " " 30 |} in
  let versionwrapper :=
    {| replace_whitespace := true; width := textwidth;
       initial_indent := Py.str_mul " " textmargin;
       subsequent_indent := Py.str_mul " " 58 |} in
  st <- for_each (consolidate_row versionwrapper textmargin) buildreports
          empty_state ;;
  for_each (fun (_ : unit) item =>
              print_app border descwrapper buildstackwrapper st item)
    (dict_items _ _ (apps st)) tt.

(** *** main *)

(** The parsed command line.  [arg_verbose] is [None] when no [-v] was
    given, and [None > 0] is false in Python 2. *)
Record Args : Type := {
  arg_verbose : option nat;
  arg_build_stacks : string;
  arg_full_text : bool;
  arg_build_name : string;
}.

Definition verbose_on (a : Args) : bool :=
  match arg_verbose a with
  | Some n => (0 <? n)%nat
  | None => false
  end.

(** The [try] block of [main]. *)
Definition main_body (args : Args) : M Z :=
  let build_stack_names := re_split_commas (arg_build_stacks args) in
  when (verbose_on args) (print "Verbose mode on") ;;
  let build_name := arg_build_name args in
  when (verbose_on args)
    (line <- lift (formatted (Py.percent_format "Searching for %s" [build_name])) ;;
     print line) ;;
  buildreports <- fetchBuildReports env build_name build_stack_names
                    (arg_full_text args) ;;
  match buildreports with
  | [] =>
      msg <- lift (formatted (Py.percent_format no_match_template
                     [arg_build_name args; Py.join ", " build_stack_names])) ;;
      stderr_write msg ;;
      ret 1%Z
  | [buildreport] =>
      terminalsize <- lift (getTerminalSize env) ;;
      printDetailReport buildreport terminalsize ;;
      ret 0%Z
  | _ =>
      terminalsize <- lift (getTerminalSize env) ;;
      printConsolidatedReport buildreports terminalsize ;;
      ret 0%Z
  end.

(** [main] with its two [except] clauses. *)
Definition main (args : Args) : M Z :=
  r <- attempt (main_body args) ;;
  match r with
  | Return code => ret code
  | Raise KeyboardInterrupt => ret 0%Z
  | Raise (PyError _ user_msg) =>
      match user_msg, DEBUG env with
      | Some msg, false =>
          stderr_write (program_name env ++ ": " ++ msg ++ Py.nl)
      | _, _ => emit (EvDiagnostic Err (program_name env ++ ": "))
      end ;;
      stderr_write ("  for help use --help" ++ Py.nl) ;;
      ret 2%Z
  end.

End Renderer.

End ModuleQuery.

(** ** p3/apps/checkActivation.py *)

Module CheckActivation.
Import Runtime Runtime.Notations.

Definition sql_activation : string :=
"
        select
            b.name, b.activation
        from
            build b
                inner join build_stack bs on bs.id = b.build_stack_id
        where
            b.name like %s and
            bs.name in ({in_clause})
    ".

Definition no_match_template : string :=
"
Unable to find a match for '%s' 
search was limited to build flavors %s

".

(** The template and the bound parameters [fetchBuildActivation] hands
    to [cursor.execute]:
<<
    term = '%{}%'.format(search)
    format_strings = ','.join(['%s'] * len(build_stack_names))
    sql = sql_activation.translate(None, "\n").format(in_clause=format_strings)
    ...
    wheres = [term]
    wheres.extend(build_stack_names)
>> *)
Definition build_query (search : string) (build_stack_names : list string)
    : Outcome (string * list string) :=
  match Py.format "%{}%" [Py.text search] [] with
  | None => Raise (PyError "KeyError" None)
  | Some term =>
      let format_strings :=
        Py.join "," (repeat "%s" (List.length build_stack_names)) in
      match Py.format (Py.translate_delete Py.nl sql_activation) []
              [("in_clause", Py.text format_strings)] with
      | None => Raise (PyError "KeyError" None)
      | Some sql =>
          let wheres := ([term] ++ build_stack_names)%list in
          Return (sql, wheres)
      end
  end.

Definition fetchBuildActivation (env : Env) (search : string)
    (build_stack_names : list string) : M (list Row) :=
  when (DEBUG env)
    (line <- lift (formatted
               (Py.format "search {}, build_stack_names {}"
                  [Py.text search; Py.text (Py.join "," build_stack_names)] [])) ;;
     print line) ;;
  q <- lift (build_query search build_stack_names) ;;
  connection <- connect_with_retry env ;;
  when (DEBUG env) (emit (EvDiagnostic Out EmptyString)) ;;
  cursor_execute_fetchall env connection (fst q) (snd q).

Record Args : Type := {
  arg_build_stacks : string;
  arg_verbose : bool;
  arg_search : string;
}.

(** [build[column]]. *)
Definition column (build : Row) (name : string) : Outcome SqlValue :=
  bound "KeyError" (Py.assoc name build).

(** The text [format] shows for a column value; NULL is [None]. *)
Definition sql_text (v : SqlValue) : string :=
  match v with
  | SqlNull => "None"
  | SqlText s => s
  end.

(** A column value as an argument of [format] on a byte-string
    template: a text is unicode, since the connection is opened with
    [use_unicode], and is encoded with the ascii codec. *)
Definition sql_arg (v : SqlValue) : Py.Arg :=
  match v with
  | SqlNull => Py.text "None"
  | SqlText s => Py.unicode s
  end.

(** The command line [main] hands to [os.system] for one build. *)
Definition activation_command (activation : SqlValue) (verbosestr : string)
    : Outcome string :=
  encoded (Py.format "module purge && {} {}"
             [sql_arg activation; Py.text verbosestr] []).

(** [verbosestr], as [main] sets it before the loop. *)
Definition verbosestr (verbose : bool) : string :=
  if verbose then EmptyString else " 2> /dev/null 1> /dev/null".

(** The body of the loop over the builds. *)
Definition check_build (env : Env) (verbosestr : string) (_ : unit) (build : Row)
    : M unit :=
  activation <- lift (column build "activation") ;;
  name <- lift (column build "name") ;;
  line <- lift (encoded (Py.format "Attempting {} for build {}... "
                          [sql_arg activation; sql_arg name] [])) ;;
  stdout_write line ;;
  activation <- lift (column build "activation") ;;
  command <- lift (activation_command activation verbosestr) ;;
  status <- system env command ;;
  let result := if (status =? 0)%Z then "Success" else "Fail" in
  line <- lift (formatted (Py.format ("{}" ++ Py.nl) [Py.text result] [])) ;;
  stdout_write line.

(** The [try] block of [main]. *)
Definition main_body (env : Env) (args : Args) : M Z :=
  let build_stack_names := re_split_commas (arg_build_stacks args) in
  let search := arg_search args in
  let verbose := arg_verbose args in
  builds <- fetchBuildActivation env search build_stack_names ;;
  match builds with
  | [] =>
      msg <- lift (formatted (Py.percent_format no_match_template
                     [search; Py.join ", " build_stack_names])) ;;
      stderr_write msg ;;
      ret 1%Z
  | _ =>
      for_each (check_build env (verbosestr verbose)) builds tt ;;
      system env "module purge" ;;
      ret 0%Z
  end.

Definition main (env : Env) (args : Args) : M Z :=
  r <- attempt (main_body env args) ;;
  match r with
  | Return code => ret code
  | Raise KeyboardInterrupt => ret 0%Z
  | Raise (PyError _ user_msg) =>
      match user_msg, DEBUG env with
      | Some msg, false =>
          stderr_write (program_name env ++ ": " ++ msg ++ Py.nl)
      | _, _ => emit (EvDiagnostic Err (program_name env ++ ": "))
      end ;;
      stderr_write ("  for help use --help" ++ Py.nl) ;;
      ret 2%Z
  end.

End CheckActivation.

(** ** Reading the models' results *)

Module Reading.
Import Runtime.

(** The parenthesised list that follows the keyword [in] in a query
    text: what stands between [" in ("] and the next [")"]. *)
Definition in_clause (sql : string) : option string :=
  match Py.after_first " in (" sql with
  | Some rest => Py.before_char ")"%char rest
  | None => None
  end.

(** Whether the [n]-th call of [MySQLdb.connect] raises an [Exception]. *)
Definition connect_fails (env : Env) (n : nat) : bool :=
  match db_connect env n with
  | Raise (PyError _ _) => true
  | _ => false
  end.

(** What one failed iteration of the connection loop leaves in the trace. *)
Definition failed_attempt (env : Env) : Trace :=
  ([EvConnect]
   ++ (if DEBUG env then [EvDiagnostic Err "Connection error "] else [])
   ++ [EvSleep CONNECTION_WAIT])%list.

Fixpoint failed_attempts (env : Env) (n : nat) : Trace :=
  match n with
  | O => []
  | S n' => (failed_attempt env ++ failed_attempts env n')%list
  end.

(** [','.join(['%s'] * n)] *)
Definition placeholders (n : nat) : string := Py.join "," (repeat "%s" n).

(** The query texts in closed form, as functions of the number of
    flavors and of the search mode alone; [module_query_build_query] and
    [check_activation_build_query] below show that the programs build
    exactly these. *)
Definition module_query_sql (n : nat) (fulltext : bool) : string :=
  if fulltext
  then "            select                br.*            from                build_report br            where                br.report_text like %s and                br.build_stack_name in ("
       ++ placeholders n ++ ")            order by                app_name, br.build_order        "
  else "        select            br.*        from            build_report br        where            br.build_name like %s and            br.build_stack_name in ("
       ++ placeholders n ++ ")        order by            app_name, br.build_order    ".

Definition check_activation_sql (n : nat) : string :=
  "        select            b.name, b.activation        from            build b                inner join build_stack bs on bs.id = b.build_stack_id        where            b.name like %s and            bs.name in ("
  ++ placeholders n ++ ")    ".

(** What the [DEBUG] lines of the fetch functions leave in the trace. *)
Definition debug_call (env : Env) (line : string) : Trace :=
  if DEBUG env then [EvPut Out (line ++ Py.nl)] else [].

Definition debug_params (env : Env) : Trace :=
  if DEBUG env then [EvDiagnostic Out EmptyString] else [].








(** What the two [verbose] prints of module-query's [main] leave in the
    trace. *)
Definition verbose_events (args : ModuleQuery.Args) : Trace :=
  if ModuleQuery.verbose_on args
  then [EvPut Out ("Verbose mode on" ++ Py.nl);
        EvPut Out ("Searching for " ++ ModuleQuery.arg_build_name args ++ Py.nl)]
  else [].

(** What the [except Exception] clause of [main] leaves in the trace. *)
Definition failure_events (env : Env) (user_msg : option string) : Trace :=
  [match user_msg, DEBUG env with
   | Some msg, false => EvPut Err (program_name env ++ ": " ++ msg ++ Py.nl)
   | _, _ => EvDiagnostic Err (program_name env ++ ": ")
   end;
   EvPut Err ("  for help use --help" ++ Py.nl)].

(** How [main] ends once [m], the rest of its [try] block, has run. *)
Definition finish (env : Env) (r : Outcome unit * Trace) : Outcome Z * Trace :=
  match r with
  | (Return _, tr) => (Return 0%Z, tr)
  | (Raise KeyboardInterrupt, tr) => (Return 0%Z, tr)
  | (Raise (PyError _ user_msg), tr) =>
      (Return 2%Z, (tr ++ failure_events env user_msg)%list)
  end.

(** A computation that writes nothing to standard output, and one that,
    when it returns, has written exactly one text there, a report
    followed by the newline [print] adds. *)
Definition quiet {A : Type} (m : M A) : Prop :=
  forall tr, written Out (snd (m tr)) = written Out tr.

Definition prints_one (m : M unit) : Prop :=
  forall tr tr',
    m tr = (Return tt, tr') ->
    exists report : string,
      written Out tr' = (written Out tr ++ [(report ++ Py.nl)%string])%list.


Definition is_ascii_string (v : option ModuleQuery.JValue) : bool :=
  match v with
  | Some (ModuleQuery.JStr s) => Py.is_ascii s
  | _ => false
  end.












(** The legend a row sets, from the value of its [preferred_build], and
    a block of the consolidated report that carries a given legend. *)
Definition legend_of (preferred_build : ModuleQuery.JValue) : string :=
  if ModuleQuery.truthy preferred_build then "* denotes preferred build."
  else EmptyString.

Definition block_with_legend (py_format : ModuleQuery.JValue -> Py.Arg)
    (legend block : string) : Prop :=
  exists border app_name descriptionlines versionlines example exampleflavor,
    Py.format ModuleQuery.consolidated_template []
      [("border", Py.text border);
       ("app_name", ModuleQuery.arg_of py_format app_name);
       ("descriptionlines", Py.text descriptionlines);
       ("versionlines", Py.text versionlines);
       ("example", ModuleQuery.arg_of py_format example);
       ("exampleflavor", ModuleQuery.arg_of py_format exampleflavor);
       ("preferredbuildexplanation", Py.text legend)]
    = Some block.



(** The message both programs write when nothing matched. *)
Definition no_match_message (search : string) (names : list string) : string :=
  Py.nl ++ "Unable to find a match for '" ++ search ++ "' " ++ Py.nl
  ++ "search was limited to build flavors " ++ Py.join ", " names
  ++ Py.nl ++ Py.nl.

End Reading.

(** ** Sample surroundings and documents

    Concrete environments, rows and library functions on which the
    theorems below are instantiated. *)

Module Samples.
Import Runtime ModuleQuery.

(** The database refuses the first connection and accepts the second. *)
Definition second_try (n : nat) : Outcome Connection :=
  match n with
  | 1 => Return 7
  | _ => Raise (PyError "OperationalError" None)
  end.

Definition always_down (n : nat) : Outcome Connection :=
  Raise (PyError "OperationalError" None).

Definition first_try (n : nat) : Outcome Connection := Return 7.

(** The second shell command fails, the others succeed. *)
Definition second_fails (n : nat) (command : string) : Z :=
  match n with
  | 1 => 256%Z
  | _ => 0%Z
  end.

Definition sample_env (connect : nat -> Outcome Connection) (rows : list Row)
    : Env :=
  {| DEBUG := false;
     SQL_DSN_host := "rcdb-internal";
     program_name := "module-query";
     db_connect := connect;
     db_fetch := fun _ _ _ => Return rows;
     getTerminalSize := Return 80%Z;
     os_system := second_fails |}.

Definition gcc9 : JValue :=
  JObj [("title", JStr "gcc"); ("name", JStr "gcc/9.1-fasrc01");
        ("description", JStr "GNU compilers");
        ("activation", JStr "module load gcc/9.1-fasrc01");
        ("build_stack", JStr "HeLmod CentOS 7");
        ("run_dependencies", JList [JStr "gmp/6.1"; JStr "mpfr/4.0"]);
        ("preferred_build", JBool true)].

Definition gcc8 : JValue :=
  JObj [("title", JStr "gcc"); ("name", JStr "gcc/8.2-fasrc01");
        ("description", JStr "GNU compilers");
        ("activation", JStr "module load gcc/8.2-fasrc01");
        ("build_stack", JStr "HeLmod CentOS 7");
        ("run_dependencies", JList []);
        ("comments", JStr "older release");
        ("preferred_build", JBool false)].

(** A document with the four fields every report has and a flavor, but
    neither [run_dependencies] nor [preferred_build]. *)
Definition bare : JValue :=
  JObj [("title", JStr "R"); ("name", JStr "R/3.6-fasrc01");
        ("description", JStr "Statistics");
        ("activation", JStr "module load R/3.6-fasrc01");
        ("build_stack", JStr "Easy Build")].

(** The same with [run_dependencies] and [preferred_build], but without
    [build_stack]. *)
Definition no_flavor : JValue :=
  JObj [("title", JStr "R"); ("name", JStr "R/3.6-fasrc01");
        ("description", JStr "Statistics");
        ("activation", JStr "module load R/3.6-fasrc01");
        ("run_dependencies", JList []);
        ("preferred_build", JBool false)].

Definition r36 : JValue :=
  JObj [("title", JStr "R"); ("name", JStr "R/3.6-fasrc01");
        ("description", JStr "Statistics");
        ("activation", JStr "module load R/3.6-fasrc01");
        ("build_stack", JStr "Easy Build");
        ("run_dependencies", JList []);
        ("preferred_build", JBool true)].

(** A document with every field, whose [description] is a number. *)
Definition numbered : JValue :=
  JObj [("title", JStr "R"); ("name", JStr "R/3.6-fasrc01");
        ("description", JNum 36);
        ("activation", JStr "module load R/3.6-fasrc01");
        ("build_stack", JStr "Easy Build");
        ("run_dependencies", JList []);
        ("comments", JStr "none");
        ("preferred_build", JBool false)].

(** A text that is not ASCII: the word for a coffee house, whose last
    letter is U+00E9. *)
Definition cafe : string := "caf" ++ String "233"%char EmptyString.

(** A complete document whose [comments] is not ASCII. *)
Definition commented : JValue :=
  JObj [("title", JStr "R"); ("name", JStr "R/3.6-fasrc01");
        ("description", JStr "Statistics");
        ("activation", JStr "module load R/3.6-fasrc01");
        ("build_stack", JStr "Easy Build");
        ("run_dependencies", JList []);
        ("comments", JStr cafe);
        ("preferred_build", JBool false)].

Definition row (report_text : string) : Row :=
  [("report_text", SqlText report_text)].

(** A [json.loads] that knows the sample documents by name. *)
Definition json_loads (text : string) : option JValue :=
  if String.eqb text "gcc9" then Some gcc9
  else if String.eqb text "gcc8" then Some gcc8
  else if String.eqb text "bare" then Some bare
  else if String.eqb text "no_flavor" then Some no_flavor
  else if String.eqb text "r36" then Some r36
  else if String.eqb text "numbered" then Some numbered
  else if String.eqb text "commented" then Some commented
  else None.

(** A layout that indents the text and never breaks a line. *)
Definition wrap_layout (w : TextWrapper) (text : string) : string :=
  initial_indent w ++ text.

Definition py_format (v : JValue) : Py.Arg := fun _ => Some "?".

Definition dict_items (K V : Type) (items : list (K * V)) : list (K * V) := items.

Definition build (name activation : string) : Row :=
  [("name", SqlText name); ("activation", SqlText activation)].

End Samples.

(** ** getTerminalSize *)

Module Terminal.
Import Runtime.

(** A member of the pair [cr]: an integer, from [struct.unpack] or from
    the defaults 25 and 80, or the string an environment variable holds. *)
Inductive Size : Type :=
| SizeInt (z : Z)
| SizeStr (s : string).

(** What the operating system answers.  [ioctl_GWINSZ fd] is the pair
    of shorts [struct.unpack("hh", fcntl.ioctl(fd, TIOCGWINSZ, ...))]
    yields, rows first, and [None] where the inner function catches an
    exception and returns nothing; [open_ctermid] is the descriptor
    [os.open(os.ctermid(), os.O_RDONLY)] returns, and [None] where it
    raises; [int_of] is [int] on strings, [None] where it raises
    [ValueError]. *)
Record Tty : Type := {
  ioctl_GWINSZ : Z -> option (Z * Z);
  open_ctermid : option Z;
  LINES : option string;
  COLUMNS : option string;
  int_of : string -> option Z;
}.

(** [a or b] on values that are [None] or a pair; a pair is true. *)
Definition or_else {A : Type} (a b : option A) : option A :=
  match a with
  | Some _ => a
  | None => b
  end.

(** [env.get(name, default)]. *)
Definition env_get (v : option string) (default : Z) : Size :=
  match v with
  | Some s => SizeStr s
  | None => SizeInt default
  end.

(** [int(x)]. *)
Definition int (t : Tty) (x : Size) : Outcome Z :=
  match x with
  | SizeInt z => Return z
  | SizeStr s =>
      match int_of t s with
      | Some z => Return z
      | None => Raise (PyError "ValueError" None)
      end
  end.

Definition getTerminalSize (t : Tty) : Outcome Z :=
  let cr := or_else (ioctl_GWINSZ t 0)
              (or_else (ioctl_GWINSZ t 1) (ioctl_GWINSZ t 2)) in
  let cr :=
    match cr with
    | Some _ => cr
    | None =>
        match open_ctermid t with
        | Some fd => ioctl_GWINSZ t fd
        | None => None
        end
    end in
  let cr :=
    match cr with
    | Some (rows, columns) => (SizeInt rows, SizeInt columns)
    | None => (env_get (LINES t) 25, env_get (COLUMNS t) 80)
    end in
  int t (snd cr).

(** The surroundings of a process whose terminal is [t]. *)
Definition with_terminal (env : Env) (t : Tty) : Env :=
  {| DEBUG := DEBUG env;
     SQL_DSN_host := SQL_DSN_host env;
     program_name := program_name env;
     db_connect := db_connect env;
     db_fetch := db_fetch env;
     Runtime.getTerminalSize := getTerminalSize t;
     os_system := os_system env |}.

End Terminal.

(** ** setup.py *)

Module Setup.

(** The characters [[\d\.]] matches in a byte-string pattern. *)
Definition version_char (c : ascii) : bool :=
  let n := nat_of_ascii c in
  (((48 <=? n) && (n <=? 57)) || (n =? 46))%nat.

(** The longest run of [version_char]s at the head of [s], and what
    follows it. *)
Fixpoint version_run (s : string) : string * string :=
  match s with
  | EmptyString => (EmptyString, EmptyString)
  | String c s' =>
      if version_char c
      then let '(run, rest) := version_run s' in (String c run, rest)
      else (EmptyString, s)
  end.

(** The pattern [__version__ = '([\d\.]+)'] tried at the head of [s]:
    the group it captures.  The run is taken whole, since a shorter run
    is followed by a [version_char], not by the closing quote. *)
Definition match_here (s : string) : option string :=
  match Py.strip_prefix "__version__ = '" s with
  | Some rest =>
      match version_run rest with
      | (EmptyString, _) => None
      | (run, String "'"%char _) => Some run
      | _ => None
      end
  | None => None
  end.

(** [re.search(pattern, contents)]: the leftmost position that matches. *)
Fixpoint search (contents : string) : option string :=
  match match_here contents with
  | Some group => Some group
  | None =>
      match contents with
      | EmptyString => None
      | String _ contents' => search contents'
      end
  end.

(** [str.strip()] on a byte string. *)
Fixpoint lstrip_bytes (s : string) : string :=
  match s with
  | EmptyString => EmptyString
  | String c s' => if Py.isspace c then lstrip_bytes s' else s
  end.

Fixpoint rstrip_bytes (s : string) : string :=
  match s with
  | EmptyString => EmptyString
  | String c s' =>
      match rstrip_bytes s' with
      | EmptyString => if Py.isspace c then EmptyString else String c EmptyString
      | r => String c r
      end
  end.

(** A text of digits and dots. *)
Fixpoint all_version (s : string) : bool :=
  match s with
  | EmptyString => true
  | String c s' => version_char c && all_version s'
  end.

(** [getVersion], as a function of the text [f.read()] returns for
    [p3/apps/__init__.py]; a file that cannot be opened is outside the
    model. *)
Definition getVersion (file_contents : string) : string :=
  let version := "0.0.0" in
  let contents := rstrip_bytes (lstrip_bytes file_contents) in
  match search contents with
  | Some group => group
  | None => version
  end.

End Setup.

(** ** More vocabulary for the properties *)

Module Census.
Import Runtime.

(** A flavor name as the default list writes them: no comma, no blank
    at either end. *)
Definition starts_blank (s : string) : bool :=
  match s with
  | String c _ => Py.isspace c
  | EmptyString => false
  end.

Fixpoint ends_blank (s : string) : bool :=
  match s with
  | EmptyString => false
  | String c EmptyString => Py.isspace c
  | String _ s' => ends_blank s'
  end.

Definition plain_name (s : string) : bool :=
  negb (Py.mem_char ","%char s) && negb (starts_blank s) && negb (ends_blank s).

Fixpoint all_blank (s : string) : bool :=
  match s with
  | EmptyString => true
  | String c s' => Py.isspace c && all_blank s'
  end.

Fixpoint commas (s : string) : nat :=
  match s with
  | EmptyString => 0
  | String c s' => (if Ascii.eqb c ","%char then 1 else 0) + commas s'
  end.

(** Every character is one that [unicode.strip] removes. *)
Fixpoint all_space (s : string) : bool :=
  match s with
  | EmptyString => true
  | String c s' => Py.uni_isspace c && all_space s'
  end.

(** The version lines [apps] holds, over all applications and flavors. *)
Definition lines_of (details : ModuleQuery.AppDetails) : nat :=
  list_sum (map (fun entry : ModuleQuery.JValue * list string =>
                   List.length (snd entry))
              (ModuleQuery.details_build_stacks details)).

Definition total_lines
    (apps : list (ModuleQuery.JValue * ModuleQuery.AppDetails)) : nat :=
  list_sum (map (fun item : ModuleQuery.JValue * ModuleQuery.AppDetails =>
                   lines_of (snd item)) apps).

(** The [title] of the document a row holds. *)
Definition row_title (json_loads : string -> option ModuleQuery.JValue)
    (buildreport : Row) (title : ModuleQuery.JValue) : Prop :=
  exists br,
    ModuleQuery.json_loads_column json_loads (Py.assoc "report_text" buildreport)
    = Return br
    /\ ModuleQuery.getitem br "title" = Return title.

(** The keys of a dict after a key is used: a key equal to one already
    there adds nothing, another one comes last. *)
Definition add_key (keys : list ModuleQuery.JValue) (k : ModuleQuery.JValue)
    : list ModuleQuery.JValue :=
  if existsb (ModuleQuery.key_eqb k) keys then keys else (keys ++ [k])%list.

(** The distinct values of a list, in the order of their first
    occurrence. *)
Definition distinct (keys : list ModuleQuery.JValue) : list ModuleQuery.JValue :=
  fold_left add_key keys [].

(** A block of the consolidated report headed by [app_name]. *)
Definition block_for (py_format : ModuleQuery.JValue -> Py.Arg)
    (app_name : ModuleQuery.JValue) (block : string) : Prop :=
  exists border descriptionlines versionlines example exampleflavor legend,
    Py.format ModuleQuery.consolidated_template []
      [("border", Py.text border);
       ("app_name", ModuleQuery.arg_of py_format app_name);
       ("descriptionlines", Py.text descriptionlines);
       ("versionlines", Py.text versionlines);
       ("example", ModuleQuery.arg_of py_format example);
       ("exampleflavor", ModuleQuery.arg_of py_format exampleflavor);
       ("preferredbuildexplanation", Py.text legend)]
    = Some block.

(** A block of the consolidated report whose worked example names
    [example] and [exampleflavor]. *)
Definition block_with_example (py_format : ModuleQuery.JValue -> Py.Arg)
    (example exampleflavor : ModuleQuery.JValue) (block : string) : Prop :=
  exists border app_name descriptionlines versionlines legend,
    Py.format ModuleQuery.consolidated_template []
      [("border", Py.text border);
       ("app_name", ModuleQuery.arg_of py_format app_name);
       ("descriptionlines", Py.text descriptionlines);
       ("versionlines", Py.text versionlines);
       ("example", ModuleQuery.arg_of py_format example);
       ("exampleflavor", ModuleQuery.arg_of py_format exampleflavor);
       ("preferredbuildexplanation", Py.text legend)]
    = Some block.

(** A computation that writes nothing to standard output and is not
    interrupted, and one that, whenever it raises, raises an
    [Exception] and has written nothing to standard output. *)
Definition tame {A : Type} (m : M A) : Prop :=
  forall tr,
    written Out (snd (m tr)) = written Out tr
    /\ fst (m tr) <> Raise KeyboardInterrupt.

Definition fails_cleanly (m : M unit) : Prop :=
  forall tr e tr',
    m tr = (Raise e, tr') ->
    e <> KeyboardInterrupt
    /\ written Out tr' = written Out tr.

(** An event that writes to a stream, and a stretch of the trace made
    of such events only. *)
Definition is_output (e : Event) : bool :=
  match e with
  | EvPut _ _ | EvDiagnostic _ _ => true
  | _ => false
  end.

Definition output_only (evs : Trace) : Prop := forallb is_output evs = true.

(** A stretch of the trace that holds no event. *)
Definition no_event (evs : Trace) : Prop := evs = [].

(** What the [DEBUG] dumps of [n] parsed documents leave in the trace. *)
Definition debug_dumps (env : Env) (n : nat) : Trace :=
  if DEBUG env then repeat (EvDiagnostic Out EmptyString) n else [].

(** A shell command that begins by purging the loaded modules. *)
Definition purges_first (command : string) : bool :=
  match Py.strip_prefix "module purge" command with
  | Some _ => true
  | None => false
  end.

(** A stretch of the trace that writes and runs purging commands, and
    does nothing else. *)
Definition is_verifier_event (e : Event) : bool :=
  match e with
  | EvPut _ _ | EvDiagnostic _ _ => true
  | EvSystem command => purges_first command
  | _ => false
  end.

Definition verifier_only (evs : Trace) : Prop :=
  forallb is_verifier_event evs = true.

(** A computation that extends the trace by events that satisfy [P],
    whatever its outcome. *)
Definition adds (P : Trace -> Prop) {A : Type} (m : M A) : Prop :=
  forall tr, exists evs, snd (m tr) = (tr ++ evs)%list /\ P evs.

(** A database that refuses the first [k] connections; the next
    attempt is interrupted from the keyboard. *)
Definition interrupted_at (k n : nat) : Outcome Connection :=
  if (n <? k)%nat then Raise (PyError "OperationalError" None)
  else if (n =? k)%nat then Raise KeyboardInterrupt
  else Return 7.

(** A terminal that answers on no descriptor. *)
Definition no_terminal (columns : option string) : Terminal.Tty :=
  {| Terminal.ioctl_GWINSZ := fun _ => None;
     Terminal.open_ctermid := None;
     Terminal.LINES := None;
     Terminal.COLUMNS := columns;
     Terminal.int_of := fun s => if String.eqb s "132" then Some 132%Z else None |}.

(** The descriptors [getTerminalSize] asks, in the order it asks them:
    standard input, output and error, then the controlling terminal
    where it can be opened. *)
Definition descriptors (t : Terminal.Tty) : list Z :=
  ([0; 1; 2] ++ match Terminal.open_ctermid t with
                | Some fd => [fd]
                | None => []
                end)%Z%list.

(** No descriptor answers the window-size request. *)
Definition silent (t : Terminal.Tty) : Prop :=
  forall fd, In fd (descriptors t) -> Terminal.ioctl_GWINSZ t fd = None.

(** A terminal of 24 rows and [columns] columns that answers on the
    descriptor [fd] only. *)
Definition answering (fd columns : Z) : Terminal.Tty :=
  {| Terminal.ioctl_GWINSZ :=
       fun d => if (d =? fd)%Z then Some (24%Z, columns) else None;
     Terminal.open_ctermid := None;
     Terminal.LINES := None;
     Terminal.COLUMNS := None;
     Terminal.int_of := fun _ => None |}.

(** [module-query --flavors flavors name] and
    [check-activation --flavors flavors name]. *)
Definition query (flavors name : string) : ModuleQuery.Args :=
  {| ModuleQuery.arg_verbose := None;
     ModuleQuery.arg_build_stacks := flavors;
     ModuleQuery.arg_full_text := false;
     ModuleQuery.arg_build_name := name |}.

Definition check (flavors name : string) : CheckActivation.Args :=
  {| CheckActivation.arg_build_stacks := flavors;
     CheckActivation.arg_verbose := false;
     CheckActivation.arg_search := name |}.

End Census.
(** * Properties *)

(** ** The query builder *)

Section QueryBuilder.
Import Runtime Reading.

Lemma append_empty_r (s : string) : s ++ EmptyString = s.
Proof. induction s as [|c s IH]; simpl; [reflexivity | now rewrite IH]. Qed.

Lemma placeholders_step (n : nat) :
  placeholders (S (S n)) = "%s," ++ placeholders (S n).
Proof. reflexivity. Qed.

Lemma placeholders_no_paren (n : nat) :
  Py.mem_char ")"%char (placeholders n) = false.
Proof.
  destruct n as [|n]; [reflexivity|].
  induction n as [|n IH]; [reflexivity|].
  rewrite placeholders_step. simpl. exact IH.
Qed.

Lemma placeholders_count (n : nat) :
  Py.count "%s" (placeholders n) = n.
Proof.
  destruct n as [|n]; [reflexivity|].
  induction n as [|n IH]; [reflexivity|].
  rewrite placeholders_step.
  unfold Py.count in *. simpl. now rewrite IH.
Qed.

Lemma before_char_app (c : ascii) (a b : string) :
  Py.mem_char c a = false ->
  Py.before_char c (a ++ String c b) = Some a.
Proof.
  induction a as [|d a IH]; simpl.
  - now rewrite Ascii.eqb_refl.
  - destruct (Ascii.eqb c d); [discriminate|].
    intros H. now rewrite (IH H).
Qed.

Lemma term_formatted (search : string) :
  Py.format "%{}%" [Py.text search] [] = Some ("%" ++ search ++ "%").
Proof. reflexivity. Qed.

Lemma by_name_formatted (fs : string) :
  Py.format (Py.translate_delete Py.nl ModuleQuery.sql_by_name) []
    [("in_clause", Py.text fs)]
  = Some ("        select            br.*        from            build_report br        where            br.build_name like %s and            br.build_stack_name in ("
          ++ fs ++ ")        order by            app_name, br.build_order    ").
Proof. reflexivity. Qed.

Lemma fulltext_formatted (fs : string) :
  Py.format (Py.translate_delete Py.nl ModuleQuery.sql_fulltext) []
    [("in_clause", Py.text fs)]
  = Some ("            select                br.*            from                build_report br            where                br.report_text like %s and                br.build_stack_name in ("
          ++ fs ++ ")            order by                app_name, br.build_order        ").
Proof. reflexivity. Qed.

Lemma activation_formatted (fs : string) :
  Py.format (Py.translate_delete Py.nl CheckActivation.sql_activation) []
    [("in_clause", Py.text fs)]
  = Some ("        select            b.name, b.activation        from            build b                inner join build_stack bs on bs.id = b.build_stack_id        where            b.name like %s and            bs.name in ("
          ++ fs ++ ")    ").
Proof. reflexivity. Qed.

Lemma module_query_build_query (search : string) (names : list string) (fulltext : bool) :
  ModuleQuery.build_query search names fulltext
  = Return (module_query_sql (List.length names) fulltext,
            ("%" ++ search ++ "%") :: names).
Proof.
  unfold ModuleQuery.build_query.
  rewrite term_formatted, by_name_formatted.
  destruct fulltext; [rewrite fulltext_formatted|]; reflexivity.
Qed.

Lemma check_activation_build_query (search : string) (names : list string) :
  CheckActivation.build_query search names
  = Return (check_activation_sql (List.length names), ("%" ++ search ++ "%") :: names).
Proof.
  unfold CheckActivation.build_query.
  now rewrite term_formatted, activation_formatted.
Qed.

Lemma module_query_in_clause (n : nat) (fulltext : bool) :
  in_clause (module_query_sql n fulltext) = Some (placeholders n).
Proof.
  unfold in_clause, module_query_sql.
  destruct fulltext.
  - change (Py.before_char ")"%char
              (placeholders n ++ String ")"%char "            order by                app_name, br.build_order        ")
            = Some (placeholders n)).
    apply before_char_app, placeholders_no_paren.
  - change (Py.before_char ")"%char
              (placeholders n ++ String ")"%char "        order by            app_name, br.build_order    ")
            = Some (placeholders n)).
    apply before_char_app, placeholders_no_paren.
Qed.

Lemma check_activation_in_clause (n : nat) :
  in_clause (check_activation_sql n) = Some (placeholders n).
Proof.
  unfold in_clause, check_activation_sql.
  change (Py.before_char ")"%char (placeholders n ++ String ")"%char "    ")
          = Some (placeholders n)).
  apply before_char_app, placeholders_no_paren.
Qed.


Lemma connect_loop_executed (env : Env) (budget : nat) :
  forall connection attempts tr,
    executed (snd (connect_loop env budget connection attempts tr)) = executed tr.
Proof.
  induction budget as [|budget IH]; intros connection attempts tr; [reflexivity|].
  simpl. destruct (loop_condition connection attempts); [|reflexivity].
  unfold bind, attempt, mysql_connect.
  destruct (db_connect env (connects tr)) as [c|[|kind um]]; simpl.
  - rewrite IH. unfold executed. rewrite flat_map_app. simpl. apply app_nil_r.
  - unfold executed. rewrite flat_map_app. simpl. apply app_nil_r.
  - unfold when, time_sleep, emit, ret. destruct (DEBUG env); simpl; rewrite IH;
      unfold executed; rewrite !flat_map_app; simpl; now rewrite ?app_nil_r.
Qed.

Lemma connect_with_retry_executed (env : Env) (tr : Trace) :
  executed (snd (connect_with_retry env tr)) = executed tr.
Proof.
  unfold connect_with_retry, bind.
  pose proof (connect_loop_executed env MAX_ATTEMPTS None 0 tr) as H.
  destruct (connect_loop env MAX_ATTEMPTS None 0 tr) as [[[conn n]|e] tr1]; simpl in *.
  - destruct conn; simpl; [exact H|].
    unfold lift, formatted. simpl. exact H.
  - exact H.
Qed.

Lemma debug_line_formatted (search names fulltext : string) :
  Py.format "search {}, build_stack_names {}, fulltext {}"
    [Py.text search; Py.text names; Py.text fulltext] []
  = Some ("search " ++ search ++ ", build_stack_names " ++ names
          ++ ", fulltext " ++ fulltext).
Proof.
  transitivity (Some ("search " ++ search ++ ", build_stack_names " ++ names
                      ++ ", fulltext " ++ fulltext ++ EmptyString));
    [reflexivity | now rewrite append_empty_r].
Qed.

Lemma debug_line_formatted' (search names : string) :
  Py.format "search {}, build_stack_names {}" [Py.text search; Py.text names] []
  = Some ("search " ++ search ++ ", build_stack_names " ++ names).
Proof.
  transitivity (Some ("search " ++ search ++ ", build_stack_names " ++ names
                      ++ EmptyString));
    [reflexivity | now rewrite append_empty_r].
Qed.

Ltac run_fetch :=
  cbv [bind lift formatted print stdout_write stderr_write emit ret raise
       cursor_execute_fetchall when fst snd];
  rewrite ?app_nil_r;
  match goal with
  | |- context [connect_with_retry ?env ?tr] =>
      destruct (connect_with_retry env tr) as [[?c|?e] ?tr1];
      rewrite <- ?app_assoc; reflexivity
  end.

(** What [fetchBuildReports] does, step by step. *)
Lemma fetchBuildReports_run (env : Env) (search : string) (names : list string)
    (fulltext : bool) (tr : Trace) :
  let sql := module_query_sql (List.length names) fulltext in
  let params := ("%" ++ search ++ "%") :: names in
  let line := "search " ++ search ++ ", build_stack_names " ++ Py.join "," names
              ++ ", fulltext " ++ str_of_bool fulltext in
  ModuleQuery.fetchBuildReports env search names fulltext tr =
  match connect_with_retry env (tr ++ debug_call env line)%list with
  | (Return c, tr1) =>
      (db_fetch env c sql params,
       (tr1 ++ debug_params env ++ [EvExecute c sql params])%list)
  | (Raise e, tr1) => (Raise e, tr1)
  end.
Proof.
  intros sql params line.
  unfold ModuleQuery.fetchBuildReports.
  rewrite module_query_build_query, debug_line_formatted.
  fold sql params line.
  unfold debug_call, debug_params.
  destruct (DEBUG env); run_fetch.
Qed.

Lemma fetchBuildActivation_run (env : Env) (search : string) (names : list string)
    (tr : Trace) :
  let sql := check_activation_sql (List.length names) in
  let params := ("%" ++ search ++ "%") :: names in
  let line := "search " ++ search ++ ", build_stack_names " ++ Py.join "," names in
  CheckActivation.fetchBuildActivation env search names tr =
  match connect_with_retry env (tr ++ debug_call env line)%list with
  | (Return c, tr1) =>
      (db_fetch env c sql params,
       (tr1 ++ debug_params env ++ [EvExecute c sql params])%list)
  | (Raise e, tr1) => (Raise e, tr1)
  end.
Proof.
  intros sql params line.
  unfold CheckActivation.fetchBuildActivation.
  rewrite check_activation_build_query, debug_line_formatted'.
  fold sql params line.
  unfold debug_call, debug_params.
  destruct (DEBUG env); run_fetch.
Qed.

Lemma executed_app (a b : Trace) :
  executed (a ++ b)%list = (executed a ++ executed b)%list.
Proof. apply flat_map_app. Qed.

Lemma executed_debug_call (env : Env) (line : string) :
  executed (debug_call env line) = [].
Proof. unfold debug_call. now destruct (DEBUG env). Qed.

Lemma executed_debug_params (env : Env) : executed (debug_params env) = [].
Proof. unfold debug_params. now destruct (DEBUG env). Qed.

Lemma fetchBuildReports_executed (env : Env) (search : string)
    (names : list string) (fulltext : bool) (tr : Trace) :
  let tr' := snd (ModuleQuery.fetchBuildReports env search names fulltext tr) in
  let q := (module_query_sql (List.length names) fulltext,
            ("%" ++ search ++ "%") :: names) in
  executed tr' = executed tr \/ executed tr' = (executed tr ++ [q])%list.
Proof.
  intros tr' q. subst tr'. rewrite fetchBuildReports_run.
  match goal with
  | |- context [connect_with_retry env ?t] =>
      pose proof (connect_with_retry_executed env t) as H;
      destruct (connect_with_retry env t) as [[c|e] tr1]
  end; cbn [snd] in *;
    rewrite executed_app, executed_debug_call, app_nil_r in H.
  - right. now rewrite !executed_app, executed_debug_params, H.
  - now left.
Qed.

Lemma fetchBuildActivation_executed (env : Env) (search : string)
    (names : list string) (tr : Trace) :
  let tr' := snd (CheckActivation.fetchBuildActivation env search names tr) in
  let q := (check_activation_sql (List.length names),
            ("%" ++ search ++ "%") :: names) in
  executed tr' = executed tr \/ executed tr' = (executed tr ++ [q])%list.
Proof.
  intros tr' q. subst tr'. rewrite fetchBuildActivation_run.
  match goal with
  | |- context [connect_with_retry env ?t] =>
      pose proof (connect_with_retry_executed env t) as H;
      destruct (connect_with_retry env t) as [[c|e] tr1]
  end; cbn [snd] in *;
    rewrite executed_app, executed_debug_call, app_nil_r in H.
  - right. now rewrite !executed_app, executed_debug_params, H.
  - now left.
Qed.

End QueryBuilder.

Section QueryBuilderClaims.
Import Runtime Reading.

(** C1.  For a non-empty list [buildFlavors] of length N and any search
    string, the query [fetchBuildReports] builds (in name and in
    full-text mode) and the query [fetchBuildActivation] builds have an
    IN-clause holding exactly N [%s] placeholders, and N+1 bound
    parameters: the search string wrapped in [%] first, then the flavor
    names in their order.  This template and these parameters are the
    only thing either function ever submits to the database. *)
Theorem query_has_one_placeholder_per_flavor :
  forall (search : string) (buildFlavors : list string) (fulltext : bool),
    buildFlavors <> [] ->
    let N := List.length buildFlavors in
    (exists sql clause params,
        ModuleQuery.build_query search buildFlavors fulltext = Return (sql, params)
        /\ in_clause sql = Some clause
        /\ Py.count "%s" clause = N
        /\ List.length params = N + 1
        /\ params = ("%" ++ search ++ "%") :: buildFlavors
        /\ forall env tr,
             let tr' := snd (ModuleQuery.fetchBuildReports env search
                               buildFlavors fulltext tr) in
             executed tr' = executed tr
             \/ executed tr' = (executed tr ++ [(sql, params)])%list)
    /\ (exists sql clause params,
        CheckActivation.build_query search buildFlavors = Return (sql, params)
        /\ in_clause sql = Some clause
        /\ Py.count "%s" clause = N
        /\ List.length params = N + 1
        /\ params = ("%" ++ search ++ "%") :: buildFlavors
        /\ forall env tr,
             let tr' := snd (CheckActivation.fetchBuildActivation env search
                               buildFlavors tr) in
             executed tr' = executed tr
             \/ executed tr' = (executed tr ++ [(sql, params)])%list).
Proof.
  intros search buildFlavors fulltext _ N. split.
  - exists (module_query_sql N fulltext), (placeholders N),
      (("%" ++ search ++ "%") :: buildFlavors).
    repeat apply conj.
    + apply module_query_build_query.
    + apply module_query_in_clause.
    + apply placeholders_count.
    + simpl. fold N. lia.
    + reflexivity.
    + intros env tr. apply fetchBuildReports_executed.
  - exists (check_activation_sql N), (placeholders N),
      (("%" ++ search ++ "%") :: buildFlavors).
    repeat apply conj.
    + apply check_activation_build_query.
    + apply check_activation_in_clause.
    + apply placeholders_count.
    + simpl. fold N. lia.
    + reflexivity.
    + intros env tr. apply fetchBuildActivation_executed.
Qed.

Lemma query_has_one_placeholder_per_flavor_witness :
  exists sql clause params,
    ModuleQuery.build_query "gcc" ["HeLmod CentOS 7"; "Easy Build"] false
      = Return (sql, params)
    /\ in_clause sql = Some clause
    /\ Py.count "%s" clause = 2
    /\ params = ["%gcc%"; "HeLmod CentOS 7"; "Easy Build"].
Proof.
  destruct (query_has_one_placeholder_per_flavor "gcc"
              ["HeLmod CentOS 7"; "Easy Build"] false ltac:(discriminate))
    as [(sql & clause & params & Hq & Hc & Hn & _ & Hp & _) _].
  exists sql, clause, params. repeat split; assumption.
Defined.

(** C8.  Two calls of the query builder with the same number of flavor
    names and the same full-text flag produce the same template text,
    whatever the search strings and the flavor names are: these values
    reach the database only through the parameter list. *)
Theorem query_text_ignores_values :
  forall (search1 search2 : string) (flavors1 flavors2 : list string)
         (fulltext : bool),
    List.length flavors1 = List.length flavors2 ->
    (exists sql,
        ModuleQuery.build_query search1 flavors1 fulltext
          = Return (sql, ("%" ++ search1 ++ "%") :: flavors1)
        /\ ModuleQuery.build_query search2 flavors2 fulltext
          = Return (sql, ("%" ++ search2 ++ "%") :: flavors2))
    /\ (exists sql,
        CheckActivation.build_query search1 flavors1
          = Return (sql, ("%" ++ search1 ++ "%") :: flavors1)
        /\ CheckActivation.build_query search2 flavors2
          = Return (sql, ("%" ++ search2 ++ "%") :: flavors2)).
Proof.
  intros search1 search2 flavors1 flavors2 fulltext Hlen. split.
  - exists (module_query_sql (List.length flavors1) fulltext). split.
    + apply module_query_build_query.
    + rewrite Hlen. apply module_query_build_query.
  - exists (check_activation_sql (List.length flavors1)). split.
    + apply check_activation_build_query.
    + rewrite Hlen. apply check_activation_build_query.
Qed.

Lemma query_text_ignores_values_witness :
  exists sql,
    ModuleQuery.build_query "gcc" ["a"; "b"] true = Return (sql, ["%gcc%"; "a"; "b"])
    /\ ModuleQuery.build_query "x' or 1=1 --" ["c)"; "%s"] true
       = Return (sql, ["%x' or 1=1 --%"; "c)"; "%s"]).
Proof.
  exact (proj1 (query_text_ignores_values "gcc" "x' or 1=1 --"
                  ["a"; "b"] ["c)"; "%s"] true eq_refl)).
Defined.

End QueryBuilderClaims.

(** ** The connection loop *)

Section ConnectionManager.
Import Runtime Reading.

Variable env : Env.

Lemma connects_app (a b : Trace) :
  connects (a ++ b)%list = connects a + connects b.
Proof. unfold connects. now rewrite filter_app, length_app. Qed.

Lemma connects_failed_attempt : connects (failed_attempt env) = 1.
Proof. unfold failed_attempt. now destruct (DEBUG env). Qed.

Lemma connects_failed_attempts (n : nat) : connects (failed_attempts env n) = n.
Proof.
  induction n as [|n IH]; [reflexivity|].
  cbn [failed_attempts]. now rewrite connects_app, connects_failed_attempt, IH.
Qed.

Lemma connect_fails_raise (n : nat) :
  connect_fails env n = true ->
  exists kind user_msg, db_connect env n = Raise (PyError kind user_msg).
Proof.
  unfold connect_fails.
  destruct (db_connect env n) as [c|[|kind um]]; try discriminate.
  intros _. now exists kind, um.
Qed.

(** One iteration whose connection attempt raises an [Exception]. *)
Lemma connect_loop_failed_step (budget attempts : nat) (tr : Trace) :
  attempts < MAX_ATTEMPTS ->
  connect_fails env (connects tr) = true ->
  connect_loop env (S budget) None attempts tr
  = connect_loop env budget None (S attempts) (tr ++ failed_attempt env)%list.
Proof.
  intros Hlt Hfail.
  destruct (connect_fails_raise _ Hfail) as (kind & um & Hc).
  simpl. apply Nat.ltb_lt in Hlt. rewrite Hlt.
  unfold bind, attempt, mysql_connect. rewrite Hc.
  unfold failed_attempt, when, time_sleep, emit, ret.
  destruct (DEBUG env); simpl; now rewrite <- ?app_assoc.
Qed.

(** One iteration whose connection attempt succeeds ends the loop. *)
Lemma connect_loop_success_step (budget attempts : nat) (tr : Trace)
    (c : Connection) :
  attempts < MAX_ATTEMPTS ->
  db_connect env (connects tr) = Return c ->
  connect_loop env (S budget) None attempts tr
  = (Return (Some c, attempts), (tr ++ [EvConnect])%list).
Proof.
  intros Hlt Hc.
  simpl. apply Nat.ltb_lt in Hlt. rewrite Hlt.
  unfold bind, attempt, mysql_connect. rewrite Hc.
  now destruct budget.
Qed.

Lemma connect_loop_all_fail (budget : nat) :
  forall attempts tr,
    attempts + budget = MAX_ATTEMPTS ->
    (forall i, i < budget -> connect_fails env (connects tr + i) = true) ->
    connect_loop env budget None attempts tr
    = (Return (None, MAX_ATTEMPTS), (tr ++ failed_attempts env budget)%list).
Proof.
  induction budget as [|budget IH]; intros attempts tr Hsum Hfail.
  - simpl. rewrite app_nil_r, Nat.add_0_r in *. now subst.
  - rewrite connect_loop_failed_step.
    + rewrite IH.
      * cbn [failed_attempts]. now rewrite <- app_assoc.
      * lia.
      * intros i Hi. rewrite connects_app, connects_failed_attempt.
        replace (connects tr + 1 + i) with (connects tr + S i) by lia.
        apply Hfail. lia.
    + lia.
    + rewrite <- (Nat.add_0_r (connects tr)). apply Hfail. lia.
Qed.

Lemma connect_loop_first_success (k : nat) :
  forall budget attempts tr c,
    attempts + budget = MAX_ATTEMPTS ->
    k < budget ->
    (forall i, i < k -> connect_fails env (connects tr + i) = true) ->
    db_connect env (connects tr + k) = Return c ->
    connect_loop env budget None attempts tr
    = (Return (Some c, attempts + k),
       (tr ++ failed_attempts env k ++ [EvConnect])%list).
Proof.
  induction k as [|k IH]; intros budget attempts tr c Hsum Hk Hfail Hc;
    (destruct budget as [|budget]; [lia|]).
  - rewrite Nat.add_0_r in *. simpl failed_attempts.
    apply connect_loop_success_step; [lia | exact Hc].
  - rewrite connect_loop_failed_step.
    + rewrite (IH budget (S attempts) _ c).
      * cbn [failed_attempts]. rewrite <- !app_assoc.
        now replace (S attempts + k) with (attempts + S k) by lia.
      * lia.
      * lia.
      * intros i Hi. rewrite connects_app, connects_failed_attempt.
        replace (connects tr + 1 + i) with (connects tr + S i) by lia.
        apply Hfail. lia.
      * rewrite connects_app, connects_failed_attempt.
        replace (connects tr + 1 + k) with (connects tr + S k) by lia.
        exact Hc.
    + lia.
    + rewrite <- (Nat.add_0_r (connects tr)). apply Hfail. lia.
Qed.

(** The loop never makes more connection attempts than its budget. *)
Lemma connects_snoc (tr : Trace) (e : Event) :
  connects (tr ++ [e])%list = connects tr + (if is_connect e then 1 else 0).
Proof. rewrite connects_app. unfold connects. simpl. now destruct (is_connect e). Qed.

Lemma connect_loop_bound (budget : nat) :
  forall connection attempts tr,
    connects (snd (connect_loop env budget connection attempts tr))
    <= connects tr + budget.
Proof.
  induction budget as [|budget IH]; intros connection attempts tr.
  - simpl. lia.
  - cbn [connect_loop].
    destruct (loop_condition connection attempts); [|cbn [ret snd]; lia].
    unfold bind, attempt, mysql_connect.
    destruct (db_connect env (connects tr)) as [c|[|kind um]].
    + etransitivity; [apply IH|]. rewrite connects_snoc. simpl. lia.
    + cbn [raise snd]. rewrite connects_snoc. simpl. lia.
    + unfold when, time_sleep, emit, ret.
      destruct (DEBUG env);
        (etransitivity; [apply IH|]); rewrite !connects_snoc; simpl; lia.
Qed.

(** The loop condition is false when the loop returns: the budget the
    programs give it never cuts the loop short. *)
Lemma connect_loop_exit (budget : nat) :
  forall connection attempts tr st tr',
    connection <> None \/ MAX_ATTEMPTS <= attempts + budget ->
    connect_loop env budget connection attempts tr = (Return st, tr') ->
    loop_condition (fst st) (snd st) = false.
Proof.
  induction budget as [|budget IH]; intros connection attempts tr st tr' Hinv.
  - simpl. unfold ret. intros [= <- <-]. simpl.
    destruct connection; [reflexivity|]. apply Nat.ltb_ge.
    destruct Hinv; [congruence | lia].
  - cbn [connect_loop]. destruct (loop_condition connection attempts) eqn:Hcond.
    + unfold bind, attempt, mysql_connect.
      destruct (db_connect env (connects tr)) as [c|[|kind um]].
      * apply IH. left. discriminate.
      * discriminate.
      * unfold when, time_sleep, emit, ret.
        destruct connection; [discriminate|].
        destruct (DEBUG env); apply IH; right;
          (destruct Hinv; [congruence | lia]).
    + unfold ret. now intros [= <- <-].
Qed.

Lemma host_formatted (host : string) :
  Py.format "Unable to connect to {}" [Py.text host] []
  = Some ("Unable to connect to " ++ host).
Proof.
  transitivity (Some ("Unable to connect to " ++ host ++ EmptyString));
    [reflexivity | now rewrite append_empty_r].
Qed.

Lemma connect_with_retry_all_fail (tr : Trace) :
  (forall i, i < MAX_ATTEMPTS -> connect_fails env (connects tr + i) = true) ->
  connect_with_retry env tr
  = (Raise (PyError "Exception"
              (Some ("Unable to connect to " ++ SQL_DSN_host env))),
     (tr ++ failed_attempts env MAX_ATTEMPTS)%list).
Proof.
  intros Hfail. unfold connect_with_retry, bind.
  rewrite (connect_loop_all_fail MAX_ATTEMPTS 0 tr eq_refl Hfail).
  cbn [fst]. unfold lift, formatted. now rewrite host_formatted.
Qed.

Lemma connect_with_retry_first_success (k : nat) (tr : Trace) (c : Connection) :
  k < MAX_ATTEMPTS ->
  (forall i, i < k -> connect_fails env (connects tr + i) = true) ->
  db_connect env (connects tr + k) = Return c ->
  connect_with_retry env tr
  = (Return c, (tr ++ failed_attempts env k ++ [EvConnect])%list).
Proof.
  intros Hk Hfail Hc. unfold connect_with_retry, bind.
  now rewrite (connect_loop_first_success k MAX_ATTEMPTS 0 tr c eq_refl Hk Hfail Hc).
Qed.

Lemma connect_with_retry_bound (tr : Trace) :
  connects (snd (connect_with_retry env tr)) <= connects tr + MAX_ATTEMPTS.
Proof.
  unfold connect_with_retry, bind.
  pose proof (connect_loop_bound MAX_ATTEMPTS None 0 tr) as H.
  destruct (connect_loop env MAX_ATTEMPTS None 0 tr) as [[[conn n]|e] tr1];
    [destruct conn|]; exact H.
Qed.

End ConnectionManager.

Section ConnectionManagerClaims.
Import Runtime Reading.

Lemma slept_app (a b : Trace) : slept (a ++ b)%list = (slept a + slept b)%Z.
Proof.
  induction a as [|e a IH]; [reflexivity|].
  destruct e; simpl; rewrite IH; lia.
Qed.

Lemma slept_failed_attempts (env : Env) (n : nat) :
  slept (failed_attempts env n) = (CONNECTION_WAIT * Z.of_nat n)%Z.
Proof.
  induction n as [|n IH]; [reflexivity|].
  cbn [failed_attempts]. rewrite slept_app, IH, Nat2Z.inj_succ.
  unfold failed_attempt, CONNECTION_WAIT.
  destruct (DEBUG env); cbn [slept app]; lia.
Qed.

Lemma sleeps_app (a b : Trace) : sleeps (a ++ b)%list = (sleeps a ++ sleeps b)%list.
Proof. apply flat_map_app. Qed.

Lemma sleeps_failed_attempts (env : Env) (n : nat) :
  sleeps (failed_attempts env n) = repeat CONNECTION_WAIT n.
Proof.
  induction n as [|n IH]; [reflexivity|].
  cbn [failed_attempts]. rewrite sleeps_app, IH.
  unfold failed_attempt. now destruct (DEBUG env).
Qed.

(** C2.  The connection loop calls [MySQLdb.connect] at most 3 times.
    If the 3 attempts fail, it raises an exception whose user-facing
    message names the configured host, after exactly 3 attempts.  If the
    first success is attempt k+1 (k < 3, the k earlier ones failing), it
    returns the connection of that attempt, after exactly k+1 attempts. *)
Theorem connection_attempts_bounded :
  forall (env : Env) (tr : Trace),
    let n0 := connects tr in
    let r := connect_with_retry env tr in
    connects (snd r) <= n0 + 3
    /\ ((forall i, i < 3 -> connect_fails env (n0 + i) = true) ->
        fst r = Raise (PyError "Exception"
                         (Some ("Unable to connect to " ++ SQL_DSN_host env)))
        /\ connects (snd r) = n0 + 3)
    /\ (forall (k : nat) (c : Connection),
          k < 3 ->
          (forall i, i < k -> connect_fails env (n0 + i) = true) ->
          db_connect env (n0 + k) = Return c ->
          fst r = Return c /\ connects (snd r) = n0 + (k + 1)).
Proof.
  intros env tr n0 r. subst n0 r. repeat apply conj.
  - apply connect_with_retry_bound.
  - intros Hfail. rewrite (connect_with_retry_all_fail env tr Hfail). split.
    + reflexivity.
    + cbn [snd]. now rewrite connects_app, connects_failed_attempts.
  - intros k c Hk Hfail Hc.
    rewrite (connect_with_retry_first_success env k tr c Hk Hfail Hc). split.
    + reflexivity.
    + cbn [snd]. rewrite !connects_app, connects_failed_attempts.
      unfold connects at 2. simpl. lia.
Qed.

Lemma connection_attempts_bounded_witness :
  let env := Samples.sample_env Samples.second_try [] in
  fst (connect_with_retry env []) = Return 7
  /\ connects (snd (connect_with_retry env [])) = 2.
Proof.
  intros env.
  destruct (connection_attempts_bounded env []) as (_ & _ & H).
  apply (H 1 7).
  - lia.
  - intros i Hi. assert (i = 0) as -> by lia. reflexivity.
  - reflexivity.
Defined.

(** C9.  When the 3 connection attempts fail, each of them, the last one
    included, is followed by a wait of 2 seconds: the loop leaves three
    failed attempts in the trace, each ending in its wait, so the
    process has slept 3 times, 6 seconds in all, when the exception is
    raised.  The same holds of the two fetch functions. *)
Theorem backoff_after_every_failed_attempt :
  forall (env : Env) (tr : Trace),
    (forall i, i < 3 -> connect_fails env (connects tr + i) = true) ->
    let failure := PyError "Exception"
                     (Some ("Unable to connect to " ++ SQL_DSN_host env)) in
    let r := connect_with_retry env tr in
    fst r = Raise failure
    /\ snd r = (tr ++ failed_attempt env ++ failed_attempt env
                   ++ failed_attempt env)%list
    /\ (exists before, failed_attempt env = (before ++ [EvSleep 2])%list)
    /\ sleeps (snd r) = (sleeps tr ++ [2; 2; 2])%list%Z
    /\ slept (snd r) = (slept tr + 6)%Z
    /\ (forall search names fulltext,
          let r := ModuleQuery.fetchBuildReports env search names fulltext tr in
          fst r = Raise failure /\ slept (snd r) = (slept tr + 6)%Z)
    /\ (forall search names,
          let r := CheckActivation.fetchBuildActivation env search names tr in
          fst r = Raise failure /\ slept (snd r) = (slept tr + 6)%Z).
Proof.
  intros env tr Hfail failure r. subst r failure.
  rewrite (connect_with_retry_all_fail env tr Hfail). cbn [fst snd].
  repeat apply conj.
  - reflexivity.
  - cbn [failed_attempts MAX_ATTEMPTS]. now rewrite app_nil_r.
  - unfold failed_attempt.
    exists (EvConnect :: (if DEBUG env
                          then [EvDiagnostic Err "Connection error "] else [])).
    now destruct (DEBUG env).
  - now rewrite sleeps_app, sleeps_failed_attempts.
  - rewrite slept_app, slept_failed_attempts. reflexivity.
  - intros search names fulltext. cbv zeta.
    rewrite fetchBuildReports_run.
    rewrite connect_with_retry_all_fail.
    + cbn [fst snd]. split; [reflexivity|].
      rewrite !slept_app, slept_failed_attempts.
      unfold debug_call. destruct (DEBUG env); simpl; lia.
    + intros i Hi. rewrite connects_app.
      replace (connects (debug_call env _)) with 0
        by (unfold debug_call; now destruct (DEBUG env)).
      rewrite Nat.add_0_r. now apply Hfail.
  - intros search names. cbv zeta.
    rewrite fetchBuildActivation_run.
    rewrite connect_with_retry_all_fail.
    + cbn [fst snd]. split; [reflexivity|].
      rewrite !slept_app, slept_failed_attempts.
      unfold debug_call. destruct (DEBUG env); simpl; lia.
    + intros i Hi. rewrite connects_app.
      replace (connects (debug_call env _)) with 0
        by (unfold debug_call; now destruct (DEBUG env)).
      rewrite Nat.add_0_r. now apply Hfail.
Qed.

Lemma backoff_after_every_failed_attempt_witness :
  let env := Samples.sample_env Samples.always_down [] in
  snd (connect_with_retry env [])
  = [EvConnect; EvSleep 2; EvConnect; EvSleep 2; EvConnect; EvSleep 2]
  /\ slept (snd (connect_with_retry env [])) = 6%Z.
Proof.
  intros env.
  destruct (backoff_after_every_failed_attempt env [])
    as (_ & Htr & _ & _ & Hslept & _).
  - intros i _. reflexivity.
  - split; [exact Htr | exact Hslept].
Defined.

End ConnectionManagerClaims.

(** ** The activation verifier *)

Section ActivationVerifier.
Import Runtime Reading.

Lemma no_match_formatted (template search names : string) :
  template = ModuleQuery.no_match_template
  \/ template = CheckActivation.no_match_template ->
  Py.percent_format template [search; names]
  = Some (Py.nl ++ "Unable to find a match for '" ++ search ++ "' " ++ Py.nl
          ++ "search was limited to build flavors " ++ names ++ Py.nl ++ Py.nl).
Proof. intros [-> | ->]; reflexivity. Qed.

Lemma unicode_ascii (s : string) :
  Py.is_ascii s = true -> Py.unicode s = Py.text s.
Proof. intros H. unfold Py.unicode. now rewrite H. Qed.


Lemma attempting_formatted (activation name : string) :
  Py.format "Attempting {} for build {}... " [Py.text activation; Py.text name] []
  = Some ("Attempting " ++ activation ++ " for build " ++ name ++ "... ").
Proof. reflexivity. Qed.

Lemma command_formatted (activation verbosestr : string) :
  Py.format "module purge && {} {}" [Py.text activation; Py.text verbosestr] []
  = Some ("module purge && " ++ activation ++ " " ++ verbosestr).
Proof.
  transitivity (Some ("module purge && " ++ activation ++ " " ++ verbosestr
                      ++ EmptyString));
    [reflexivity | now rewrite append_empty_r].
Qed.

Lemma result_formatted (result : string) :
  Py.format ("{}" ++ Py.nl) [Py.text result] [] = Some (result ++ Py.nl).
Proof. reflexivity. Qed.





End ActivationVerifier.

Section ActivationVerifierClaims.
Import Runtime Reading.



(** What [main] of check-activation does once the builds are fetched. *)
Lemma check_activation_main_run (env : Env) (args : CheckActivation.Args)
    (tr tr1 : Trace) (builds : list Row) :
  CheckActivation.fetchBuildActivation env (CheckActivation.arg_search args)
    (re_split_commas (CheckActivation.arg_build_stacks args)) tr
  = (Return builds, tr1) ->
  CheckActivation.main env args tr =
  match builds with
  | [] =>
      (Return 1%Z,
       (tr1 ++ [EvPut Err (no_match_message (CheckActivation.arg_search args)
                             (re_split_commas (CheckActivation.arg_build_stacks args)))])%list)
  | _ =>
      match for_each (CheckActivation.check_build env
                        (CheckActivation.verbosestr (CheckActivation.arg_verbose args)))
              builds tt tr1 with
      | (Return _, tr2) => (Return 0%Z, (tr2 ++ [EvSystem "module purge"])%list)
      | (Raise KeyboardInterrupt, tr2) => (Return 0%Z, tr2)
      | (Raise (PyError _ user_msg), tr2) =>
          (Return 2%Z,
           (tr2 ++ [match user_msg, DEBUG env with
                    | Some msg, false =>
                        EvPut Err (program_name env ++ ": " ++ msg ++ Py.nl)
                    | _, _ => EvDiagnostic Err (program_name env ++ ": ")
                    end;
                    EvPut Err ("  for help use --help" ++ Py.nl)])%list)
      end
  end.
Proof.
  intros Hfetch.
  unfold CheckActivation.main, CheckActivation.main_body, attempt, bind.
  rewrite Hfetch.
  destruct builds as [|build builds].
  - rewrite no_match_formatted by now right. reflexivity.
  - destruct (for_each _ (build :: builds) tt tr1) as [[[]|[|kind um]] tr2];
      try reflexivity.
    cbv [stderr_write emit ret].
    destruct um as [msg|], (DEBUG env); now rewrite <- app_assoc.
Qed.

(** C6 (the code departs from the claim).  Of three builds that match,
    the second with a name that is not ASCII, [main] of check-activation
    reports the first only: formatting the announcement of the second
    raises [UnicodeEncodeError], the third build is never tried, the
    closing purge is not run, and the exit code is 2, not 0. *)
Theorem verifier_stops_at_non_ascii_build :
  let env := Samples.sample_env Samples.first_try
               [Samples.build "gcc/9.1" "module load gcc/9.1";
                Samples.build Samples.cafe "module load gcc/9.1";
                Samples.build "R/3.6" "module load R/3.6"] in
  let args := {| CheckActivation.arg_build_stacks := "HeLmod CentOS 7,Easy Build";
                 CheckActivation.arg_verbose := true;
                 CheckActivation.arg_search := EmptyString |} in
  let r := CheckActivation.main env args [] in
  fst r = Return 2%Z
  /\ written Out (snd r)
     = ["Attempting module load gcc/9.1 for build gcc/9.1... ";
        "Success" ++ Py.nl]
  /\ commands (snd r) = ["module purge && module load gcc/9.1 "].
Proof. repeat split; vm_compute; reflexivity. Qed.

(** C10 (the code departs from the claim).  For a build whose name or
    whose activation is not ASCII the verifier runs no shell command
    and reports neither [Success] nor [Fail]: formatting the
    announcement raises [UnicodeEncodeError] before anything is
    written or run.  This is the defect C6 shows. *)
Theorem non_ascii_build_runs_no_command :
  let env := Samples.sample_env Samples.first_try [] in
  let check := CheckActivation.check_build env (CheckActivation.verbosestr false) tt in
  check (Samples.build Samples.cafe "module load gcc/9.1") []
  = (Raise (PyError "UnicodeEncodeError" None), [])
  /\ check (Samples.build "gcc/9.1" ("module load " ++ Samples.cafe)) []
     = (Raise (PyError "UnicodeEncodeError" None), []).
Proof. split; vm_compute; reflexivity. Qed.





End ActivationVerifierClaims.

(** ** module-query's main *)

Section ModuleQueryMain.
Import Runtime Reading.

Variable json_loads : string -> option ModuleQuery.JValue.
Variable wrap_layout : ModuleQuery.TextWrapper -> string -> string.
Variable py_format : ModuleQuery.JValue -> Py.Arg.
Variable dict_items : forall K V : Type, list (K * V) -> list (K * V).
Variable env : Env.

Local Abbreviation printDetailReport :=
  (ModuleQuery.printDetailReport json_loads wrap_layout py_format dict_items env).
Local Abbreviation printConsolidatedReport :=
  (ModuleQuery.printConsolidatedReport json_loads wrap_layout py_format
     dict_items env).
Local Abbreviation main_body :=
  (ModuleQuery.main_body json_loads wrap_layout py_format dict_items env).
Local Abbreviation main :=
  (ModuleQuery.main json_loads wrap_layout py_format dict_items env).

Lemma searching_formatted (name : string) :
  Py.percent_format "Searching for %s" [name] = Some ("Searching for " ++ name).
Proof.
  transitivity (Some ("Searching for " ++ name ++ EmptyString));
    [reflexivity | now rewrite append_empty_r].
Qed.

(** [main] turns the outcome of its [try] block into an exit code. *)
Lemma main_handles (args : ModuleQuery.Args) (tr : Trace) :
  main args tr =
  match main_body args tr with
  | (Return code, tr') => (Return code, tr')
  | (Raise KeyboardInterrupt, tr') => (Return 0%Z, tr')
  | (Raise (PyError _ user_msg), tr') =>
      (Return 2%Z, (tr' ++ failure_events env user_msg)%list)
  end.
Proof.
  unfold ModuleQuery.main, attempt, bind.
  destruct (main_body args tr) as [[code|[|kind um]] tr']; try reflexivity.
  unfold failure_events. cbv [stderr_write emit ret].
  destruct um as [msg|], (DEBUG env); now rewrite <- app_assoc.
Qed.

(** What the [try] block does once the rows are fetched. *)
Lemma main_body_run (args : ModuleQuery.Args) (tr tr1 : Trace)
    (buildreports : list Row) :
  let names := re_split_commas (ModuleQuery.arg_build_stacks args) in
  ModuleQuery.fetchBuildReports env (ModuleQuery.arg_build_name args) names
    (ModuleQuery.arg_full_text args) (tr ++ verbose_events args)%list
  = (Return buildreports, tr1) ->
  main_body args tr =
  match buildreports with
  | [] =>
      (Return 1%Z,
       (tr1 ++ [EvPut Err (no_match_message (ModuleQuery.arg_build_name args)
                             names)])%list)
  | [buildreport] =>
      match getTerminalSize env with
      | Return terminalsize =>
          match printDetailReport buildreport terminalsize tr1 with
          | (Return _, tr2) => (Return 0%Z, tr2)
          | (Raise e, tr2) => (Raise e, tr2)
          end
      | Raise e => (Raise e, tr1)
      end
  | _ =>
      match getTerminalSize env with
      | Return terminalsize =>
          match printConsolidatedReport buildreports terminalsize tr1 with
          | (Return _, tr2) => (Return 0%Z, tr2)
          | (Raise e, tr2) => (Raise e, tr2)
          end
      | Raise e => (Raise e, tr1)
      end
  end.
Proof.
  intros names Hfetch.
  unfold ModuleQuery.main_body. fold names.
  assert (forall k : unit -> M Z,
             bind (when (ModuleQuery.verbose_on args) (print "Verbose mode on"))
               (fun _ =>
                  bind (when (ModuleQuery.verbose_on args)
                          (bind (lift (formatted
                                   (Py.percent_format "Searching for %s"
                                      [ModuleQuery.arg_build_name args])))
                             (fun line => print line)))
                    k) tr
             = k tt (tr ++ verbose_events args)%list) as Hverbose.
  { intros k. rewrite searching_formatted. unfold verbose_events.
    destruct (ModuleQuery.verbose_on args);
      cbv [bind when lift formatted print emit ret].
    - now rewrite <- app_assoc.
    - now rewrite app_nil_r. }
  rewrite Hverbose. cbv beta. unfold bind at 1. rewrite Hfetch.
  destruct buildreports as [|buildreport [|second rest]].
  - rewrite no_match_formatted by now left. reflexivity.
  - cbv [bind lift ret]. destruct (getTerminalSize env) as [ts|e]; [|reflexivity].
    now destruct (printDetailReport buildreport ts tr1) as [[[]|e] tr2].
  - cbv [bind lift ret]. destruct (getTerminalSize env) as [ts|e]; [|reflexivity].
    now destruct (printConsolidatedReport (buildreport :: second :: rest) ts tr1)
      as [[[]|e] tr2].
Qed.

(** The [try] block of module-query's [main] when the fetch raises. *)
Lemma main_body_fetch_raises (args : ModuleQuery.Args) (tr tr1 : Trace) (e : Exn) :
  ModuleQuery.fetchBuildReports env (ModuleQuery.arg_build_name args)
    (re_split_commas (ModuleQuery.arg_build_stacks args))
    (ModuleQuery.arg_full_text args) (tr ++ verbose_events args)%list
  = (Raise e, tr1) ->
  ModuleQuery.main_body json_loads wrap_layout py_format dict_items env args tr
  = (Raise e, tr1).
Proof.
  intros Hfetch. unfold ModuleQuery.main_body.
  assert (forall k : unit -> M Z,
             bind (when (ModuleQuery.verbose_on args) (print "Verbose mode on"))
               (fun _ =>
                  bind (when (ModuleQuery.verbose_on args)
                          (bind (lift (formatted
                                   (Py.percent_format "Searching for %s"
                                      [ModuleQuery.arg_build_name args])))
                             (fun line => print line)))
                    k) tr
             = k tt (tr ++ verbose_events args)%list) as Hverbose.
  { intros k. rewrite searching_formatted. unfold verbose_events.
    destruct (ModuleQuery.verbose_on args);
      cbv [bind when lift formatted print emit ret].
    - now rewrite <- app_assoc.
    - now rewrite app_nil_r. }
  rewrite Hverbose. cbv beta. unfold bind at 1. now rewrite Hfetch.
Qed.

End ModuleQueryMain.

(** ** What the renderers write *)

Section Quiet.
Import Runtime Reading.

Lemma written_app (f : Stream) (a b : Trace) :
  written f (a ++ b)%list = (written f a ++ written f b)%list.
Proof. apply flat_map_app. Qed.

Lemma quiet_ret {A} (a : A) : quiet (ret a).
Proof. now intros tr. Qed.

Lemma quiet_raise {A} (e : Exn) : quiet (@raise A e).
Proof. now intros tr. Qed.

Lemma quiet_lift {A} (o : Outcome A) : quiet (lift o).
Proof. now intros tr. Qed.

Lemma quiet_bind {A B} (m : M A) (k : A -> M B) :
  quiet m -> (forall a, quiet (k a)) -> quiet (bind m k).
Proof.
  intros Hm Hk tr. unfold bind. specialize (Hm tr).
  destruct (m tr) as [[a|e] tr1]; cbn [snd] in *.
  - now rewrite Hk.
  - exact Hm.
Qed.

Lemma quiet_attempt {A} (m : M A) : quiet m -> quiet (attempt m).
Proof.
  intros Hm tr. unfold attempt. specialize (Hm tr).
  now destruct (m tr) as [o tr1].
Qed.

Lemma quiet_diagnostic (b : bool) (f : Stream) (text : string) :
  quiet (when b (emit (EvDiagnostic f text))).
Proof.
  intros tr. destruct b; cbn [when emit ret snd]; [|reflexivity].
  rewrite written_app. cbn. apply app_nil_r.
Qed.

Lemma quiet_with_user_msg {A} (msg : string) (m : M A) :
  quiet m -> quiet (with_user_msg msg m).
Proof.
  intros Hm. unfold with_user_msg. apply quiet_bind.
  - now apply quiet_attempt.
  - intros [a|[|kind um]]; [apply quiet_ret | apply quiet_raise | apply quiet_raise].
Qed.

Lemma quiet_for_each {A S} (body : S -> A -> M S) (l : list A) :
  (forall st a, quiet (body st a)) -> forall st, quiet (for_each body l st).
Proof.
  intros Hbody. induction l as [|a l IH]; intros st; cbn [for_each].
  - apply quiet_ret.
  - apply quiet_bind; [apply Hbody | exact IH].
Qed.

Lemma prints_one_print (report : string) : prints_one (print report).
Proof.
  intros tr tr' [= <-]. exists report. now rewrite written_app.
Qed.

Lemma prints_one_bind {A} (m : M A) (k : A -> M unit) :
  quiet m -> (forall a, prints_one (k a)) -> prints_one (bind m k).
Proof.
  intros Hm Hk tr tr'. unfold bind. specialize (Hm tr).
  destruct (m tr) as [[a|e] tr1]; cbn [snd] in *; [|discriminate].
  intros Hrun. destruct (Hk a tr1 tr' Hrun) as [report Hw].
  exists report. now rewrite Hw, Hm.
Qed.

End Quiet.

Ltac quiet_step :=
  first
    [ apply quiet_ret | apply quiet_raise | apply quiet_lift
    | apply quiet_diagnostic
    | apply quiet_with_user_msg
    | apply quiet_bind; [|intros ?]
    | match goal with
      | |- Reading.quiet (if ?b then _ else _) => destruct b
      | |- Reading.quiet (match ?x with _ => _ end) => destruct x
      | |- Reading.quiet (let _ := _ in _) => cbv zeta
      end ].

Section RendererOutput.
Import Runtime Reading.

Variable json_loads : string -> option ModuleQuery.JValue.
Variable wrap_layout : ModuleQuery.TextWrapper -> string -> string.
Variable py_format : ModuleQuery.JValue -> Py.Arg.
Variable dict_items : forall K V : Type, list (K * V) -> list (K * V).
Variable env : Env.

Lemma quiet_load_report (buildreport : Row) :
  quiet (ModuleQuery.load_report json_loads env buildreport).
Proof. unfold ModuleQuery.load_report. repeat quiet_step. Qed.

Lemma quiet_has_comments (br : ModuleQuery.JValue) :
  quiet (ModuleQuery.has_comments br).
Proof. unfold ModuleQuery.has_comments. repeat quiet_step. Qed.

Lemma prints_one_detail (buildreport : Row) (terminalsize : Z) :
  prints_one (ModuleQuery.printDetailReport json_loads wrap_layout py_format
                dict_items env buildreport terminalsize).
Proof.
  unfold ModuleQuery.printDetailReport. cbv zeta.
  repeat first
    [ apply prints_one_print
    | apply prints_one_bind;
      [ first [ apply quiet_load_report | apply quiet_has_comments
              | repeat quiet_step ]
      | intros ? ] ].
Qed.

Lemma quiet_consolidate_row (versionwrapper : ModuleQuery.TextWrapper)
    (textmargin : Z) (st : ModuleQuery.LoopState) (buildreport : Row) :
  quiet (ModuleQuery.consolidate_row json_loads wrap_layout py_format env
           versionwrapper textmargin st buildreport).
Proof.
  unfold ModuleQuery.consolidate_row.
  repeat first [ apply quiet_load_report | apply quiet_has_comments | quiet_step ].
Qed.

Lemma prints_one_app (border : string)
    (descwrapper buildstackwrapper : ModuleQuery.TextWrapper)
    (st : ModuleQuery.LoopState)
    (item : ModuleQuery.JValue * ModuleQuery.AppDetails) :
  prints_one (ModuleQuery.print_app wrap_layout py_format dict_items border
                descwrapper buildstackwrapper st item).
Proof.
  unfold ModuleQuery.print_app. destruct item as [app_name details].
  repeat first
    [ apply prints_one_print
    | apply prints_one_bind;
      [ first [ apply quiet_for_each; intros ? [? ?]; repeat quiet_step
              | repeat quiet_step ]
      | intros ? ] ].
Qed.

End RendererOutput.

Section ConsolidatedBlocks.
Import Runtime Reading.

Variable json_loads : string -> option ModuleQuery.JValue.
Variable wrap_layout : ModuleQuery.TextWrapper -> string -> string.
Variable py_format : ModuleQuery.JValue -> Py.Arg.
Variable dict_items : forall K V : Type, list (K * V) -> list (K * V).
Variable env : Env.

Lemma bind_returns {A B} (m : M A) (k : A -> M B) (tr tr' : Trace) (b : B) :
  bind m k tr = (Return b, tr') ->
  exists a tr1, m tr = (Return a, tr1) /\ k a tr1 = (Return b, tr').
Proof.
  unfold bind. destruct (m tr) as [[a|e] tr1]; [|discriminate].
  intros H. now exists a, tr1.
Qed.

Lemma dict_set_nonempty {V} (k : ModuleQuery.JValue) (v : V)
    (d : list (ModuleQuery.JValue * V)) :
  ModuleQuery.dict_set k v d <> [].
Proof.
  destruct d as [|[k' v'] d]; simpl; [discriminate|].
  destruct (ModuleQuery.key_eqb k k'); discriminate.
Qed.

Lemma dict_get_nonempty {V} (k : ModuleQuery.JValue) (v : V)
    (d : list (ModuleQuery.JValue * V)) :
  ModuleQuery.dict_get k d = Some v -> d <> [].
Proof. destruct d; [discriminate | intros _; discriminate]. Qed.

(** A row that [consolidate_row] accepts leaves its application in [apps]. *)
Lemma consolidate_row_apps (versionwrapper : ModuleQuery.TextWrapper)
    (textmargin : Z) (st st' : ModuleQuery.LoopState) (buildreport : Row)
    (tr tr' : Trace) :
  ModuleQuery.consolidate_row json_loads wrap_layout py_format env
    versionwrapper textmargin st buildreport tr = (Return st', tr') ->
  ModuleQuery.apps st' <> [].
Proof.
  unfold ModuleQuery.consolidate_row. intros H.
  repeat (apply bind_returns in H; destruct H as (? & ? & _ & H); cbv zeta in H).
  injection H as <- _. cbn [ModuleQuery.apps].
  repeat match goal with
         | |- match ?x with _ => _ end <> [] => destruct x eqn:?
         | |- ModuleQuery.dict_set _ _ _ <> [] => apply dict_set_nonempty
         | H : ModuleQuery.dict_get _ ?d = Some _ |- ?d <> [] =>
             exact (dict_get_nonempty _ _ _ H)
         end.
Qed.

Lemma consolidate_rows_apps (versionwrapper : ModuleQuery.TextWrapper)
    (textmargin : Z) (buildreports : list Row) :
  forall st st' tr tr',
    buildreports <> [] ->
    for_each (ModuleQuery.consolidate_row json_loads wrap_layout py_format env
                versionwrapper textmargin) buildreports st tr
    = (Return st', tr') ->
    ModuleQuery.apps st' <> [].
Proof.
  induction buildreports as [|buildreport rest IH]; intros st st' tr tr' Hne H;
    [contradiction|].
  cbn [for_each] in H. apply bind_returns in H as (st1 & tr1 & Hrow & H).
  destruct rest as [|next rest].
  - injection H as <- _. exact (consolidate_row_apps _ _ _ _ _ _ _ Hrow).
  - apply (IH st1 st' tr1 tr'); [discriminate | exact H].
Qed.

(** The second loop prints one block per item. *)
Lemma print_apps_blocks (border : string)
    (descwrapper buildstackwrapper : ModuleQuery.TextWrapper)
    (st : ModuleQuery.LoopState)
    (items : list (ModuleQuery.JValue * ModuleQuery.AppDetails)) :
  forall tr tr',
    for_each (fun (_ : unit) item =>
                ModuleQuery.print_app wrap_layout py_format dict_items border
                  descwrapper buildstackwrapper st item) items tt tr
    = (Return tt, tr') ->
    exists blocks : list string,
      List.length blocks = List.length items
      /\ written Out tr'
         = (written Out tr ++ map (fun b => (b ++ Py.nl)%string) blocks)%list.
Proof.
  induction items as [|item items IH]; intros tr tr' H; cbn [for_each] in H.
  - injection H as <-. exists []. now rewrite app_nil_r.
  - apply bind_returns in H as ([] & tr1 & Hitem & H).
    destruct (prints_one_app wrap_layout py_format dict_items border descwrapper
                buildstackwrapper st item tr tr1 Hitem) as [block Hblock].
    destruct (IH tr1 tr' H) as (blocks & Hlen & Hblocks).
    exists (block :: blocks). split; [simpl; now rewrite Hlen|].
    rewrite Hblocks, Hblock, <- app_assoc. reflexivity.
Qed.

Hypothesis dict_items_permutation :
  forall (K V : Type) (items : list (K * V)),
    Permutation (dict_items K V items) items.

(** When [printConsolidatedReport] returns on at least one row, it has
    written one block or more to standard output, and nothing else. *)
Lemma consolidated_prints_blocks (buildreports : list Row) (terminalsize : Z)
    (tr tr' : Trace) :
  buildreports <> [] ->
  ModuleQuery.printConsolidatedReport json_loads wrap_layout py_format dict_items
    env buildreports terminalsize tr = (Return tt, tr') ->
  exists blocks : list string,
    blocks <> []
    /\ written Out tr'
       = (written Out tr ++ map (fun b => (b ++ Py.nl)%string) blocks)%list.
Proof.
  intros Hne H. unfold ModuleQuery.printConsolidatedReport in H. cbv zeta in H.
  apply bind_returns in H as (st & tr1 & Hrows & Happs).
  match type of Hrows with
  | for_each ?body _ _ _ = _ =>
      pose proof (quiet_for_each body buildreports
                    (fun st row => quiet_consolidate_row json_loads wrap_layout
                                     py_format env _ _ st row)
                    ModuleQuery.empty_state tr) as Hquiet
  end.
  rewrite Hrows in Hquiet. cbn [snd] in Hquiet.
  apply print_apps_blocks in Happs as (blocks & Hlen & Hblocks).
  exists blocks. split.
  - pose proof (consolidate_rows_apps _ _ _ _ _ _ _ Hne Hrows) as Happs.
    rewrite (Permutation_length (dict_items_permutation _ _ _)) in Hlen.
    destruct blocks; [|discriminate].
    destruct (ModuleQuery.apps st); [contradiction | discriminate].
  - now rewrite Hblocks, Hquiet.
Qed.

End ConsolidatedBlocks.

Section ModuleQueryMainClaims.
Import Runtime Reading.

Variable json_loads : string -> option ModuleQuery.JValue.
Variable wrap_layout : ModuleQuery.TextWrapper -> string -> string.
Variable py_format : ModuleQuery.JValue -> Py.Arg.
Variable dict_items : forall K V : Type, list (K * V) -> list (K * V).
Variable env : Env.

Hypothesis dict_items_permutation :
  forall (K V : Type) (items : list (K * V)),
    Permutation (dict_items K V items) items.

Local Abbreviation printDetailReport :=
  (ModuleQuery.printDetailReport json_loads wrap_layout py_format dict_items env).
Local Abbreviation printConsolidatedReport :=
  (ModuleQuery.printConsolidatedReport json_loads wrap_layout py_format
     dict_items env).
Local Abbreviation main_body :=
  (ModuleQuery.main_body json_loads wrap_layout py_format dict_items env).
Local Abbreviation main :=
  (ModuleQuery.main json_loads wrap_layout py_format dict_items env).

(** C3.  What module-query's [main] returns, by what the fetch gives.
    When the fetch returns rows:
    - with no row [main] writes, to standard error, the message naming
      the search term and the flavors, writes nothing else, and
      returns 1;
    - with one row it calls [printDetailReport], and with more rows
      [printConsolidatedReport]; when the renderer returns, the report
      (one text for the detail report, one block or more for the
      consolidated one) is on standard output and [main] returns 0;
      when the renderer raises an [Exception], [main] returns 2;
    - with one row or more, when the width of the terminal cannot be
      read, [main] returns 2.
    When the fetch itself raises an [Exception] (the database is down,
    the query is refused), [main] returns 2.  And any [Exception]
    raised in [main]'s [try] block, wherever it comes from, gives exit
    code 2, after the lines on standard error. *)
Theorem main_exit_codes :
  forall (args : ModuleQuery.Args) (tr : Trace),
    let names := re_split_commas (ModuleQuery.arg_build_stacks args) in
    let fetched :=
      ModuleQuery.fetchBuildReports env (ModuleQuery.arg_build_name args) names
        (ModuleQuery.arg_full_text args) (tr ++ verbose_events args)%list in
    (forall (tr1 : Trace) (buildreports : list Row),
        fetched = (Return buildreports, tr1) ->
        (buildreports = [] ->
         main args tr
         = (Return 1%Z,
            (tr1 ++ [EvPut Err (no_match_message
                                  (ModuleQuery.arg_build_name args) names)])%list))
        /\ (forall buildreport terminalsize,
              buildreports = [buildreport] ->
              getTerminalSize env = Return terminalsize ->
              main args tr
              = finish env (printDetailReport buildreport terminalsize tr1)
              /\ forall tr2,
                   printDetailReport buildreport terminalsize tr1
                   = (Return tt, tr2) ->
                   main args tr = (Return 0%Z, tr2)
                   /\ exists report : string,
                        written Out tr2
                        = (written Out tr1 ++ [(report ++ Py.nl)%string])%list)
        /\ (forall terminalsize,
              1 < List.length buildreports ->
              getTerminalSize env = Return terminalsize ->
              main args tr
              = finish env (printConsolidatedReport buildreports terminalsize tr1)
              /\ forall tr2,
                   printConsolidatedReport buildreports terminalsize tr1
                   = (Return tt, tr2) ->
                   main args tr = (Return 0%Z, tr2)
                   /\ exists blocks : list string,
                        blocks <> []
                        /\ written Out tr2
                           = (written Out tr1
                              ++ map (fun b => (b ++ Py.nl)%string) blocks)%list)
        /\ (forall kind user_msg,
              buildreports <> [] ->
              getTerminalSize env = Raise (PyError kind user_msg) ->
              main args tr
              = (Return 2%Z, (tr1 ++ failure_events env user_msg)%list)))
    /\ (forall kind user_msg (tr1 : Trace),
          fetched = (Raise (PyError kind user_msg), tr1) ->
          main args tr = (Return 2%Z, (tr1 ++ failure_events env user_msg)%list))
    /\ (forall kind user_msg tr2,
          main_body args tr = (Raise (PyError kind user_msg), tr2) ->
          main args tr = (Return 2%Z, (tr2 ++ failure_events env user_msg)%list)).
Proof.
  intros args tr names fetched.
  split; [|split].
  - intros tr1 buildreports Hfetch.
    pose proof (main_body_run json_loads wrap_layout py_format dict_items env
                  args tr tr1 buildreports Hfetch) as Hbody.
    fold names in Hbody.
    split; [|split; [|split]].
    + intros ->. now rewrite main_handles, Hbody.
    + intros buildreport terminalsize -> Hsize.
      rewrite main_handles, Hbody, Hsize.
      split.
      * now destruct (printDetailReport buildreport terminalsize tr1)
          as [[[]|[|kind um]] tr2].
      * intros tr2 Hprint. rewrite Hprint. split; [reflexivity|].
        exact (prints_one_detail json_loads wrap_layout py_format dict_items env
                 buildreport terminalsize tr1 tr2 Hprint).
    + intros terminalsize Hmany Hsize.
      destruct buildreports as [|first [|second rest]]; [simpl in Hmany; lia ..|].
      rewrite main_handles, Hbody, Hsize.
      split.
      * now destruct (printConsolidatedReport (first :: second :: rest)
                        terminalsize tr1) as [[[]|[|kind um]] tr2].
      * intros tr2 Hprint. rewrite Hprint. split; [reflexivity|].
        apply (consolidated_prints_blocks json_loads wrap_layout py_format
                 dict_items env dict_items_permutation
                 (first :: second :: rest) terminalsize tr1 tr2);
          [discriminate | exact Hprint].
    + intros kind user_msg Hne Hsize.
      rewrite main_handles, Hbody, Hsize.
      now destruct buildreports as [|first [|second rest]].
  - intros kind user_msg tr1 Hfetch.
    now rewrite main_handles,
      (main_body_fetch_raises json_loads wrap_layout py_format dict_items env
         args tr tr1 _ Hfetch).
  - intros kind user_msg tr2 Hraise. now rewrite main_handles, Hraise.
Qed.

End ModuleQueryMainClaims.

Lemma main_exit_codes_witness :
  let args := {| ModuleQuery.arg_verbose := None;
                 ModuleQuery.arg_build_stacks := "HeLmod CentOS 7, Easy Build";
                 ModuleQuery.arg_full_text := false;
                 ModuleQuery.arg_build_name := "gcc" |} in
  let main := ModuleQuery.main Samples.json_loads Samples.wrap_layout
                Samples.py_format Samples.dict_items in
  fst (main (Samples.sample_env Samples.second_try []) args []) = Runtime.Return 1%Z
  /\ fst (main (Samples.sample_env Samples.second_try [Samples.row "gcc9"])
            args []) = Runtime.Return 0%Z
  /\ fst (main (Samples.sample_env Samples.second_try
                  [Samples.row "gcc9"; Samples.row "gcc8"]) args [])
     = Runtime.Return 0%Z
  /\ fst (main (Samples.sample_env Samples.second_try [Samples.row "bare"])
            args []) = Runtime.Return 2%Z
  /\ fst (main (Samples.sample_env Samples.always_down [Samples.row "gcc9"])
            args []) = Runtime.Return 2%Z.
Proof.
  intros args main.
  assert (forall (K V : Type) (items : list (K * V)),
             Permutation (Samples.dict_items K V items) items) as Hperm
      by (intros; apply Permutation_refl).
  repeat apply conj.
  - destruct (main_exit_codes Samples.json_loads Samples.wrap_layout
                Samples.py_format Samples.dict_items
                (Samples.sample_env Samples.second_try []) Hperm
                args []) as (Hrows & _).
    destruct (Hrows _ _ eq_refl) as (H & _).
    unfold main. now rewrite (H eq_refl).
  - destruct (main_exit_codes Samples.json_loads Samples.wrap_layout
                Samples.py_format Samples.dict_items
                (Samples.sample_env Samples.second_try [Samples.row "gcc9"]) Hperm
                args []) as (Hrows & _).
    destruct (Hrows _ _ eq_refl) as (_ & H & _).
    destruct (H _ _ eq_refl eq_refl) as (_ & H').
    destruct (H' _ eq_refl) as (Hmain & _).
    unfold main. now rewrite Hmain.
  - destruct (main_exit_codes Samples.json_loads Samples.wrap_layout
                Samples.py_format Samples.dict_items
                (Samples.sample_env Samples.second_try
                   [Samples.row "gcc9"; Samples.row "gcc8"]) Hperm
                args []) as (Hrows & _).
    destruct (Hrows _ _ eq_refl) as (_ & _ & H & _).
    destruct (H 80%Z ltac:(simpl; lia) eq_refl) as (_ & H').
    destruct (H' _ eq_refl) as (Hmain & _).
    unfold main. now rewrite Hmain.
  - destruct (main_exit_codes Samples.json_loads Samples.wrap_layout
                Samples.py_format Samples.dict_items
                (Samples.sample_env Samples.second_try [Samples.row "bare"]) Hperm
                args []) as (_ & _ & H).
    unfold main. now rewrite (H _ _ _ eq_refl).
  - destruct (main_exit_codes Samples.json_loads Samples.wrap_layout
                Samples.py_format Samples.dict_items
                (Samples.sample_env Samples.always_down [Samples.row "gcc9"])
                Hperm args []) as (_ & H & _).
    unfold main. now rewrite (H _ _ _ eq_refl).
Defined.

(** ** Documents the renderers accept *)

Section AcceptedDocuments.
Import Runtime Reading.

Variable json_loads : string -> option ModuleQuery.JValue.
Variable wrap_layout : ModuleQuery.TextWrapper -> string -> string.
Variable py_format : ModuleQuery.JValue -> Py.Arg.
Variable dict_items : forall K V : Type, list (K * V) -> list (K * V).
Variable env : Env.


Lemma is_ascii_string_inv (v : option ModuleQuery.JValue) :
  is_ascii_string v = true ->
  exists s, v = Some (ModuleQuery.JStr s) /\ Py.is_ascii s = true.
Proof.
  destruct v as [[| | |s| |]|]; try discriminate. intros H. now exists s.
Qed.










Lemma detail_formatted (border app_name build_name descriptionlines
    moduleloadlines dependencymessage commentsmessage build_stack
    buildstackactivationmessage : string) :
  exists report,
    Py.format ModuleQuery.detail_template []
      [("border", Py.text border);
       ("app_name", Py.text app_name);
       ("build_name", Py.text build_name);
       ("descriptionlines", Py.text descriptionlines);
       ("moduleloadlines", Py.text moduleloadlines);
       ("dependencymessage", Py.text dependencymessage);
       ("commentsmessage", Py.text commentsmessage);
       ("build_stack", Py.text build_stack);
       ("buildstackactivationmessage", Py.text buildstackactivationmessage)]
    = Some report.
Proof. eexists. reflexivity. Qed.

Lemma message_formatted (template key value : string) :
  (template = ModuleQuery.dependency_template /\ key = "run_dependencies")
  \/ (template = ModuleQuery.comments_template /\ key = "comments") ->
  exists message, Py.format template [] [(key, Py.text value)] = Some message.
Proof. intros [[-> ->] | [-> ->]]; eexists; reflexivity. Qed.

Lemma activation_message_formatted (build_stack value : string) :
  exists message,
    Py.format ModuleQuery.activation_template []
      [("build_stack", Py.text build_stack);
       ("build_stack_activation", Py.text value)] = Some message.
Proof. eexists. reflexivity. Qed.



Lemma bind_assoc {A B C} (m : M A) (k1 : A -> M B) (k2 : B -> M C) (tr : Trace) :
  bind (bind m k1) k2 tr = bind m (fun a => bind (k1 a) k2) tr.
Proof. unfold bind. now destruct (m tr) as [[a|e] tr1]. Qed.






End AcceptedDocuments.



Section DetailReport.
Import Runtime Reading.

Variable json_loads : string -> option ModuleQuery.JValue.
Variable wrap_layout : ModuleQuery.TextWrapper -> string -> string.
Variable py_format : ModuleQuery.JValue -> Py.Arg.
Variable dict_items : forall K V : Type, list (K * V) -> list (K * V).
Variable env : Env.


End DetailReport.

Section ConsolidatedReport.
Import Runtime Reading.

Variable json_loads : string -> option ModuleQuery.JValue.
Variable wrap_layout : ModuleQuery.TextWrapper -> string -> string.
Variable py_format : ModuleQuery.JValue -> Py.Arg.
Variable dict_items : forall K V : Type, list (K * V) -> list (K * V).
Variable env : Env.


Section Dicts.
Context {V : Type}.
Implicit Types (k : ModuleQuery.JValue) (v : V) (d : list (ModuleQuery.JValue * V)).

Lemma dict_get_set_same k v d :
  ModuleQuery.key_eqb k k = true ->
  ModuleQuery.dict_get k (ModuleQuery.dict_set k v d) = Some v.
Proof.
  intros Hk. induction d as [|[k' v'] d IH]; simpl.
  - now rewrite Hk.
  - destruct (ModuleQuery.key_eqb k k') eqn:E; simpl; now rewrite E.
Qed.

Lemma dict_set_twice k v1 v2 d :
  ModuleQuery.key_eqb k k = true ->
  ModuleQuery.dict_set k v2 (ModuleQuery.dict_set k v1 d)
  = ModuleQuery.dict_set k v2 d.
Proof.
  intros Hk. induction d as [|[k' v'] d IH]; simpl.
  - now rewrite Hk.
  - destruct (ModuleQuery.key_eqb k k') eqn:E; simpl; rewrite E;
      [reflexivity | now rewrite IH].
Qed.



End Dicts.





Lemma version_formatted (margin moduletitle buildcomments preferredbuild : string) :
  exists vstr,
    Py.format ModuleQuery.version_template []
      [("margin", Py.text margin);
       ("moduletitle", Py.text moduletitle);
       ("buildcomments", Py.text buildcomments);
       ("preferredbuild", Py.text preferredbuild)] = Some vstr.
Proof. eexists. reflexivity. Qed.

Lemma consolidated_formatted (border app_name descriptionlines versionlines
    example exampleflavor preferredbuildexplanation : string) :
  exists report,
    Py.format ModuleQuery.consolidated_template []
      [("border", Py.text border);
       ("app_name", Py.text app_name);
       ("descriptionlines", Py.text descriptionlines);
       ("versionlines", Py.text versionlines);
       ("example", Py.text example);
       ("exampleflavor", Py.text exampleflavor);
       ("preferredbuildexplanation", Py.text preferredbuildexplanation)]
    = Some report.
Proof. eexists. reflexivity. Qed.





Hypothesis dict_items_included :
  forall (K V : Type) (items : list (K * V)) (item : K * V),
    In item (dict_items K V items) -> In item items.





End ConsolidatedReport.

(** ** The legend of the consolidated report *)

Section Legend.
Import Runtime Reading.

Variable json_loads : string -> option ModuleQuery.JValue.
Variable wrap_layout : ModuleQuery.TextWrapper -> string -> string.
Variable py_format : ModuleQuery.JValue -> Py.Arg.
Variable dict_items : forall K V : Type, list (K * V) -> list (K * V).
Variable env : Env.

Lemma lift_returns {A} (o : Outcome A) (a : A) (tr tr' : Trace) :
  lift o tr = (Return a, tr') -> o = Return a /\ tr' = tr.
Proof. unfold lift. now intros [= -> ->]. Qed.

Lemma formatted_inv (o : option string) (s : string) :
  formatted o = Return s -> o = Some s.
Proof. destruct o as [s'|]; [now intros [= ->] | discriminate]. Qed.

Lemma for_each_app {A S} (body : S -> A -> M S) (l1 l2 : list A) :
  forall st tr,
    for_each body (l1 ++ l2)%list st tr
    = bind (for_each body l1 st) (fun st1 => for_each body l2 st1) tr.
Proof.
  induction l1 as [|a l1 IH]; intros st tr; cbn [for_each app].
  - reflexivity.
  - rewrite bind_assoc. unfold bind in *.
    destruct (body st a tr) as [[st1|e] tr1]; [apply IH | reflexivity].
Qed.

(** The legend a row leaves behind is the one of its own
    [preferred_build], whatever the rows before it held. *)
Lemma consolidate_row_legend (versionwrapper : ModuleQuery.TextWrapper)
    (textmargin : Z) (st st' : ModuleQuery.LoopState) (buildreport : Row)
    (tr tr' : Trace) :
  ModuleQuery.consolidate_row json_loads wrap_layout py_format env
    versionwrapper textmargin st buildreport tr = (Return st', tr') ->
  exists br tr0 preferred_build,
    ModuleQuery.load_report json_loads env buildreport tr = (Return br, tr0)
    /\ ModuleQuery.getitem br "preferred_build" = Return preferred_build
    /\ ModuleQuery.preferredbuildexplanation st' = Some (legend_of preferred_build).
Proof.
  unfold ModuleQuery.consolidate_row. intros H.
  apply bind_returns in H as (br & tr0 & Hload & H).
  exists br, tr0.
  do 7 (apply bind_returns in H as (? & ? & _ & H); cbv zeta in H).
  apply bind_returns in H as (preferred_build & ? & Hpref & H); cbv zeta in H.
  apply lift_returns in Hpref as [Hpref _].
  exists preferred_build.
  repeat (apply bind_returns in H as (? & ? & _ & H); cbv zeta in H).
  injection H as <- _. split; [exact Hload|]. split; [exact Hpref | reflexivity].
Qed.

(** Every block is the template filled in with the legend the first
    loop left in [preferredbuildexplanation]. *)
Lemma print_app_legend (border : string)
    (descwrapper buildstackwrapper : ModuleQuery.TextWrapper)
    (st : ModuleQuery.LoopState)
    (item : ModuleQuery.JValue * ModuleQuery.AppDetails) (tr tr' : Trace) :
  ModuleQuery.print_app wrap_layout py_format dict_items border descwrapper
    buildstackwrapper st item tr = (Return tt, tr') ->
  exists legend block,
    ModuleQuery.preferredbuildexplanation st = Some legend
    /\ block_with_legend py_format legend block
    /\ written Out tr' = (written Out tr ++ [(block ++ Py.nl)%string])%list.
Proof.
  unfold ModuleQuery.print_app. destruct item as [app_name details]. intros H.
  apply bind_returns in H as (strs & tr1 & Hloop & H).
  assert (written Out tr1 = written Out tr) as Hquiet.
  { match type of Hloop with
    | for_each ?body ?l ?acc tr = _ =>
        pose proof (quiet_for_each body l) as Hq
    end.
    specialize (Hq ltac:(intros ? [? ?]; repeat quiet_step) [] tr).
    now rewrite Hloop in Hq. }
  apply bind_returns in H as (description & ? & Hstep & H).
  apply lift_returns in Hstep as [_ ->].
  apply bind_returns in H as (descriptionlines & ? & Hstep & H).
  apply lift_returns in Hstep as [_ ->].
  apply bind_returns in H as (example & ? & Hstep & H).
  apply lift_returns in Hstep as [_ ->].
  apply bind_returns in H as (exampleflavor & ? & Hstep & H).
  apply lift_returns in Hstep as [_ ->].
  apply bind_returns in H as (legend & ? & Hlegend & H).
  apply lift_returns in Hlegend as [Hlegend ->].
  apply bind_returns in H as (block & ? & Hformat & H).
  apply lift_returns in Hformat as [Hformat ->].
  exists legend, block. split; [|split].
  - unfold bound in Hlegend.
    destruct (ModuleQuery.preferredbuildexplanation st) as [legend'|];
      [|discriminate].
    now injection Hlegend as ->.
  - exists border, app_name, descriptionlines, (Py.join Py.nl strs), example,
      exampleflavor.
    apply formatted_inv. exact Hformat.
  - injection H as <-. now rewrite written_app, Hquiet.
Qed.

Lemma print_apps_legend (border : string)
    (descwrapper buildstackwrapper : ModuleQuery.TextWrapper)
    (st : ModuleQuery.LoopState) (legend : string)
    (items : list (ModuleQuery.JValue * ModuleQuery.AppDetails)) :
  ModuleQuery.preferredbuildexplanation st = Some legend ->
  forall tr tr',
    for_each (fun (_ : unit) item =>
                ModuleQuery.print_app wrap_layout py_format dict_items border
                  descwrapper buildstackwrapper st item) items tt tr
    = (Return tt, tr') ->
    exists blocks : list string,
      Forall (block_with_legend py_format legend) blocks
      /\ written Out tr'
         = (written Out tr ++ map (fun b => (b ++ Py.nl)%string) blocks)%list.
Proof.
  intros Hlegend.
  induction items as [|item items IH]; intros tr tr' H; cbn [for_each] in H.
  - injection H as <-. exists []. split; [constructor | now rewrite app_nil_r].
  - apply bind_returns in H as ([] & tr1 & Hitem & H).
    apply print_app_legend in Hitem as (legend' & block & Hl & Hblock & Hw).
    rewrite Hlegend in Hl. injection Hl as <-.
    destruct (IH tr1 tr' H) as (blocks & Hblocks & Hws).
    exists (block :: blocks). split; [constructor; assumption|].
    rewrite Hws, Hw, <- app_assoc. reflexivity.
Qed.

(** Whenever the consolidated report is printed, all its blocks carry
    the legend of the last row, whichever application each block and
    that row belong to. *)
Lemma consolidated_legend_is_last_rows (buildreports : list Row) (last : Row)
    (terminalsize : Z) (tr tr' : Trace) :
  ModuleQuery.printConsolidatedReport json_loads wrap_layout py_format dict_items
    env (buildreports ++ [last])%list terminalsize tr = (Return tt, tr') ->
  exists br tr0 tr1 preferred_build (blocks : list string),
    ModuleQuery.load_report json_loads env last tr0 = (Return br, tr1)
    /\ ModuleQuery.getitem br "preferred_build" = Return preferred_build
    /\ Forall (block_with_legend py_format (legend_of preferred_build)) blocks
    /\ written Out tr'
       = (written Out tr ++ map (fun b => (b ++ Py.nl)%string) blocks)%list.
Proof.
  unfold ModuleQuery.printConsolidatedReport. cbv zeta. intros H.
  apply bind_returns in H as (st & tr2 & Hrows & Happs).
  pose proof Hrows as Hquiet.
  rewrite for_each_app in Hrows.
  apply bind_returns in Hrows as (st1 & tr0 & _ & Hlast).
  cbn [for_each] in Hlast.
  apply bind_returns in Hlast as (st2 & tr3 & Hlast & Hret).
  injection Hret as -> ->.
  apply consolidate_row_legend in Hlast as (br & tr1 & p & Hload & Hp & Hlegend).
  apply (print_apps_legend _ _ _ _ _ _ Hlegend) in Happs as (blocks & Hblocks & Hw).
  exists br, tr0, tr1, p, blocks.
  split; [exact Hload|]. split; [exact Hp|]. split; [exact Hblocks|].
  rewrite Hw. f_equal.
  match type of Hquiet with
  | for_each ?body ?l ?s tr = _ =>
      pose proof (quiet_for_each body l
                    (fun st row => quiet_consolidate_row json_loads wrap_layout
                                     py_format env _ _ st row) s tr) as Hq
  end.
  now rewrite Hquiet in Hq.
Qed.

End Legend.

(** ** The renderers on documents with absent fields *)

Section RendererClaims.
Import Runtime Reading.

(** C4 (the code departs from the claim).  On two rows of one
    application, the first preferred and the second not, the block's
    version line for the first build carries the marker but the legend
    is missing; on a row of an application without preferred build
    followed by a preferred build of another application, the first
    application's block carries the legend although none of its builds
    is marked.  The legend every block gets is the one the last row
    processed sets. *)
Theorem legend_follows_last_row :
  let render :=
    ModuleQuery.printConsolidatedReport Samples.json_loads Samples.wrap_layout
      Samples.py_format Samples.dict_items
      (Samples.sample_env Samples.first_try []) in
  (exists block,
      render [Samples.row "gcc9"; Samples.row "gcc8"] 80%Z []
      = (Return tt, [EvPut Out block])
      /\ Py.count "* gcc/9.1-fasrc01" block = 1
      /\ Py.count "* denotes preferred build." block = 0)
  /\ (exists gcc r,
         render [Samples.row "gcc8"; Samples.row "r36"] 80%Z []
         = (Return tt, [EvPut Out gcc; EvPut Out r])
         /\ Py.count "gcc/8.2-fasrc01." gcc = 1
         /\ Py.count "* gcc" gcc = 0
         /\ Py.count "* denotes preferred build." gcc = 1).
Proof.
  split.
  - eexists. split; [vm_compute; reflexivity|]. split; vm_compute; reflexivity.
  - eexists _, _. split; [vm_compute; reflexivity|].
    repeat split; vm_compute; reflexivity.
Qed.




End RendererClaims.

(** ** The empty flavor list *)

Section EmptyFlavorList.
Import Runtime Reading.

Lemma re_split_go_nonempty (s cur pend : string) (skipping : bool) :
  re_split_go s cur pend skipping <> [].
Proof.
  revert cur pend skipping.
  induction s as [|c s IH]; intros cur pend skipping; simpl; [discriminate|].
  destruct (Ascii.eqb c ","%char); [discriminate|].
  destruct (Py.isspace c); [destruct skipping|]; apply IH.
Qed.

Lemma connects_debug_call (env : Env) (line : string) (tr : Trace) :
  connects (tr ++ debug_call env line)%list = connects tr.
Proof.
  rewrite connects_app. unfold debug_call.
  destruct (DEBUG env); unfold connects; simpl; lia.
Qed.

(** C7, as stated, fails: with an empty list of flavors and a database
    that accepts the connection, [fetchBuildReports] raises nothing; it
    builds the query with the empty IN-clause and submits it. *)
Lemma empty_flavor_list_is_not_rejected :
  let env := Samples.sample_env Samples.first_try [] in
  exists sql,
    ModuleQuery.fetchBuildReports env "gcc" [] false []
    = (Return [], [EvConnect; EvExecute 7 sql ["%gcc%"]])
    /\ in_clause sql = Some EmptyString.
Proof. eexists. split; vm_compute; reflexivity. Qed.

(** C7, amended.  Nothing rejects an empty list of flavors.  For the
    empty list the query builders produce the template with the empty
    IN-clause [()] and the search term as only parameter, and the fetch
    functions submit it as soon as the database accepts the connection.
    [main] never passes an empty list: splitting the flavors option
    yields at least one name, possibly the empty string. *)
Theorem empty_flavor_list_is_submitted :
  forall (search : string) (fulltext : bool) (env : Env) (tr : Trace)
         (c : Connection),
    db_connect env (connects tr) = Return c ->
    (exists sql,
        ModuleQuery.build_query search [] fulltext
          = Return (sql, ["%" ++ search ++ "%"])
        /\ in_clause sql = Some EmptyString
        /\ let r := ModuleQuery.fetchBuildReports env search [] fulltext tr in
           fst r = db_fetch env c sql ["%" ++ search ++ "%"]
           /\ executed (snd r)
              = (executed tr ++ [(sql, [("%" ++ search ++ "%")%string])])%list)
    /\ (exists sql,
        CheckActivation.build_query search []
          = Return (sql, ["%" ++ search ++ "%"])
        /\ in_clause sql = Some EmptyString
        /\ let r := CheckActivation.fetchBuildActivation env search [] tr in
           fst r = db_fetch env c sql ["%" ++ search ++ "%"]
           /\ executed (snd r)
              = (executed tr ++ [(sql, [("%" ++ search ++ "%")%string])])%list)
    /\ (forall flavors_option : string, re_split_commas flavors_option <> []).
Proof.
  intros search fulltext env tr c Hconnect.
  split; [|split].
  - exists (module_query_sql 0 fulltext).
    split; [apply module_query_build_query|].
    split; [apply module_query_in_clause|].
    cbv zeta. rewrite fetchBuildReports_run.
    rewrite (connect_with_retry_first_success env 0 _ c).
    + cbn [fst snd failed_attempts List.length]. split; [reflexivity|].
      rewrite !executed_app, executed_debug_call, executed_debug_params.
      cbn [executed flat_map app]. now rewrite !app_nil_r.
    + unfold MAX_ATTEMPTS. lia.
    + intros i Hi. lia.
    + now rewrite connects_debug_call, Nat.add_0_r.
  - exists (check_activation_sql 0).
    split; [apply check_activation_build_query|].
    split; [apply check_activation_in_clause|].
    cbv zeta. rewrite fetchBuildActivation_run.
    rewrite (connect_with_retry_first_success env 0 _ c).
    + cbn [fst snd failed_attempts List.length]. split; [reflexivity|].
      rewrite !executed_app, executed_debug_call, executed_debug_params.
      cbn [executed flat_map app]. now rewrite !app_nil_r.
    + unfold MAX_ATTEMPTS. lia.
    + intros i Hi. lia.
    + now rewrite connects_debug_call, Nat.add_0_r.
  - intros flavors_option. apply re_split_go_nonempty.
Qed.

Lemma empty_flavor_list_is_submitted_witness :
  let env := Samples.sample_env Samples.first_try [] in
  exists sql,
    in_clause sql = Some EmptyString
    /\ executed (snd (ModuleQuery.fetchBuildReports env "gcc" [] false []))
       = [(sql, ["%gcc%"])].
Proof.
  intros env.
  destruct (empty_flavor_list_is_submitted "gcc" false env [] 7 eq_refl)
    as ((sql & _ & Hclause & _ & Hexecuted) & _).
  exists sql. split; [exact Hclause | exact Hexecuted].
Defined.

End EmptyFlavorList.

(** * Further properties *)

(** ** Exit codes *)

Section ExitCodes.
Import Runtime Reading.

Variable json_loads : string -> option ModuleQuery.JValue.
Variable wrap_layout : ModuleQuery.TextWrapper -> string -> string.
Variable py_format : ModuleQuery.JValue -> Py.Arg.
Variable dict_items : forall K V : Type, list (K * V) -> list (K * V).

Lemma module_query_body_codes (env : Env) (args : ModuleQuery.Args)
    (tr tr' : Trace) (code : Z) :
  ModuleQuery.main_body json_loads wrap_layout py_format dict_items env args tr
  = (Return code, tr') ->
  code = 0%Z \/ code = 1%Z.
Proof.
  unfold ModuleQuery.main_body. intros H.
  do 2 apply bind_returns in H as (? & ? & _ & H).
  apply bind_returns in H as (buildreports & tr1 & _ & H).
  destruct buildreports as [|first [|second rest]].
  - do 2 apply bind_returns in H as (? & ? & _ & H).
    injection H as <- _. now right.
  - do 2 apply bind_returns in H as (? & ? & _ & H).
    injection H as <- _. now left.
  - do 2 apply bind_returns in H as (? & ? & _ & H).
    injection H as <- _. now left.
Qed.

Lemma check_activation_body_codes (env : Env) (args : CheckActivation.Args)
    (tr tr' : Trace) (code : Z) :
  CheckActivation.main_body env args tr = (Return code, tr') ->
  code = 0%Z \/ code = 1%Z.
Proof.
  unfold CheckActivation.main_body. intros H.
  apply bind_returns in H as (builds & tr1 & _ & H).
  destruct builds as [|first rest].
  - do 2 apply bind_returns in H as (? & ? & _ & H).
    injection H as <- _. now right.
  - do 2 apply bind_returns in H as (? & ? & _ & H).
    injection H as <- _. now left.
Qed.

Lemma check_activation_main_handles (env : Env) (args : CheckActivation.Args)
    (tr : Trace) :
  CheckActivation.main env args tr =
  match CheckActivation.main_body env args tr with
  | (Return code, tr') => (Return code, tr')
  | (Raise KeyboardInterrupt, tr') => (Return 0%Z, tr')
  | (Raise (PyError _ user_msg), tr') =>
      (Return 2%Z, (tr' ++ failure_events env user_msg)%list)
  end.
Proof.
  unfold CheckActivation.main, attempt, bind.
  destruct (CheckActivation.main_body env args tr) as [[code|[|kind um]] tr'];
    try reflexivity.
  unfold failure_events. cbv [stderr_write emit ret].
  destruct um as [msg|], (DEBUG env); now rewrite <- app_assoc.
Qed.

(** X1.  Once the command line is parsed, [main] of either program
    always returns, and the exit code is 0, 1 or 2, whatever the
    database, the shell, the terminal and the library functions do: no
    exception leaves [main]. *)
Theorem mains_return_0_1_or_2 :
  forall (env : Env) (tr : Trace),
    (forall args : ModuleQuery.Args,
        exists code,
          fst (ModuleQuery.main json_loads wrap_layout py_format dict_items env
                 args tr) = Return code
          /\ (code = 0 \/ code = 1 \/ code = 2)%Z)
    /\ (forall args : CheckActivation.Args,
          exists code,
            fst (CheckActivation.main env args tr) = Return code
            /\ (code = 0 \/ code = 1 \/ code = 2)%Z).
Proof.
  intros env tr. split; intros args.
  - rewrite main_handles.
    destruct (ModuleQuery.main_body _ _ _ _ _ _ _) as [[code|[|kind um]] tr']
      eqn:E; cbn [fst]; eauto.
    exists code. split; [reflexivity|].
    destruct (module_query_body_codes _ _ _ _ _ E); auto.
  - rewrite check_activation_main_handles.
    destruct (CheckActivation.main_body _ _ _) as [[code|[|kind um]] tr']
      eqn:E; cbn [fst]; eauto.
    exists code. split; [reflexivity|].
    destruct (check_activation_body_codes _ _ _ _ _ E); auto.
Qed.

End ExitCodes.

(** ** Connections that fail or are interrupted *)

Section ConnectionFaults.
Import Runtime Reading.

Variable json_loads : string -> option ModuleQuery.JValue.
Variable wrap_layout : ModuleQuery.TextWrapper -> string -> string.
Variable py_format : ModuleQuery.JValue -> Py.Arg.
Variable dict_items : forall K V : Type, list (K * V) -> list (K * V).
Variable env : Env.

Lemma connect_loop_interrupted_step (budget attempts : nat) (tr : Trace) :
  attempts < MAX_ATTEMPTS ->
  db_connect env (connects tr) = Raise KeyboardInterrupt ->
  connect_loop env (S budget) None attempts tr
  = (Raise KeyboardInterrupt, (tr ++ [EvConnect])%list).
Proof.
  intros Hlt Hc. simpl. apply Nat.ltb_lt in Hlt. rewrite Hlt.
  unfold bind, attempt, mysql_connect. now rewrite Hc.
Qed.

Lemma connect_loop_interrupted (k : nat) :
  forall budget attempts tr,
    attempts + budget = MAX_ATTEMPTS ->
    k < budget ->
    (forall i, i < k -> connect_fails env (connects tr + i) = true) ->
    db_connect env (connects tr + k) = Raise KeyboardInterrupt ->
    connect_loop env budget None attempts tr
    = (Raise KeyboardInterrupt,
       (tr ++ failed_attempts env k ++ [EvConnect])%list).
Proof.
  induction k as [|k IH]; intros budget attempts tr Hsum Hk Hfail Hc;
    (destruct budget as [|budget]; [lia|]).
  - rewrite Nat.add_0_r in *. cbn [failed_attempts app].
    apply connect_loop_interrupted_step; [lia | exact Hc].
  - rewrite connect_loop_failed_step.
    + rewrite (IH budget (S attempts)).
      * cbn [failed_attempts]. now rewrite <- !app_assoc.
      * lia.
      * lia.
      * intros i Hi. rewrite connects_app, connects_failed_attempt.
        replace (connects tr + 1 + i) with (connects tr + S i) by lia.
        apply Hfail. lia.
      * rewrite connects_app, connects_failed_attempt.
        replace (connects tr + 1 + k) with (connects tr + S k) by lia.
        exact Hc.
    + lia.
    + rewrite <- (Nat.add_0_r (connects tr)). apply Hfail. lia.
Qed.

Lemma connect_with_retry_interrupted (k : nat) (tr : Trace) :
  k < MAX_ATTEMPTS ->
  (forall i, i < k -> connect_fails env (connects tr + i) = true) ->
  db_connect env (connects tr + k) = Raise KeyboardInterrupt ->
  connect_with_retry env tr
  = (Raise KeyboardInterrupt, (tr ++ failed_attempts env k ++ [EvConnect])%list).
Proof.
  intros Hk Hfail Hc. unfold connect_with_retry, bind.
  now rewrite (connect_loop_interrupted k MAX_ATTEMPTS 0 tr eq_refl Hk Hfail Hc).
Qed.

Lemma written_failed_attempts (f : Stream) (n : nat) :
  written f (failed_attempts env n) = [].
Proof.
  induction n as [|n IH]; [reflexivity|].
  cbn [failed_attempts]. rewrite written_app, IH.
  unfold failed_attempt. now destruct (DEBUG env), f.
Qed.

Lemma executed_failed_attempts (n : nat) : executed (failed_attempts env n) = [].
Proof.
  induction n as [|n IH]; [reflexivity|].
  cbn [failed_attempts]. rewrite executed_app, IH.
  unfold failed_attempt. now destruct (DEBUG env).
Qed.

Lemma written_err_debug_call (line : string) :
  written Err (debug_call env line) = [].
Proof. unfold debug_call. now destruct (DEBUG env). Qed.

Lemma slept_debug_call (line : string) : slept (debug_call env line) = 0%Z.
Proof. unfold debug_call. now destruct (DEBUG env). Qed.

Lemma written_err_verbose (args : ModuleQuery.Args) :
  written Err (verbose_events args) = [].
Proof. unfold verbose_events. now destruct (ModuleQuery.verbose_on args). Qed.

Lemma slept_verbose (args : ModuleQuery.Args) : slept (verbose_events args) = 0%Z.
Proof. unfold verbose_events. now destruct (ModuleQuery.verbose_on args). Qed.

Lemma executed_verbose (args : ModuleQuery.Args) :
  executed (verbose_events args) = [].
Proof. unfold verbose_events. now destruct (ModuleQuery.verbose_on args). Qed.

Lemma connects_verbose (args : ModuleQuery.Args) (tr : Trace) :
  connects (tr ++ verbose_events args)%list = connects tr.
Proof.
  rewrite connects_app. unfold verbose_events.
  destruct (ModuleQuery.verbose_on args); unfold connects; simpl; lia.
Qed.

Lemma check_body_fetch_raises (args : CheckActivation.Args) (tr tr1 : Trace)
    (e : Exn) :
  CheckActivation.fetchBuildActivation env (CheckActivation.arg_search args)
    (re_split_commas (CheckActivation.arg_build_stacks args)) tr
  = (Raise e, tr1) ->
  CheckActivation.main_body env args tr = (Raise e, tr1).
Proof.
  intros Hfetch. unfold CheckActivation.main_body, bind. now rewrite Hfetch.
Qed.

Lemma failed_attempts_without_debug (n : nat) :
  DEBUG env = false ->
  failed_attempts env n = concat (repeat [EvConnect; EvSleep 2%Z] n).
Proof.
  intros Hd. induction n as [|n IH]; [reflexivity|].
  cbn [failed_attempts repeat concat]. rewrite IH.
  unfold failed_attempt. now rewrite Hd.
Qed.

(** X2.  An interrupt from the keyboard during a connection attempt ends
    either program at once with exit code 0.  After k failed attempts
    and the interrupted one the whole run is: for module-query the two
    verbose lines if asked for; the line the fetch prints when the
    debug flag is on; the k failed attempts, each made of the connect
    call, the [Connection error] diagnostic on standard error when the
    debug flag is on, and the wait; and the interrupted connect call.
    So there are k+1 attempts, no wait beyond the k already made and no
    query; and with the debug flag off the run is attempts and waits
    only, and nothing is written to standard error. *)
Theorem interrupt_while_connecting_exits_0 :
  forall (k : nat) (tr : Trace),
    k < 3 ->
    (forall i, i < k -> connect_fails env (connects tr + i) = true) ->
    db_connect env (connects tr + k) = Raise KeyboardInterrupt ->
    (forall args : ModuleQuery.Args,
        let names := re_split_commas (ModuleQuery.arg_build_stacks args) in
        let line := "search " ++ ModuleQuery.arg_build_name args
                    ++ ", build_stack_names " ++ Py.join "," names
                    ++ ", fulltext " ++ str_of_bool (ModuleQuery.arg_full_text args) in
        let r := ModuleQuery.main json_loads wrap_layout py_format dict_items
                   env args tr in
        r = (Return 0%Z,
             (tr ++ verbose_events args ++ debug_call env line
                 ++ failed_attempts env k ++ [EvConnect])%list)
        /\ connects (snd r) = connects tr + (k + 1)
        /\ slept (snd r) = (slept tr + 2 * Z.of_nat k)%Z
        /\ executed (snd r) = executed tr
        /\ (DEBUG env = false ->
            snd r = (tr ++ verbose_events args
                        ++ concat (repeat [EvConnect; EvSleep 2%Z] k)
                        ++ [EvConnect])%list
            /\ written Err (snd r) = written Err tr))
    /\ (forall args : CheckActivation.Args,
          let names := re_split_commas (CheckActivation.arg_build_stacks args) in
          let line := "search " ++ CheckActivation.arg_search args
                      ++ ", build_stack_names " ++ Py.join "," names in
          let r := CheckActivation.main env args tr in
          r = (Return 0%Z,
               (tr ++ debug_call env line ++ failed_attempts env k
                   ++ [EvConnect])%list)
          /\ connects (snd r) = connects tr + (k + 1)
          /\ slept (snd r) = (slept tr + 2 * Z.of_nat k)%Z
          /\ executed (snd r) = executed tr
          /\ (DEBUG env = false ->
              snd r = (tr ++ concat (repeat [EvConnect; EvSleep 2%Z] k)
                          ++ [EvConnect])%list
              /\ written Err (snd r) = written Err tr)).
Proof.
  intros k tr Hk Hfail Hc. split; intros args names line r; subst r names line.
  - rewrite main_handles.
    erewrite main_body_fetch_raises.
    2:{ rewrite fetchBuildReports_run.
        rewrite (connect_with_retry_interrupted k); [reflexivity | exact Hk | |].
        - intros i Hi. rewrite connects_debug_call, connects_verbose.
          now apply Hfail.
        - now rewrite connects_debug_call, connects_verbose. }
    cbn [fst snd].
    split; [now rewrite <- !app_assoc|].
    match goal with
    | |- ?A /\ ?B /\ ?C /\ (?H -> ?D /\ ?E) =>
        cut ((A /\ B /\ C /\ E) /\ (H -> D));
        [intros [(HA & HB & HC & HE) HD]; repeat split;
         try assumption; now apply HD|]
    end.
    split.
    + rewrite !connects_app, !slept_app, !executed_app, !written_app.
      rewrite connects_failed_attempts, slept_failed_attempts,
        executed_failed_attempts, written_failed_attempts,
        executed_debug_call, written_err_debug_call, slept_debug_call,
        written_err_verbose, slept_verbose, executed_verbose.
      rewrite <- connects_app, <- connects_app, connects_debug_call,
        connects_verbose.
      unfold CONNECTION_WAIT. cbn [connects filter is_connect List.length executed
                                     flat_map written slept app].
      rewrite !app_nil_r. repeat split; lia.
    + intros Hd. unfold debug_call.
      rewrite Hd, (failed_attempts_without_debug k Hd), app_nil_r.
      now rewrite <- !app_assoc.
  - rewrite check_activation_main_handles.
    erewrite check_body_fetch_raises.
    2:{ rewrite fetchBuildActivation_run.
        rewrite (connect_with_retry_interrupted k); [reflexivity | exact Hk | |].
        - intros i Hi. rewrite connects_debug_call. now apply Hfail.
        - now rewrite connects_debug_call. }
    cbn [fst snd].
    split; [now rewrite <- !app_assoc|].
    match goal with
    | |- ?A /\ ?B /\ ?C /\ (?H -> ?D /\ ?E) =>
        cut ((A /\ B /\ C /\ E) /\ (H -> D));
        [intros [(HA & HB & HC & HE) HD]; repeat split;
         try assumption; now apply HD|]
    end.
    split.
    + rewrite !connects_app, !slept_app, !executed_app, !written_app.
      rewrite connects_failed_attempts, slept_failed_attempts,
        executed_failed_attempts, written_failed_attempts,
        executed_debug_call, written_err_debug_call, slept_debug_call.
      rewrite <- connects_app, connects_debug_call.
      unfold CONNECTION_WAIT. cbn [connects filter is_connect List.length executed
                                     flat_map written slept app].
      rewrite !app_nil_r. repeat split; lia.
    + intros Hd. unfold debug_call.
      now rewrite Hd, (failed_attempts_without_debug k Hd), app_nil_r.
Qed.

End ConnectionFaults.

Lemma interrupt_while_connecting_exits_0_witness :
  let env := Samples.sample_env (Census.interrupted_at 1) [] in
  let r := ModuleQuery.main Samples.json_loads Samples.wrap_layout
             Samples.py_format Samples.dict_items env
             (Census.query "Easy Build" "gcc") [] in
  let r' := CheckActivation.main env (Census.check "Easy Build" "gcc") [] in
  let run := [Runtime.EvConnect; Runtime.EvSleep 2%Z; Runtime.EvConnect] in
  r = (Runtime.Return 0%Z, run) /\ r' = (Runtime.Return 0%Z, run).
Proof.
  intros env r r' run.
  destruct (interrupt_while_connecting_exits_0 Samples.json_loads
              Samples.wrap_layout Samples.py_format Samples.dict_items env 1 [])
    as [Hquery Hcheck].
  - lia.
  - intros i Hi. assert (i = 0) as -> by lia. reflexivity.
  - reflexivity.
  - split.
    + destruct (Hquery (Census.query "Easy Build" "gcc")) as (H1 & _).
      exact H1.
    + destruct (Hcheck (Census.check "Easy Build" "gcc")) as (H1 & _).
      exact H1.
Defined.

Section ConnectionDown.
Import Runtime Reading.

Variable json_loads : string -> option ModuleQuery.JValue.
Variable wrap_layout : ModuleQuery.TextWrapper -> string -> string.
Variable py_format : ModuleQuery.JValue -> Py.Arg.
Variable dict_items : forall K V : Type, list (K * V) -> list (K * V).

(** X3.  When the database refuses the 3 connection attempts and the
    debug flag is off, either program returns 2 and the whole run is:
    the attempts, each followed by its wait, then two lines on standard
    error, the program name with [Unable to connect to] and the host,
    and the hint at [--help].  No query is submitted and, but for the
    two lines module-query prints when it is verbose, nothing is written
    to standard output. *)
Theorem unreachable_database_exits_2 :
  forall (env : Env) (tr : Trace),
    DEBUG env = false ->
    (forall i, i < 3 -> connect_fails env (connects tr + i) = true) ->
    let attempts := [EvConnect; EvSleep 2; EvConnect; EvSleep 2;
                     EvConnect; EvSleep 2] in
    let complaint :=
      [EvPut Err (program_name env ++ ": Unable to connect to "
                  ++ SQL_DSN_host env ++ Py.nl);
       EvPut Err ("  for help use --help" ++ Py.nl)] in
    (forall args : ModuleQuery.Args,
        ModuleQuery.main json_loads wrap_layout py_format dict_items env args tr
        = (Return 2%Z,
           (tr ++ verbose_events args ++ attempts ++ complaint)%list))
    /\ (forall args : CheckActivation.Args,
          CheckActivation.main env args tr
          = (Return 2%Z, (tr ++ attempts ++ complaint)%list)).
Proof.
  intros env tr Hdebug Hfail attempts complaint.
  assert (failed_attempts env MAX_ATTEMPTS = attempts) as Hattempts.
  { cbn [failed_attempts MAX_ATTEMPTS]. unfold failed_attempt.
    now rewrite Hdebug. }
  assert (forall line, debug_call env line = []) as Hcall
      by (intros line; unfold debug_call; now rewrite Hdebug).
  assert (failure_events env
            (Some ("Unable to connect to " ++ SQL_DSN_host env)) = complaint)
    as Hcomplaint.
  { unfold failure_events. now rewrite Hdebug. }
  split; intros args.
  - rewrite main_handles.
    erewrite main_body_fetch_raises.
    2:{ rewrite fetchBuildReports_run, Hcall, app_nil_r.
        rewrite connect_with_retry_all_fail; [reflexivity|].
        intros i Hi. rewrite connects_verbose. now apply Hfail. }
    now rewrite Hattempts, Hcomplaint, <- !app_assoc.
  - rewrite check_activation_main_handles.
    erewrite check_body_fetch_raises.
    2:{ rewrite fetchBuildActivation_run, Hcall, app_nil_r.
        rewrite connect_with_retry_all_fail; [reflexivity|].
        intros i Hi. now apply Hfail. }
    now rewrite Hattempts, Hcomplaint, <- !app_assoc.
Qed.

End ConnectionDown.

Lemma unreachable_database_exits_2_witness :
  let env := Samples.sample_env Samples.always_down [] in
  fst (ModuleQuery.main Samples.json_loads Samples.wrap_layout
         Samples.py_format Samples.dict_items env
         (Census.query "Easy Build" "gcc") []) = Runtime.Return 2%Z
  /\ Runtime.written Runtime.Err
       (snd (CheckActivation.main env (Census.check "Easy Build" "gcc") []))
     = ["module-query: Unable to connect to rcdb-internal" ++ Py.nl;
        "  for help use --help" ++ Py.nl].
Proof.
  intros env.
  destruct (unreachable_database_exits_2 Samples.json_loads Samples.wrap_layout
              Samples.py_format Samples.dict_items env [] eq_refl)
    as [Hquery Hcheck].
  - intros i Hi. reflexivity.
  - split.
    + now rewrite Hquery.
    + now rewrite Hcheck.
Defined.

(** ** Renderers that fail *)

Section Tame.
Import Runtime Reading Census.

Lemma tame_ret {A} (a : A) : tame (ret a).
Proof. intros tr. split; [reflexivity | discriminate]. Qed.

Lemma tame_lift {A} (o : Outcome A) :
  o <> Raise KeyboardInterrupt -> tame (lift o).
Proof. intros H tr. split; [reflexivity | exact H]. Qed.

Lemma tame_bind {A B} (m : M A) (k : A -> M B) :
  tame m -> (forall a, tame (k a)) -> tame (bind m k).
Proof.
  intros Hm Hk tr. unfold bind. destruct (Hm tr) as [Hw Hi].
  destruct (m tr) as [[a|e] tr1]; cbn [fst snd] in *.
  - destruct (Hk a tr1) as [Hw' Hi']. split; [now rewrite Hw' | exact Hi'].
  - split; [exact Hw|]. intros [= ->]. now apply Hi.
Qed.

Lemma tame_diagnostic (b : bool) (f : Stream) (text : string) :
  tame (when b (emit (EvDiagnostic f text))).
Proof.
  intros tr. split; [apply quiet_diagnostic|].
  destruct b; discriminate.
Qed.

Lemma tame_with_user_msg {A} (msg : string) (m : M A) :
  tame m -> tame (with_user_msg msg m).
Proof.
  intros Hm tr. unfold with_user_msg, bind, attempt.
  destruct (Hm tr) as [Hw Hi].
  destruct (m tr) as [[a|[|kind um]] tr1]; cbn [fst snd] in *;
    try (split; [exact Hw | discriminate]).
  contradiction.
Qed.

Lemma tame_for_each {A S} (body : S -> A -> M S) (l : list A) :
  (forall st a, tame (body st a)) -> forall st, tame (for_each body l st).
Proof.
  intros Hbody. induction l as [|a l IH]; intros st; cbn [for_each].
  - apply tame_ret.
  - apply tame_bind; [apply Hbody | exact IH].
Qed.

Lemma fails_cleanly_print (report : string) : fails_cleanly (print report).
Proof. intros tr e tr' H. discriminate H. Qed.

Lemma fails_cleanly_bind {A} (m : M A) (k : A -> M unit) :
  tame m -> (forall a, fails_cleanly (k a)) -> fails_cleanly (bind m k).
Proof.
  intros Hm Hk tr e tr'. unfold bind. destruct (Hm tr) as [Hw Hi].
  destruct (m tr) as [[a|e1] tr1]; cbn [fst snd] in *.
  - intros Hrun. destruct (Hk a tr1 e tr' Hrun) as [He Hw'].
    split; [exact He | now rewrite Hw'].
  - intros [= <- <-]. split; [congruence | exact Hw].
Qed.

End Tame.

(** The outcomes of the library steps are never interrupts. *)
Ltac not_interrupted :=
  cbv [ModuleQuery.getitem ModuleQuery.contains ModuleQuery.str_strip
       ModuleQuery.str_replace ModuleQuery.join_value ModuleQuery.fill
       ModuleQuery.json_loads_column ModuleQuery.hashed Runtime.bound
       Runtime.formatted Runtime.encoded];
  repeat match goal with
         | |- context [match ?x with _ => _ end] => destruct x
         | |- context [if ?b then _ else _] => destruct b
         end;
  discriminate.

Ltac tame_step :=
  first
    [ apply tame_ret
    | apply tame_diagnostic
    | apply tame_with_user_msg
    | apply tame_lift; not_interrupted
    | apply tame_bind; [|intros ?]
    | match goal with
      | |- Census.tame (if ?b then _ else _) => destruct b
      | |- Census.tame (match ?x with _ => _ end) => destruct x
      | |- Census.tame (let _ := _ in _) => cbv zeta
      end ].

Section FailingRenderers.
Import Runtime Reading Census.

Variable json_loads : string -> option ModuleQuery.JValue.
Variable wrap_layout : ModuleQuery.TextWrapper -> string -> string.
Variable py_format : ModuleQuery.JValue -> Py.Arg.
Variable dict_items : forall K V : Type, list (K * V) -> list (K * V).
Variable env : Env.

Lemma tame_load_report (buildreport : Row) :
  tame (ModuleQuery.load_report json_loads env buildreport).
Proof. unfold ModuleQuery.load_report. repeat tame_step. Qed.

Lemma tame_has_comments (br : ModuleQuery.JValue) :
  tame (ModuleQuery.has_comments br).
Proof. unfold ModuleQuery.has_comments. repeat tame_step. Qed.

Lemma detail_fails_cleanly (buildreport : Row) (terminalsize : Z) :
  fails_cleanly (ModuleQuery.printDetailReport json_loads wrap_layout py_format
                   dict_items env buildreport terminalsize).
Proof.
  unfold ModuleQuery.printDetailReport. cbv zeta.
  repeat first
    [ apply fails_cleanly_print
    | apply fails_cleanly_bind;
      [ first [ apply tame_load_report | apply tame_has_comments
              | repeat tame_step ]
      | intros ? ] ].
Qed.

Lemma tame_consolidate_row (versionwrapper : ModuleQuery.TextWrapper)
    (textmargin : Z) (st : ModuleQuery.LoopState) (buildreport : Row) :
  tame (ModuleQuery.consolidate_row json_loads wrap_layout py_format env
          versionwrapper textmargin st buildreport).
Proof.
  unfold ModuleQuery.consolidate_row.
  repeat first [ apply tame_load_report | apply tame_has_comments | tame_step ].
Qed.

End FailingRenderers.

Section FailingReports.
Import Runtime Reading Census.

Variable json_loads : string -> option ModuleQuery.JValue.
Variable wrap_layout : ModuleQuery.TextWrapper -> string -> string.
Variable py_format : ModuleQuery.JValue -> Py.Arg.
Variable dict_items : forall K V : Type, list (K * V) -> list (K * V).
Variable env : Env.

Local Abbreviation printDetailReport :=
  (ModuleQuery.printDetailReport json_loads wrap_layout py_format dict_items env).
Local Abbreviation printConsolidatedReport :=
  (ModuleQuery.printConsolidatedReport json_loads wrap_layout py_format
     dict_items env).
Local Abbreviation main :=
  (ModuleQuery.main json_loads wrap_layout py_format dict_items env).

Lemma written_out_failure_events (user_msg : option string) :
  written Out (failure_events env user_msg) = [].
Proof. unfold failure_events. now destruct user_msg, (DEBUG env). Qed.

(** X4.  The detail report is all or nothing: [printDetailReport]
    either returns, having written exactly one text to standard output,
    or raises an [Exception], having written none; it is never left by
    a [KeyboardInterrupt].  (The dump of the document that the debug
    flag adds is a diagnostic, not a text, here and below.) *)
Theorem detail_report_is_all_or_nothing :
  forall (buildreport : Row) (terminalsize : Z) (tr : Trace),
    let r := printDetailReport buildreport terminalsize tr in
    (fst r = Return tt
     /\ exists report : string,
          written Out (snd r) = (written Out tr ++ [(report ++ Py.nl)%string])%list)
    \/ (exists kind user_msg,
           fst r = Raise (PyError kind user_msg)
           /\ written Out (snd r) = written Out tr).
Proof.
  intros buildreport terminalsize tr r. subst r.
  destruct (printDetailReport buildreport terminalsize tr) as [[[]|e] tr'] eqn:E.
  - left. split; [reflexivity|].
    exact (prints_one_detail _ _ _ _ _ _ _ _ _ E).
  - right.
    destruct (detail_fails_cleanly json_loads wrap_layout py_format dict_items
                env buildreport terminalsize tr e tr' E) as [He Hw].
    destruct e as [|kind um]; [contradiction|].
    now exists kind, um.
Qed.

Lemma for_each_raises {A S} (body : S -> A -> M S) (l : list A) :
  Exists (fun a => forall st tr st' tr', body st a tr <> (Return st', tr')) l ->
  forall st tr st' tr', for_each body l st tr <> (Return st', tr').
Proof.
  induction 1 as [a l Ha | a l _ IH]; intros st tr st' tr' H;
    cbn [for_each] in H; apply bind_returns in H as (st1 & tr1 & Hrow & H).
  - exact (Ha _ _ _ _ Hrow).
  - exact (IH _ _ _ _ H).
Qed.

(** When the first loop of the consolidated report cannot take some row,
    the report raises an [Exception] and nothing has been written. *)
Lemma consolidated_raises_quietly (buildreports : list Row) (terminalsize : Z)
    (tr : Trace) :
  (forall versionwrapper textmargin,
      (ModuleQuery.width versionwrapper
       = (if (terminalsize =? 0)%Z then 80 else terminalsize) - 2 - 6 * 2)%Z ->
      Exists (fun row =>
                forall st tr st' tr',
                  ModuleQuery.consolidate_row json_loads wrap_layout py_format env
                    versionwrapper textmargin st row tr <> (Return st', tr'))
        buildreports) ->
  let r := printConsolidatedReport buildreports terminalsize tr in
  exists kind user_msg,
    fst r = Raise (PyError kind user_msg)
    /\ written Out (snd r) = written Out tr.
Proof.
  intros Hbad r. subst r.
  unfold ModuleQuery.printConsolidatedReport. cbv zeta.
  match goal with
  | |- context [for_each (ModuleQuery.consolidate_row _ _ _ _ ?w ?m) _ ?s] =>
      pose proof (for_each_raises _ _ (Hbad w m eq_refl) s tr) as Hraise;
      pose proof (tame_for_each
                    (ModuleQuery.consolidate_row json_loads wrap_layout py_format
                       env w m) buildreports
                    (fun st row => tame_consolidate_row json_loads wrap_layout
                                     py_format env w m st row) s tr)
        as [Hw Hi]
  end.
  match goal with
  | |- context [bind ?m ?k tr] =>
      assert (forall e tr1, m tr = (Raise e, tr1) -> bind m k tr = (Raise e, tr1))
        as Hbind by (intros e tr1 E; unfold bind; now rewrite E)
  end.
  destruct (for_each _ buildreports _ tr) as [[st|[|kind um]] tr1];
    cbn [fst snd] in *.
  - exfalso. exact (Hraise st tr1 eq_refl).
  - contradiction.
  - exists kind, um. rewrite (Hbind _ _ eq_refl). now split.
Qed.

Lemma load_report_raises (buildreport : Row) (tr : Trace) :
  (forall br, ModuleQuery.json_loads_column json_loads
                (Py.assoc "report_text" buildreport) <> Return br) ->
  exists kind,
    ModuleQuery.load_report json_loads env buildreport tr
    = (Raise (PyError kind (Some ModuleQuery.parse_msg)), tr).
Proof.
  intros Hbad. unfold ModuleQuery.load_report, with_user_msg.
  cbv [bind attempt lift].
  destruct (ModuleQuery.json_loads_column json_loads _) as [br|[|kind um]] eqn:E.
  - now destruct (Hbad br).
  - unfold ModuleQuery.json_loads_column in E.
    repeat match type of E with
           | match ?x with _ => _ end = _ => destruct x
           end; discriminate.
  - cbv [raise]. now exists kind.
Qed.

(** X5.  A row whose [report_text] cannot be parsed (invalid JSON, NULL,
    or no such column) stops module-query before any report text is
    written, whether it is the only row or one of several: [main]
    returns 2 and the texts on standard output are those that were
    there when the rows arrived.  With one row and the debug flag off,
    the run ends with two lines on standard error: the program name
    followed by the message that asks to report to rchelp, then the
    hint at [--help]. *)
Theorem unparsable_report_exits_2 :
  forall (args : ModuleQuery.Args) (tr tr1 : Trace) (buildreports : list Row)
         (terminalsize : Z),
    ModuleQuery.fetchBuildReports env (ModuleQuery.arg_build_name args)
      (re_split_commas (ModuleQuery.arg_build_stacks args))
      (ModuleQuery.arg_full_text args) (tr ++ verbose_events args)%list
    = (Return buildreports, tr1) ->
    getTerminalSize env = Return terminalsize ->
    Exists (fun row =>
              forall br, ModuleQuery.json_loads_column json_loads
                           (Py.assoc "report_text" row) <> Return br)
      buildreports ->
    fst (main args tr) = Return 2%Z
    /\ written Out (snd (main args tr)) = written Out tr1
    /\ (List.length buildreports = 1 ->
        DEBUG env = false ->
        snd (main args tr)
        = (tr1 ++ [EvPut Err (program_name env ++ ": " ++ ModuleQuery.parse_msg
                              ++ Py.nl);
                   EvPut Err ("  for help use --help" ++ Py.nl)])%list).
Proof.
  intros args tr tr1 buildreports terminalsize Hfetch Hsize Hbad.
  rewrite main_handles,
    (main_body_run json_loads wrap_layout py_format dict_items env args tr tr1
       buildreports Hfetch), Hsize.
  destruct buildreports as [|row [|second rest]].
  - inversion Hbad.
  - assert (forall br, ModuleQuery.json_loads_column json_loads
                         (Py.assoc "report_text" row) <> Return br) as Hrow
        by (inversion Hbad as [? ? H|? ? H]; [exact H | inversion H]).
    destruct (load_report_raises row tr1 Hrow) as [kind Hload].
    assert (printDetailReport row terminalsize tr1
            = (Raise (PyError kind (Some ModuleQuery.parse_msg)), tr1)) as Hprint.
    { unfold ModuleQuery.printDetailReport. cbv zeta. unfold bind at 1.
      now rewrite Hload. }
    rewrite Hprint. cbn [fst snd].
    rewrite written_app, written_out_failure_events, app_nil_r.
    split; [reflexivity|]. split; [reflexivity|].
    intros _ Hdebug. unfold failure_events. now rewrite Hdebug.
  - destruct (consolidated_raises_quietly (row :: second :: rest) terminalsize tr1)
      as (kind & um & Hraise & Hw).
    { intros versionwrapper textmargin _.
      apply Exists_exists in Hbad as (bad & Hin & Hbad).
      apply Exists_exists. exists bad. split; [exact Hin|].
      intros st tr0 st' tr' H. unfold ModuleQuery.consolidate_row in H.
      apply bind_returns in H as (br & tr2 & Hload & _).
      destruct (load_report_raises bad tr0 Hbad) as [kind Hraise].
      rewrite Hraise in Hload. discriminate. }
    destruct (printConsolidatedReport _ _ _) as [[[]|e] tr2];
      cbn [fst snd] in *; try discriminate.
    injection Hraise as ->. cbn [fst snd].
    rewrite written_app, written_out_failure_events, app_nil_r.
    split; [reflexivity|]. split; [exact Hw|].
    intros Hlen. simpl in Hlen. lia.
Qed.

Lemma fill_narrow (w : ModuleQuery.TextWrapper) (text : ModuleQuery.JValue)
    (s : string) :
  (ModuleQuery.width w <= 0)%Z ->
  ModuleQuery.fill wrap_layout w text <> Return s.
Proof.
  intros H. unfold ModuleQuery.fill. destruct text; try discriminate.
  destruct (Z.leb_spec (ModuleQuery.width w) 0); [discriminate | lia].
Qed.

Lemma narrow_width (terminalsize : Z) :
  terminalsize <> 0%Z -> (terminalsize <= 14)%Z ->
  ((if (terminalsize =? 0)%Z then 80 else terminalsize) - 2 - 6 * 2 <= 0)%Z.
Proof. intros H0 H. destruct (Z.eqb_spec terminalsize 0); lia. Qed.

(** X6.  On a terminal reported 14 columns wide or less (negative
    widths included, 0 excepted, which counts as 80) module-query
    cannot print any report: the wrap width is not positive, the text
    wrapper refuses it, and whenever the search matched at least one
    row [main] returns 2 with no report text written to standard
    output. *)
Theorem narrow_terminal_exits_2 :
  forall (args : ModuleQuery.Args) (tr tr1 : Trace) (buildreports : list Row)
         (terminalsize : Z),
    ModuleQuery.fetchBuildReports env (ModuleQuery.arg_build_name args)
      (re_split_commas (ModuleQuery.arg_build_stacks args))
      (ModuleQuery.arg_full_text args) (tr ++ verbose_events args)%list
    = (Return buildreports, tr1) ->
    buildreports <> [] ->
    getTerminalSize env = Return terminalsize ->
    terminalsize <> 0%Z ->
    (terminalsize <= 14)%Z ->
    fst (main args tr) = Return 2%Z
    /\ written Out (snd (main args tr)) = written Out tr1.
Proof.
  intros args tr tr1 buildreports terminalsize Hfetch Hne Hsize H0 Hnarrow.
  pose proof (narrow_width terminalsize H0 Hnarrow) as Hwidth.
  rewrite main_handles,
    (main_body_run json_loads wrap_layout py_format dict_items env args tr tr1
       buildreports Hfetch), Hsize.
  destruct buildreports as [|row [|second rest]]; [contradiction| |].
  - destruct (printDetailReport row terminalsize tr1) as [[[]|e] tr2] eqn:E.
    + exfalso. unfold ModuleQuery.printDetailReport in E. cbv zeta in E.
      do 11 apply bind_returns in E as (? & ? & _ & E).
      apply bind_returns in E as (lines & ? & Hfill & _).
      apply lift_returns in Hfill as [Hfill _].
      refine (fill_narrow _ _ _ _ Hfill). exact Hwidth.
    + destruct (detail_fails_cleanly json_loads wrap_layout py_format dict_items
                  env row terminalsize tr1 e tr2 E) as [He Hw].
      destruct e as [|kind um]; [contradiction|]. cbn [fst snd].
      now rewrite written_app, written_out_failure_events, app_nil_r.
  - destruct (consolidated_raises_quietly (row :: second :: rest) terminalsize tr1)
      as (kind & um & Hraise & Hw).
    { intros versionwrapper textmargin Hw.
      apply Exists_cons_hd. intros st tr0 st' tr' H.
      unfold ModuleQuery.consolidate_row in H.
      do 12 (apply bind_returns in H as (? & ? & _ & H); cbv zeta in H).
      apply bind_returns in H as (line & ? & Hfill & _).
      apply lift_returns in Hfill as [Hfill _].
      refine (fill_narrow versionwrapper _ _ _ Hfill).
      rewrite Hw. exact Hwidth. }
    destruct (printConsolidatedReport _ _ _) as [[[]|e] tr2];
      cbn [fst snd] in *; try discriminate.
    injection Hraise as ->. cbn [fst snd].
    now rewrite written_app, written_out_failure_events, app_nil_r.
Qed.

End FailingReports.

Lemma unparsable_report_exits_2_witness :
  let env := Samples.sample_env Samples.first_try [Samples.row "gcc10"] in
  let r := ModuleQuery.main Samples.json_loads Samples.wrap_layout
             Samples.py_format Samples.dict_items env
             (Census.query "Easy Build" "gcc") [] in
  fst r = Runtime.Return 2%Z
  /\ Runtime.written Runtime.Out (snd r) = []
  /\ Runtime.written Runtime.Err (snd r)
     = ["module-query: " ++ ModuleQuery.parse_msg ++ Py.nl;
        "  for help use --help" ++ Py.nl].
Proof.
  intros env r.
  destruct (unparsable_report_exits_2 Samples.json_loads Samples.wrap_layout
              Samples.py_format Samples.dict_items env
              (Census.query "Easy Build" "gcc") [] _ _ 80%Z eq_refl eq_refl)
    as (Hcode & Hout & Herr).
  - apply Exists_cons_hd. intros br. discriminate.
  - split; [exact Hcode|]. split; [exact Hout|].
    unfold r. now rewrite (Herr eq_refl eq_refl).
Defined.

Lemma narrow_terminal_exits_2_witness :
  let env := Terminal.with_terminal
               (Samples.sample_env Samples.first_try [Samples.row "gcc9"])
               (Census.answering 1 14) in
  let r := ModuleQuery.main Samples.json_loads Samples.wrap_layout
             Samples.py_format Samples.dict_items env
             (Census.query "Easy Build" "gcc") [] in
  fst r = Runtime.Return 2%Z /\ Runtime.written Runtime.Out (snd r) = [].
Proof.
  intros env r.
  apply (narrow_terminal_exits_2 Samples.json_loads Samples.wrap_layout
           Samples.py_format Samples.dict_items env
           (Census.query "Easy Build" "gcc") [] _ _ 14%Z eq_refl).
  - discriminate.
  - reflexivity.
  - discriminate.
  - lia.
Defined.

(** ** The width of the terminal *)

Section TerminalWidth.
Import Runtime Reading Census.

Lemma silent_inv (t : Terminal.Tty) :
  silent t <->
  Terminal.ioctl_GWINSZ t 0 = None
  /\ Terminal.ioctl_GWINSZ t 1 = None
  /\ Terminal.ioctl_GWINSZ t 2 = None
  /\ match Terminal.open_ctermid t with
     | Some fd => Terminal.ioctl_GWINSZ t fd = None
     | None => True
     end.
Proof.
  unfold silent, descriptors. split.
  - intros H. repeat split; try (apply H; simpl; tauto).
    destruct (Terminal.open_ctermid t) as [fd|]; [|exact I].
    apply H. simpl. tauto.
  - intros (H0 & H1 & H2 & H3) fd Hin.
    destruct (Terminal.open_ctermid t) as [fd'|]; simpl in Hin;
      repeat (destruct Hin as [<-|Hin]; [assumption|]); contradiction.
Qed.

Lemma getTerminalSize_silent (t : Terminal.Tty) :
  silent t ->
  Terminal.getTerminalSize t
  = Terminal.int t (Terminal.env_get (Terminal.COLUMNS t) 80).
Proof.
  intros H. apply silent_inv in H as (H0 & H1 & H2 & H3).
  unfold Terminal.getTerminalSize. rewrite H0, H1, H2. cbn [Terminal.or_else].
  destruct (Terminal.open_ctermid t) as [fd|]; [rewrite H3|]; reflexivity.
Qed.

(** X7.  [getTerminalSize] takes the width from the first descriptor
    that answers, asking standard input, output and error and then the
    controlling terminal: when a descriptor answers and none before it
    does, the result is the column count of that answer, whatever
    [LINES] and [COLUMNS] hold. *)
Theorem first_answering_descriptor_gives_width :
  forall (t : Terminal.Tty) (before after : list Z) (fd rows columns : Z),
    descriptors t = (before ++ fd :: after)%list ->
    Forall (fun d => Terminal.ioctl_GWINSZ t d = None) before ->
    Terminal.ioctl_GWINSZ t fd = Some (rows, columns) ->
    Terminal.getTerminalSize t = Return columns.
Proof.
  intros t before after fd rows columns Hd Hbefore Hfd.
  unfold descriptors in Hd. unfold Terminal.getTerminalSize.
  destruct before as [|d0 [|d1 [|d2 [|d3 rest]]]]; cbn [app] in Hd.
  - injection Hd as <- _. now rewrite Hfd.
  - injection Hd as <- <- _.
    inversion Hbefore as [|? ? H0 _]; subst. now rewrite H0, Hfd.
  - injection Hd as <- <- <- _.
    inversion Hbefore as [|? ? H0 Hb]; subst.
    inversion Hb as [|? ? H1 _]; subst. now rewrite H0, H1, Hfd.
  - injection Hd as <- <- <- Hd.
    inversion Hbefore as [|? ? H0 Hb]; subst.
    inversion Hb as [|? ? H1 Hb']; subst.
    inversion Hb' as [|? ? H2 _]; subst.
    rewrite H0, H1, H2. cbn [Terminal.or_else].
    destruct (Terminal.open_ctermid t) as [fd'|]; [|discriminate].
    injection Hd as <- _. now rewrite Hfd.
  - exfalso. destruct (Terminal.open_ctermid t);
      simpl in Hd; injection Hd as _ _ _ Hd; try discriminate.
    destruct rest; discriminate.
Qed.

Lemma first_answering_descriptor_gives_width_witness :
  Terminal.getTerminalSize (answering 1 132) = Runtime.Return 132%Z.
Proof.
  apply (first_answering_descriptor_gives_width (answering 1 132)
           [0%Z] [2%Z] 1%Z 24%Z 132%Z).
  - reflexivity.
  - repeat constructor.
  - reflexivity.
Defined.

Lemma terminal_size_raises (t : Terminal.Tty) (s : string) :
  silent t -> Terminal.COLUMNS t = Some s -> Terminal.int_of t s = None ->
  Terminal.getTerminalSize t = Raise (PyError "ValueError" None).
Proof.
  intros Hs Hc Hi. rewrite (getTerminalSize_silent t Hs), Hc.
  unfold Terminal.int, Terminal.env_get. now rewrite Hi.
Qed.

(** X8.  [getTerminalSize] raises in one case only: no descriptor
    answers and [COLUMNS] is set to a text [int] rejects; the exception
    is then a [ValueError].  When no descriptor answers and [COLUMNS]
    is unset the width is 80.  [LINES] plays no part. *)
Theorem terminal_size_fails_only_on_bad_COLUMNS :
  forall (t : Terminal.Tty),
    (forall e : Exn,
        Terminal.getTerminalSize t = Raise e <->
        silent t
        /\ e = PyError "ValueError" None
        /\ exists s, Terminal.COLUMNS t = Some s /\ Terminal.int_of t s = None)
    /\ (silent t -> Terminal.COLUMNS t = None ->
        Terminal.getTerminalSize t = Return 80%Z).
Proof.
  intros t. split.
  - intros e. split.
    + intros H.
      assert (silent t) as Hs.
      { apply silent_inv. unfold Terminal.getTerminalSize in H.
        destruct (Terminal.ioctl_GWINSZ t 0) as [[]|]; [discriminate|].
        destruct (Terminal.ioctl_GWINSZ t 1) as [[]|]; [discriminate|].
        destruct (Terminal.ioctl_GWINSZ t 2) as [[]|]; [discriminate|].
        cbn [Terminal.or_else] in H.
        destruct (Terminal.open_ctermid t) as [fd|]; [|tauto].
        destruct (Terminal.ioctl_GWINSZ t fd) as [[]|]; [discriminate|tauto]. }
      split; [exact Hs|].
      rewrite (getTerminalSize_silent t Hs) in H.
      unfold Terminal.int, Terminal.env_get in H.
      destruct (Terminal.COLUMNS t) as [s|]; [|discriminate].
      destruct (Terminal.int_of t s) eqn:E; [discriminate|].
      injection H as <-. split; [reflexivity|]. now exists s.
    + intros (Hs & -> & s & Hc & Hi). exact (terminal_size_raises t s Hs Hc Hi).
  - intros Hs Hc. now rewrite (getTerminalSize_silent t Hs), Hc.
Qed.

End TerminalWidth.

Lemma terminal_size_fails_only_on_bad_COLUMNS_witness :
  Terminal.getTerminalSize (Census.no_terminal None) = Runtime.Return 80%Z
  /\ Terminal.getTerminalSize (Census.no_terminal (Some "wide"))
     = Runtime.Raise (Runtime.PyError "ValueError" None).
Proof.
  split.
  - destruct (terminal_size_fails_only_on_bad_COLUMNS (Census.no_terminal None))
      as [_ Hdefault].
    apply Hdefault; [intros fd _; reflexivity | reflexivity].
  - destruct (terminal_size_fails_only_on_bad_COLUMNS
                (Census.no_terminal (Some "wide"))) as [Hraise _].
    apply Hraise. split; [intros fd _; reflexivity|].
    split; [reflexivity|]. now exists "wide".
Defined.

Section TerminalInMain.
Import Runtime Reading Census.

Variable json_loads : string -> option ModuleQuery.JValue.
Variable wrap_layout : ModuleQuery.TextWrapper -> string -> string.
Variable py_format : ModuleQuery.JValue -> Py.Arg.
Variable dict_items : forall K V : Type, list (K * V) -> list (K * V).

(** X9.  When no descriptor gives the width and [COLUMNS] is not a
    number, module-query with at least one matching row returns 2 right
    after the rows arrive: it adds the traceback and the hint at
    [--help] on standard error and nothing else, so that no report is
    written. *)
Theorem bad_COLUMNS_exits_2 :
  forall (env : Env) (t : Terminal.Tty) (args : ModuleQuery.Args)
         (tr tr1 : Trace) (buildreports : list Row) (s : string),
    let env' := Terminal.with_terminal env t in
    ModuleQuery.fetchBuildReports env' (ModuleQuery.arg_build_name args)
      (re_split_commas (ModuleQuery.arg_build_stacks args))
      (ModuleQuery.arg_full_text args) (tr ++ verbose_events args)%list
    = (Return buildreports, tr1) ->
    buildreports <> [] ->
    silent t ->
    Terminal.COLUMNS t = Some s ->
    Terminal.int_of t s = None ->
    ModuleQuery.main json_loads wrap_layout py_format dict_items env' args tr
    = (Return 2%Z,
       (tr1 ++ [EvDiagnostic Err (program_name env ++ ": ");
                EvPut Err ("  for help use --help" ++ Py.nl)])%list).
Proof.
  intros env t args tr tr1 buildreports s env' Hfetch Hne Hs Hc Hi.
  assert (getTerminalSize env' = Raise (PyError "ValueError" None)) as Hsize.
  { exact (terminal_size_raises t s Hs Hc Hi). }
  rewrite main_handles,
    (main_body_run json_loads wrap_layout py_format dict_items env' args tr tr1
       buildreports Hfetch), Hsize.
  destruct buildreports as [|row [|second rest]]; [contradiction| |];
    unfold failure_events; now destruct (DEBUG env').
Qed.

End TerminalInMain.

Lemma bad_COLUMNS_exits_2_witness :
  let env := Terminal.with_terminal
               (Samples.sample_env Samples.first_try [Samples.row "gcc9"])
               (Census.no_terminal (Some "wide")) in
  ModuleQuery.main Samples.json_loads Samples.wrap_layout Samples.py_format
    Samples.dict_items env (Census.query "Easy Build" "gcc") []
  = (Runtime.Return 2%Z,
     [Runtime.EvConnect;
      Runtime.EvExecute 7 (Reading.module_query_sql 1 false)
        ["%gcc%"; "Easy Build"];
      Runtime.EvDiagnostic Runtime.Err "module-query: ";
      Runtime.EvPut Runtime.Err ("  for help use --help" ++ Py.nl)]).
Proof.
  intros env.
  apply (bad_COLUMNS_exits_2 Samples.json_loads Samples.wrap_layout
           Samples.py_format Samples.dict_items
           (Samples.sample_env Samples.first_try [Samples.row "gcc9"])
           (Census.no_terminal (Some "wide")) (Census.query "Easy Build" "gcc")
           [] _ _ "wide" eq_refl).
  - discriminate.
  - intros fd _. reflexivity.
  - reflexivity.
  - reflexivity.
Defined.

(** ** Events a computation adds *)

Section Adds.
Import Runtime Reading Census.

Variable P : Trace -> Prop.
Hypothesis P_nil : P [].
Hypothesis P_app : forall a b, P a -> P b -> P (a ++ b)%list.

Lemma adds_ret {A} (a : A) : adds P (ret a).
Proof. intros tr. exists []. now rewrite app_nil_r. Qed.

Lemma adds_raise {A} (e : Exn) : adds P (@raise A e).
Proof. intros tr. exists []. now rewrite app_nil_r. Qed.

Lemma adds_lift {A} (o : Outcome A) : adds P (lift o).
Proof. intros tr. exists []. now rewrite app_nil_r. Qed.

Lemma adds_emit (e : Event) : P [e] -> adds P (emit e).
Proof. intros He tr. now exists [e]. Qed.

Lemma adds_bind {A B} (m : M A) (k : A -> M B) :
  adds P m -> (forall a, adds P (k a)) -> adds P (bind m k).
Proof.
  intros Hm Hk tr. unfold bind. destruct (Hm tr) as (evs & Hrun & Hevs).
  destruct (m tr) as [[a|e] tr1]; cbn [snd] in *.
  - destruct (Hk a tr1) as (evs' & Hrun' & Hevs').
    exists (evs ++ evs')%list. split; [|now apply P_app].
    now rewrite Hrun', Hrun, app_assoc.
  - now exists evs.
Qed.

Lemma adds_attempt {A} (m : M A) : adds P m -> adds P (attempt m).
Proof.
  intros Hm tr. unfold attempt. destruct (Hm tr) as (evs & Hrun & Hevs).
  destruct (m tr) as [o tr1]. now exists evs.
Qed.

Lemma adds_when (b : bool) (m : M unit) : adds P m -> adds P (when b m).
Proof. intros Hm. destruct b; [exact Hm | apply adds_ret]. Qed.

Lemma adds_with_user_msg {A} (msg : string) (m : M A) :
  adds P m -> adds P (with_user_msg msg m).
Proof.
  intros Hm. unfold with_user_msg. apply adds_bind.
  - now apply adds_attempt.
  - intros [a|[|kind um]]; [apply adds_ret | apply adds_raise | apply adds_raise].
Qed.

Lemma adds_for_each {A S} (body : S -> A -> M S) (l : list A) :
  (forall st a, adds P (body st a)) -> forall st, adds P (for_each body l st).
Proof.
  intros Hbody. induction l as [|a l IH]; intros st; cbn [for_each].
  - apply adds_ret.
  - apply adds_bind; [apply Hbody | exact IH].
Qed.

End Adds.

Section NoEvent.
Import Runtime Census.

Lemma no_event_nil : no_event [].
Proof. reflexivity. Qed.

Lemma no_event_app (a b : Trace) : no_event a -> no_event b -> no_event (a ++ b)%list.
Proof. unfold no_event. now intros -> ->. Qed.

Lemma silent_run {A} (m : M A) (tr : Trace) : adds no_event m -> snd (m tr) = tr.
Proof.
  intros Hm. destruct (Hm tr) as (evs & Hrun & ->). now rewrite app_nil_r in Hrun.
Qed.

Lemma written_out_puts (texts : list string) :
  written Out (map (fun s => EvPut Out s) texts) = texts.
Proof. induction texts as [|s texts IH]; simpl; [reflexivity | now rewrite IH]. Qed.

Lemma debug_dumps_succ (env : Env) (n : nat) :
  debug_dumps env (S n) = (debug_dumps env 1 ++ debug_dumps env n)%list.
Proof. unfold debug_dumps. now destruct (DEBUG env). Qed.

End NoEvent.

Ltac silent_step :=
  first
    [ apply (adds_ret Census.no_event no_event_nil)
    | apply (adds_raise Census.no_event no_event_nil)
    | apply (adds_lift Census.no_event no_event_nil)
    | apply (adds_bind Census.no_event no_event_app); [|intros ?]
    | match goal with
      | |- Census.adds _ (if ?b then _ else _) => destruct b
      | |- Census.adds _ (match ?x with _ => _ end) => destruct x
      | |- Census.adds _ (let _ := _ in _) => cbv zeta
      end ].

(** ** Applications and builds in the consolidated report *)

Section DictCensus.
Context {V : Type}.
Implicit Types (k : ModuleQuery.JValue) (v : V).
Implicit Types (d : list (ModuleQuery.JValue * V)).
Variable weight : V -> nat.

Local Abbreviation total d :=
  (list_sum (map (fun item => weight (snd item)) d)).

Lemma key_eqb_refl k :
  ModuleQuery.hashable k = true -> ModuleQuery.key_eqb k k = true.
Proof.
  destruct k as [|b|z|s|l|o]; try discriminate; intros _; simpl.
  - reflexivity.
  - apply Z.eqb_refl.
  - apply Z.eqb_refl.
  - apply String.eqb_refl.
Qed.

Lemma keys_dict_set k v d :
  map fst (ModuleQuery.dict_set k v d) = Census.add_key (map fst d) k.
Proof.
  unfold Census.add_key. induction d as [|[k' v'] d IH]; simpl; [reflexivity|].
  destruct (ModuleQuery.key_eqb k k'); simpl; [reflexivity|].
  rewrite IH. now destruct (existsb _ _).
Qed.

Lemma weight_dict_set_new k v d :
  ModuleQuery.dict_get k d = None ->
  total (ModuleQuery.dict_set k v d) = total d + weight v.
Proof.
  induction d as [|[k' v'] d IH]; simpl; [lia|].
  destruct (ModuleQuery.key_eqb k k'); [discriminate|].
  intros H. simpl. rewrite (IH H). lia.
Qed.

Lemma weight_dict_set_old k v old d :
  ModuleQuery.dict_get k d = Some old ->
  total (ModuleQuery.dict_set k v d) + weight old = total d + weight v.
Proof.
  induction d as [|[k' v'] d IH]; simpl; [discriminate|].
  destruct (ModuleQuery.key_eqb k k').
  - intros [= ->]. simpl. lia.
  - intros H. simpl. specialize (IH H). lia.
Qed.

End DictCensus.

Section ConsolidatedCensus.
Import Runtime Reading Census.

Variable json_loads : string -> option ModuleQuery.JValue.
Variable wrap_layout : ModuleQuery.TextWrapper -> string -> string.
Variable py_format : ModuleQuery.JValue -> Py.Arg.
Variable dict_items : forall K V : Type, list (K * V) -> list (K * V).
Variable env : Env.

Lemma load_report_inv (buildreport : Row) (br : ModuleQuery.JValue)
    (tr tr' : Trace) :
  ModuleQuery.load_report json_loads env buildreport tr = (Return br, tr') ->
  ModuleQuery.json_loads_column json_loads (Py.assoc "report_text" buildreport)
  = Return br.
Proof.
  unfold ModuleQuery.load_report, with_user_msg. cbv [bind attempt lift].
  destruct (ModuleQuery.json_loads_column json_loads _) as [br'|[|kind um]];
    try discriminate.
  destruct (DEBUG env); cbv [when emit ret]; now intros [= -> _].
Qed.

Lemma load_report_trace (buildreport : Row) (br : ModuleQuery.JValue)
    (tr tr' : Trace) :
  ModuleQuery.load_report json_loads env buildreport tr = (Return br, tr') ->
  tr' = (tr ++ debug_dumps env 1)%list.
Proof.
  unfold ModuleQuery.load_report, with_user_msg, debug_dumps.
  cbv [bind attempt lift].
  destruct (ModuleQuery.json_loads_column json_loads _) as [br'|[|kind um]];
    try discriminate.
  destruct (DEBUG env); cbv [when emit ret repeat]; intros [= _ <-];
    [reflexivity | now rewrite app_nil_r].
Qed.

Lemma consolidate_row_trace (versionwrapper : ModuleQuery.TextWrapper)
    (textmargin : Z) (st st' : ModuleQuery.LoopState) (buildreport : Row)
    (tr tr' : Trace) :
  ModuleQuery.consolidate_row json_loads wrap_layout py_format env
    versionwrapper textmargin st buildreport tr = (Return st', tr') ->
  tr' = (tr ++ debug_dumps env 1)%list.
Proof.
  unfold ModuleQuery.consolidate_row. intros H.
  apply bind_returns in H as (br & tr0 & Hload & H).
  apply load_report_trace in Hload as ->.
  match type of H with
  | ?m ?t = _ => pose proof (silent_run m t) as Hq
  end.
  rewrite H in Hq. apply Hq.
  unfold ModuleQuery.has_comments. repeat silent_step.
Qed.

Lemma consolidate_rows_trace (versionwrapper : ModuleQuery.TextWrapper)
    (textmargin : Z) (buildreports : list Row) :
  forall st st' tr tr',
    for_each (ModuleQuery.consolidate_row json_loads wrap_layout py_format env
                versionwrapper textmargin) buildreports st tr
    = (Return st', tr') ->
    tr' = (tr ++ debug_dumps env (List.length buildreports))%list.
Proof.
  induction buildreports as [|row rows IH]; intros st st' tr tr' H;
    cbn [for_each] in H.
  - injection H as _ <-. unfold debug_dumps. cbn [List.length repeat].
    destruct (DEBUG env); now rewrite app_nil_r.
  - apply bind_returns in H as (st1 & tr1 & Hrow & H).
    apply consolidate_row_trace in Hrow as ->.
    apply IH in H as ->.
    cbn [List.length].
    now rewrite (debug_dumps_succ env (List.length rows)), app_assoc.
Qed.

Lemma hashed_inv (k k' : ModuleQuery.JValue) :
  ModuleQuery.hashed k = Return k' -> k' = k /\ ModuleQuery.hashable k = true.
Proof.
  unfold ModuleQuery.hashed. destruct (ModuleQuery.hashable k); [|discriminate].
  now intros [= ->].
Qed.

Lemma lines_defaultdict_append (key : ModuleQuery.JValue) (line : string)
    (d : list (ModuleQuery.JValue * list string)) :
  list_sum (map (fun entry : ModuleQuery.JValue * list string =>
                   List.length (snd entry))
              (ModuleQuery.defaultdict_append key line d))
  = list_sum (map (fun entry : ModuleQuery.JValue * list string =>
                     List.length (snd entry)) d) + 1.
Proof.
  unfold ModuleQuery.defaultdict_append.
  destruct (ModuleQuery.dict_get key d) as [lines|] eqn:E.
  - pose proof (weight_dict_set_old (@List.length string) key
                  (lines ++ [line])%list lines d E) as H.
    rewrite length_app in H. simpl in H. lia.
  - now rewrite (weight_dict_set_new (@List.length string) key [line] d E).
Qed.

Lemma lines_of_append (key : ModuleQuery.JValue) (line : string)
    (stacks : list (ModuleQuery.JValue * list string))
    (description : option ModuleQuery.JValue) :
  lines_of {| ModuleQuery.details_build_stacks :=
                ModuleQuery.defaultdict_append key line stacks;
              ModuleQuery.details_description := description |}
  = list_sum (map (fun entry : ModuleQuery.JValue * list string =>
                     List.length (snd entry)) stacks) + 1.
Proof.
  unfold lines_of. cbn [ModuleQuery.details_build_stacks].
  apply lines_defaultdict_append.
Qed.

(** What one row does to [apps]: its title is added to the keys unless
    it is there, and one version line is added. *)
Lemma consolidate_row_census (versionwrapper : ModuleQuery.TextWrapper)
    (textmargin : Z) (st st' : ModuleQuery.LoopState) (buildreport : Row)
    (tr tr' : Trace) :
  ModuleQuery.consolidate_row json_loads wrap_layout py_format env
    versionwrapper textmargin st buildreport tr = (Return st', tr') ->
  exists title,
    row_title json_loads buildreport title
    /\ map fst (ModuleQuery.apps st') = add_key (map fst (ModuleQuery.apps st)) title
    /\ total_lines (ModuleQuery.apps st') = total_lines (ModuleQuery.apps st) + 1.
Proof.
  unfold ModuleQuery.consolidate_row. intros H.
  apply bind_returns in H as (br & tr0 & Hload & H).
  apply load_report_inv in Hload.
  apply bind_returns in H as (title & ? & Htitle & H).
  apply lift_returns in Htitle as [Htitle _].
  apply bind_returns in H as (app_name & ? & Hhash & H).
  apply lift_returns in Hhash as [Hhash _].
  apply hashed_inv in Hhash as [-> Hhash].
  pose proof (key_eqb_refl title Hhash) as Hrefl.
  exists title. split; [now exists br|].
  cbv zeta in H.
  do 10 (apply bind_returns in H as (? & ? & _ & H); cbv zeta in H).
  injection H as <- _. cbn [ModuleQuery.apps].
  unfold total_lines.
  destruct (ModuleQuery.dict_get title (ModuleQuery.apps st)) as [d0|] eqn:E0.
  - rewrite E0, !dict_get_set_same, !dict_set_twice by exact Hrefl.
    split; [|].
    + rewrite keys_dict_set. unfold add_key.
      enough (existsb (ModuleQuery.key_eqb title)
                (map fst (ModuleQuery.apps st)) = true) as -> by reflexivity.
      clear - E0. induction (ModuleQuery.apps st) as [|[k' v'] d IH];
        simpl in *; [discriminate|].
      destruct (ModuleQuery.key_eqb title k'); [reflexivity | now apply IH].
    + match goal with
      | |- context [ModuleQuery.dict_set title ?v _] =>
          pose proof (weight_dict_set_old lines_of title v d0 _ E0) as Hw
      end.
      rewrite lines_of_append in Hw.
      cbn [ModuleQuery.details_build_stacks ModuleQuery.details_description]
        in Hw |- *.
      fold (lines_of d0) in Hw. lia.
  - cbv beta iota. rewrite !dict_get_set_same, !dict_set_twice by exact Hrefl.
    cbn [ModuleQuery.details_build_stacks ModuleQuery.details_description].
    split.
    + apply keys_dict_set.
    + rewrite (weight_dict_set_new lines_of title _ _ E0).
      now rewrite lines_of_append.
Qed.

Lemma consolidate_rows_census (versionwrapper : ModuleQuery.TextWrapper)
    (textmargin : Z) (buildreports : list Row) :
  forall st st' tr tr',
    for_each (ModuleQuery.consolidate_row json_loads wrap_layout py_format env
                versionwrapper textmargin) buildreports st tr
    = (Return st', tr') ->
    exists titles,
      Forall2 (row_title json_loads) buildreports titles
      /\ map fst (ModuleQuery.apps st')
         = fold_left add_key titles (map fst (ModuleQuery.apps st))
      /\ total_lines (ModuleQuery.apps st')
         = total_lines (ModuleQuery.apps st) + List.length buildreports.
Proof.
  induction buildreports as [|row rows IH]; intros st st' tr tr' H;
    cbn [for_each] in H.
  - injection H as <- _. exists []. split; [constructor|]. simpl.
    split; [reflexivity | lia].
  - apply bind_returns in H as (st1 & tr1 & Hrow & H).
    apply consolidate_row_census in Hrow as (title & Htitle & Hkeys & Hlines).
    destruct (IH _ _ _ _ H) as (titles & Htitles & Hkeys' & Hlines').
    exists (title :: titles). split; [now constructor|]. split.
    + rewrite Hkeys', Hkeys. reflexivity.
    + rewrite Hlines', Hlines. simpl. lia.
Qed.

(** X10.  The first loop of the consolidated report groups the rows by
    title and drops none: when it returns, the keys of [apps] are the
    distinct titles of the rows, in the order of their first
    occurrence (titles compared as Python compares dict keys), and
    [apps] holds one version line per row. *)
Theorem first_loop_groups_rows_by_title :
  forall (versionwrapper : ModuleQuery.TextWrapper) (textmargin : Z)
         (buildreports : list Row) (st : ModuleQuery.LoopState) (tr tr' : Trace),
    for_each (ModuleQuery.consolidate_row json_loads wrap_layout py_format env
                versionwrapper textmargin) buildreports ModuleQuery.empty_state tr
    = (Return st, tr') ->
    exists titles,
      Forall2 (row_title json_loads) buildreports titles
      /\ map fst (ModuleQuery.apps st) = distinct titles
      /\ total_lines (ModuleQuery.apps st) = List.length buildreports.
Proof.
  intros versionwrapper textmargin buildreports st tr tr' H.
  apply consolidate_rows_census in H as (titles & Htitles & Hkeys & Hlines).
  exists titles. split; [exact Htitles|]. split; [exact Hkeys | exact Hlines].
Qed.

(** What a block is made of, when [print_app] returns. *)
Lemma print_app_inv (border : string)
    (descwrapper buildstackwrapper : ModuleQuery.TextWrapper)
    (st : ModuleQuery.LoopState) (app_name : ModuleQuery.JValue)
    (details : ModuleQuery.AppDetails) (tr tr' : Trace) :
  ModuleQuery.print_app wrap_layout py_format dict_items border descwrapper
    buildstackwrapper st (app_name, details) tr = (Return tt, tr') ->
  exists descriptionlines versionlines example exampleflavor legend block,
    ModuleQuery.moduletitle st = Some example
    /\ ModuleQuery.buildstack st = Some exampleflavor
    /\ ModuleQuery.preferredbuildexplanation st = Some legend
    /\ Py.format ModuleQuery.consolidated_template []
         [("border", Py.text border);
          ("app_name", ModuleQuery.arg_of py_format app_name);
          ("descriptionlines", Py.text descriptionlines);
          ("versionlines", Py.text versionlines);
          ("example", ModuleQuery.arg_of py_format example);
          ("exampleflavor", ModuleQuery.arg_of py_format exampleflavor);
          ("preferredbuildexplanation", Py.text legend)]
       = Some block
    /\ tr' = (tr ++ [EvPut Out (block ++ Py.nl)])%list.
Proof.
  unfold ModuleQuery.print_app. intros H.
  apply bind_returns in H as (strs & tr1 & Hloop & H).
  assert (tr1 = tr) as ->.
  { match type of Hloop with
    | for_each ?body ?l ?acc tr = _ =>
        pose proof (silent_run (for_each body l acc) tr) as Hq
    end.
    rewrite Hloop in Hq. apply Hq.
    apply (adds_for_each no_event no_event_nil no_event_app).
    intros ? [? ?]. repeat silent_step. }
  apply bind_returns in H as (description & ? & Hstep & H).
  apply lift_returns in Hstep as [_ ->].
  apply bind_returns in H as (descriptionlines & ? & Hstep & H).
  apply lift_returns in Hstep as [_ ->].
  apply bind_returns in H as (example & ? & Hexample & H).
  apply lift_returns in Hexample as [Hexample ->].
  apply bind_returns in H as (exampleflavor & ? & Hflavor & H).
  apply lift_returns in Hflavor as [Hflavor ->].
  apply bind_returns in H as (legend & ? & Hlegend & H).
  apply lift_returns in Hlegend as [Hlegend ->].
  apply bind_returns in H as (block & ? & Hformat & H).
  apply lift_returns in Hformat as [Hformat ->].
  exists descriptionlines, (Py.join Py.nl strs), example, exampleflavor, legend,
    block.
  unfold bound in Hexample, Hflavor, Hlegend.
  destruct (ModuleQuery.moduletitle st); [|discriminate].
  destruct (ModuleQuery.buildstack st); [|discriminate].
  destruct (ModuleQuery.preferredbuildexplanation st); [|discriminate].
  injection Hexample as ->. injection Hflavor as ->. injection Hlegend as ->.
  split; [reflexivity|]. split; [reflexivity|]. split; [reflexivity|].
  split; [apply formatted_inv; exact Hformat|].
  now injection H as <-.
Qed.

Lemma print_apps_inv (border : string)
    (descwrapper buildstackwrapper : ModuleQuery.TextWrapper)
    (st : ModuleQuery.LoopState)
    (items : list (ModuleQuery.JValue * ModuleQuery.AppDetails)) :
  forall tr tr',
    for_each (fun (_ : unit) item =>
                ModuleQuery.print_app wrap_layout py_format dict_items border
                  descwrapper buildstackwrapper st item) items tt tr
    = (Return tt, tr') ->
    exists blocks : list string,
      Forall2 (block_for py_format) (map fst items) blocks
      /\ (forall example exampleflavor,
             ModuleQuery.moduletitle st = Some example ->
             ModuleQuery.buildstack st = Some exampleflavor ->
             Forall (block_with_example py_format example exampleflavor) blocks)
      /\ tr' = (tr ++ map (fun b => EvPut Out (b ++ Py.nl)) blocks)%list.
Proof.
  induction items as [|[app_name details] items IH]; intros tr tr' H;
    cbn [for_each] in H.
  - injection H as <-. exists []. split; [constructor|].
    split; [constructor | now rewrite app_nil_r].
  - apply bind_returns in H as ([] & tr1 & Hitem & H).
    apply print_app_inv in Hitem
      as (dl & vl & ex & fl & lg & block & Hex & Hfl & _ & Hformat & Hw).
    destruct (IH tr1 tr' H) as (blocks & Hfor & Hexs & Hws).
    exists (block :: blocks). split; [|split].
    + cbn [map fst]. constructor; [|exact Hfor].
      now exists border, dl, vl, ex, fl, lg.
    + intros example exampleflavor He Hf.
      rewrite He in Hex. rewrite Hf in Hfl.
      injection Hex as <-. injection Hfl as <-.
      constructor; [|now apply Hexs].
      now exists border, app_name, dl, vl, lg.
    + rewrite Hws, Hw, <- app_assoc. reflexivity.
Qed.

Lemma written_out_blocks (blocks : list string) :
  written Out (map (fun b => EvPut Out (b ++ Py.nl)) blocks)
  = map (fun b => (b ++ Py.nl)%string) blocks.
Proof.
  rewrite <- (written_out_puts (map (fun b => (b ++ Py.nl)%string) blocks)).
  now rewrite map_map.
Qed.

Lemma consolidate_row_example (versionwrapper : ModuleQuery.TextWrapper)
    (textmargin : Z) (st st' : ModuleQuery.LoopState) (buildreport : Row)
    (tr tr' : Trace) :
  ModuleQuery.consolidate_row json_loads wrap_layout py_format env
    versionwrapper textmargin st buildreport tr = (Return st', tr') ->
  exists br name flavor,
    ModuleQuery.json_loads_column json_loads (Py.assoc "report_text" buildreport)
    = Return br
    /\ ModuleQuery.getitem br "name" = Return name
    /\ ModuleQuery.getitem br "build_stack" = Return flavor
    /\ ModuleQuery.moduletitle st' = Some name
    /\ ModuleQuery.buildstack st' = Some flavor.
Proof.
  unfold ModuleQuery.consolidate_row. intros H.
  apply bind_returns in H as (br & tr0 & Hload & H).
  apply load_report_inv in Hload. exists br.
  do 3 (apply bind_returns in H as (? & ? & _ & H); cbv zeta in H).
  apply bind_returns in H as (name & ? & Hname & H); cbv zeta in H.
  apply lift_returns in Hname as [Hname _].
  apply bind_returns in H as (flavor & ? & Hflavor & H); cbv zeta in H.
  apply lift_returns in Hflavor as [Hflavor _].
  exists name, flavor.
  repeat (apply bind_returns in H as (? & ? & _ & H); cbv zeta in H).
  injection H as <- _. now repeat split.
Qed.

(** X11.  Whenever the consolidated report is printed, the two example
    commands of every block name the build and the flavor of the last
    row, whichever application the block is about. *)
Theorem examples_name_the_last_row :
  forall (buildreports : list Row) (last : Row) (terminalsize : Z)
         (tr tr' : Trace),
    ModuleQuery.printConsolidatedReport json_loads wrap_layout py_format
      dict_items env (buildreports ++ [last])%list terminalsize tr
    = (Return tt, tr') ->
    exists br name flavor (blocks : list string),
      ModuleQuery.json_loads_column json_loads (Py.assoc "report_text" last)
      = Return br
      /\ ModuleQuery.getitem br "name" = Return name
      /\ ModuleQuery.getitem br "build_stack" = Return flavor
      /\ Forall (block_with_example py_format name flavor) blocks
      /\ written Out tr'
         = (written Out tr ++ map (fun b => (b ++ Py.nl)%string) blocks)%list.
Proof.
  intros buildreports last terminalsize tr tr'.
  unfold ModuleQuery.printConsolidatedReport. cbv zeta. intros H.
  apply bind_returns in H as (st & tr2 & Hrows & Happs).
  pose proof Hrows as Hquiet.
  rewrite for_each_app in Hrows.
  apply bind_returns in Hrows as (st1 & tr0 & _ & Hlast).
  cbn [for_each] in Hlast.
  apply bind_returns in Hlast as (st2 & tr3 & Hlast & Hret).
  injection Hret as -> ->.
  apply consolidate_row_example in Hlast
    as (br & name & flavor & Hload & Hname & Hflavor & Hex & Hfl).
  apply print_apps_inv in Happs as (blocks & _ & Hblocks & Hw).
  exists br, name, flavor, blocks.
  split; [exact Hload|]. split; [exact Hname|]. split; [exact Hflavor|].
  split; [exact (Hblocks _ _ Hex Hfl)|].
  rewrite Hw, written_app, written_out_blocks. f_equal.
  match type of Hquiet with
  | for_each ?body ?l ?s tr = _ =>
      pose proof (quiet_for_each body l
                    (fun st row => quiet_consolidate_row json_loads wrap_layout
                                     py_format env _ _ st row) s tr) as Hq
  end.
  now rewrite Hquiet in Hq.
Qed.

Hypothesis dict_items_permutation :
  forall (K V : Type) (items : list (K * V)),
    Permutation (dict_items K V items) items.

(** X12.  Whenever the consolidated report is printed, the whole of
    what it does is this: when the debug flag is on, one dump of the
    parsed document per row on standard output, all of them before the
    first block; then one block per distinct title among the rows on
    standard output, the blocks headed by the distinct titles, each
    once, in the order in which the dict of applications yields them.
    With the debug flag off the blocks are all there is. *)
Theorem one_block_per_distinct_title :
  forall (buildreports : list Row) (terminalsize : Z) (tr tr' : Trace),
    ModuleQuery.printConsolidatedReport json_loads wrap_layout py_format
      dict_items env buildreports terminalsize tr
    = (Return tt, tr') ->
    exists (titles order : list ModuleQuery.JValue) (blocks : list string),
      Forall2 (row_title json_loads) buildreports titles
      /\ Permutation order (distinct titles)
      /\ Forall2 (block_for py_format) order blocks
      /\ tr' = (tr ++ debug_dumps env (List.length buildreports)
                   ++ map (fun b => EvPut Out (b ++ Py.nl)) blocks)%list
      /\ (DEBUG env = false ->
          tr' = (tr ++ map (fun b => EvPut Out (b ++ Py.nl)) blocks)%list).
Proof.
  intros buildreports terminalsize tr tr'.
  unfold ModuleQuery.printConsolidatedReport. cbv zeta. intros H.
  apply bind_returns in H as (st & tr1 & Hrows & Happs).
  pose proof (consolidate_rows_trace _ _ _ _ _ _ _ Hrows) as ->.
  apply consolidate_rows_census in Hrows as (titles & Htitles & Hkeys & _).
  apply print_apps_inv in Happs as (blocks & Hfor & _ & ->).
  exists titles, (map fst (dict_items _ _ (ModuleQuery.apps st))), blocks.
  split; [exact Htitles|]. split; [|split; [exact Hfor|split]].
  - unfold distinct. cbn [ModuleQuery.apps ModuleQuery.empty_state map] in Hkeys.
    rewrite <- Hkeys. apply Permutation_map. apply dict_items_permutation.
  - now rewrite <- app_assoc.
  - intros Hd. unfold debug_dumps. now rewrite Hd, app_nil_r.
Qed.

End ConsolidatedCensus.

Lemma first_loop_groups_rows_by_title_witness :
  let rows := [Samples.row "gcc9"; Samples.row "r36"; Samples.row "gcc8"] in
  let versionwrapper :=
    {| ModuleQuery.replace_whitespace := true; ModuleQuery.width := 66;
       ModuleQuery.initial_indent := "      ";
       ModuleQuery.subsequent_indent := "      " |} in
  let run :=
    Runtime.for_each
      (ModuleQuery.consolidate_row Samples.json_loads Samples.wrap_layout
         Samples.py_format (Samples.sample_env Samples.first_try [])
         versionwrapper 6)
      rows ModuleQuery.empty_state [] in
  match fst run with
  | Runtime.Return st =>
      exists titles,
        Forall2 (Census.row_title Samples.json_loads) rows titles
        /\ map fst (ModuleQuery.apps st) = Census.distinct titles
        /\ Census.total_lines (ModuleQuery.apps st) = 3
  | Runtime.Raise _ => False
  end.
Proof.
  intros rows versionwrapper run.
  destruct run as [[st|e] tr'] eqn:E; cbn [fst].
  - exact (first_loop_groups_rows_by_title Samples.json_loads Samples.wrap_layout
             Samples.py_format (Samples.sample_env Samples.first_try [])
             versionwrapper 6 rows st [] tr' E).
  - vm_compute in E. discriminate E.
Defined.

Lemma examples_name_the_last_row_witness :
  let run :=
    ModuleQuery.printConsolidatedReport Samples.json_loads Samples.wrap_layout
      Samples.py_format Samples.dict_items
      (Samples.sample_env Samples.first_try [])
      ([Samples.row "gcc9"; Samples.row "gcc8"] ++ [Samples.row "r36"]) 80%Z [] in
  fst run = Runtime.Return tt
  /\ exists br name flavor (blocks : list string),
       ModuleQuery.json_loads_column Samples.json_loads
         (Py.assoc "report_text" (Samples.row "r36")) = Runtime.Return br
       /\ ModuleQuery.getitem br "name" = Runtime.Return name
       /\ ModuleQuery.getitem br "build_stack" = Runtime.Return flavor
       /\ Forall (Census.block_with_example Samples.py_format name flavor) blocks
       /\ Runtime.written Runtime.Out (snd run)
          = (Runtime.written Runtime.Out []
             ++ map (fun b => (b ++ Py.nl)%string) blocks)%list.
Proof.
  intros run. split; [vm_compute; reflexivity|].
  apply (examples_name_the_last_row Samples.json_loads Samples.wrap_layout
           Samples.py_format Samples.dict_items
           (Samples.sample_env Samples.first_try [])
           [Samples.row "gcc9"; Samples.row "gcc8"] (Samples.row "r36") 80%Z []
           (snd run)).
  vm_compute. reflexivity.
Defined.

Lemma one_block_per_distinct_title_witness :
  let rows := [Samples.row "gcc9"; Samples.row "r36"; Samples.row "gcc8"] in
  let env := Samples.sample_env Samples.first_try [] in
  let run :=
    ModuleQuery.printConsolidatedReport Samples.json_loads Samples.wrap_layout
      Samples.py_format Samples.dict_items env rows 80%Z [] in
  fst run = Runtime.Return tt
  /\ exists (titles order : list ModuleQuery.JValue) (blocks : list string),
       Forall2 (Census.row_title Samples.json_loads) rows titles
       /\ Permutation order (Census.distinct titles)
       /\ Forall2 (Census.block_for Samples.py_format) order blocks
       /\ snd run
          = ([] ++ Census.debug_dumps env (List.length rows)
                ++ map (fun b => Runtime.EvPut Runtime.Out (b ++ Py.nl)) blocks)%list
       /\ (Runtime.DEBUG env = false ->
           snd run
           = ([] ++ map (fun b => Runtime.EvPut Runtime.Out (b ++ Py.nl))
                      blocks)%list).
Proof.
  intros rows env run. split; [vm_compute; reflexivity|].
  apply (one_block_per_distinct_title Samples.json_loads Samples.wrap_layout
           Samples.py_format Samples.dict_items env
           (fun K V items => Permutation_refl items) rows 80%Z [] (snd run)).
  vm_compute. reflexivity.
Defined.

(** ** The list of flavors *)

Section FlavorList.
Import Runtime Census.

Lemma string_app_assoc (a b c : string) :
  ((a ++ b) ++ c)%string = (a ++ b ++ c)%string.
Proof. induction a as [|x a IH]; simpl; [reflexivity | now rewrite IH]. Qed.

Lemma isspace_not_comma (c : ascii) :
  Py.isspace c = true -> Ascii.eqb c ","%char = false.
Proof.
  destruct (Ascii.eqb_spec c ","%char) as [->|]; [discriminate | reflexivity].
Qed.

Lemma mem_char_app (c : ascii) (a b : string) :
  Py.mem_char c (a ++ b) = Py.mem_char c a || Py.mem_char c b.
Proof.
  induction a as [|x a IH]; cbn [append Py.mem_char]; [reflexivity|].
  now destruct (Ascii.eqb c x).
Qed.

Lemma mem_comma_cons (c : ascii) (s : string) :
  Py.mem_char ","%char (String c s) = false ->
  Ascii.eqb c ","%char = false /\ Py.mem_char ","%char s = false.
Proof.
  cbn [Py.mem_char]. rewrite Ascii.eqb_sym.
  destruct (Ascii.eqb c ","%char); intros H; [discriminate H | now split].
Qed.

Lemma ends_blank_snoc (a : string) (c : ascii) :
  ends_blank (a ++ String c EmptyString) = Py.isspace c.
Proof.
  induction a as [|x a IH]; [reflexivity|].
  cbn [append]. cbn [ends_blank].
  destruct (a ++ String c EmptyString)%string eqn:E; [|exact IH].
  destruct a; discriminate.
Qed.

Lemma ends_blank_app (a : string) (c : ascii) (s : string) :
  ends_blank (a ++ String c s) = ends_blank (String c s).
Proof.
  induction a as [|x a IH]; [reflexivity|].
  cbn [append]. transitivity (ends_blank (a ++ String c s)); [|exact IH].
  cbn [ends_blank]. destruct (a ++ String c s)%string eqn:E; [|reflexivity].
  destruct a; discriminate.
Qed.

Lemma ends_blank_cons (c : ascii) (s : string) :
  Py.isspace c = false ->
  ends_blank (String c s) = ends_blank s.
Proof. intros Hc. destruct s; [exact Hc | reflexivity]. Qed.

Lemma all_blank_snoc (p : string) (c : ascii) :
  all_blank p = true -> Py.isspace c = true ->
  all_blank (p ++ String c EmptyString) = true.
Proof.
  intros Hp Hc. induction p as [|x p IH]; simpl in *; [now rewrite Hc|].
  apply andb_true_iff in Hp as [Hx Hp]. now rewrite Hx, IH.
Qed.

Lemma all_blank_ends (p : string) :
  all_blank p = true -> ends_blank p = false -> p = EmptyString.
Proof.
  induction p as [|x p IH]; [reflexivity|].
  cbn [all_blank]. intros H. apply andb_true_iff in H as [Hx Hp].
  destruct p as [|y p]; [cbn; congruence|].
  intros He. change (ends_blank (String y p) = false) in He.
  discriminate (IH Hp He).
Qed.

Lemma re_split_go_length (s : string) :
  forall cur pend skipping,
    List.length (re_split_go s cur pend skipping) = commas s + 1.
Proof.
  induction s as [|c s IH]; intros cur pend skipping; simpl; [reflexivity|].
  destruct (Ascii.eqb c ","%char); simpl; [now rewrite IH|].
  destruct (Py.isspace c); [destruct skipping|]; apply IH.
Qed.

Lemma re_split_go_no_comma (s : string) :
  forall cur pend skipping,
    Py.mem_char ","%char cur = false ->
    Py.mem_char ","%char pend = false ->
    Forall (fun piece => Py.mem_char ","%char piece = false)
      (re_split_go s cur pend skipping).
Proof.
  induction s as [|c s IH]; intros cur pend skipping Hcur Hpend; simpl.
  - constructor; [|constructor]. now rewrite mem_char_app, Hcur, Hpend.
  - destruct (Ascii.eqb c ","%char) eqn:Hc.
    + constructor; [exact Hcur | now apply IH].
    + assert (Py.mem_char ","%char (String c EmptyString) = false) as Hone
          by (cbn [Py.mem_char]; now rewrite Ascii.eqb_sym, Hc).
      destruct (Py.isspace c); [destruct skipping|]; apply IH;
        rewrite ?mem_char_app, ?Hcur, ?Hpend, ?Hone; reflexivity.
Qed.

(** After a comma, and from then on, no piece begins with a blank. *)
Lemma re_split_go_no_leading_blank (s : string) :
  forall cur pend skipping,
    (skipping = true /\ cur = EmptyString /\ pend = EmptyString)
    \/ (skipping = false /\ cur <> EmptyString /\ starts_blank cur = false) ->
    Forall (fun piece => starts_blank piece = false)
      (re_split_go s cur pend skipping).
Proof.
  assert (forall cur rest, cur <> EmptyString -> starts_blank cur = false ->
                           starts_blank (cur ++ rest) = false) as Hkeep
      by (intros [|x cur] rest Hne Hs; [contradiction | exact Hs]).
  assert (forall cur rest, cur <> EmptyString -> (cur ++ rest)%string <> EmptyString)
    as Hne' by (intros [|x cur] rest Hne; [contradiction | discriminate]).
  induction s as [|c s IH]; intros cur pend skipping Hinv; simpl.
  - constructor; [|constructor].
    destruct Hinv as [(_ & -> & ->) | (_ & Hne & Hs)]; [reflexivity|].
    now apply Hkeep.
  - destruct (Ascii.eqb c ","%char).
    + constructor.
      * destruct Hinv as [(_ & -> & _) | (_ & _ & Hs)]; [reflexivity | exact Hs].
      * apply IH. now left.
    + destruct (Py.isspace c) eqn:Hc.
      * destruct Hinv as [(-> & -> & ->) | (-> & Hne & Hs)]; apply IH;
          [now left | now right].
      * apply IH. right. split; [reflexivity|].
        destruct Hinv as [(_ & -> & ->) | (_ & Hne & Hs)].
        -- split; [discriminate | exact Hc].
        -- split; [now apply Hne' | now apply Hkeep].
Qed.

Lemma re_split_go_first (s : string) :
  forall cur pend,
    exists first rest,
      re_split_go s cur pend false = first :: rest
      /\ Forall (fun piece => starts_blank piece = false) rest.
Proof.
  induction s as [|c s IH]; intros cur pend; simpl.
  - exists (cur ++ pend)%string, []. now split.
  - destruct (Ascii.eqb c ","%char).
    + exists cur, (re_split_go s EmptyString EmptyString true).
      split; [reflexivity|]. apply re_split_go_no_leading_blank. now left.
    + destruct (Py.isspace c); apply IH.
Qed.

(** Before a comma no piece ends with a blank. *)
Lemma re_split_go_last (s : string) :
  forall cur pend skipping,
    ends_blank cur = false ->
    exists front last,
      re_split_go s cur pend skipping = (front ++ [last])%list
      /\ Forall (fun piece => ends_blank piece = false) front.
Proof.
  induction s as [|c s IH]; intros cur pend skipping Hcur; simpl.
  - exists [], (cur ++ pend)%string. now split.
  - destruct (Ascii.eqb c ","%char).
    + destruct (IH EmptyString EmptyString true eq_refl)
        as (front & last & -> & Hfront).
      exists (cur :: front), last. split; [reflexivity | now constructor].
    + destruct (Py.isspace c) eqn:Hc; [destruct skipping|]; try now apply IH.
      apply IH. rewrite <- string_app_assoc, ends_blank_snoc. exact Hc.
Qed.

(** X13.  [re.split(r'\s*,\s*', s)] on the [--flavors] option: the
    number of names is the number of commas plus one; no name holds a
    comma; every name but the first begins with no blank and every name
    but the last ends with none (the blanks that open or close the
    whole option stay in the first and the last name). *)
Theorem flavor_names_are_trimmed_pieces :
  forall s : string,
    let names := re_split_commas s in
    List.length names = commas s + 1
    /\ Forall (fun name => Py.mem_char ","%char name = false) names
    /\ (exists first rest,
           names = first :: rest
           /\ Forall (fun name => starts_blank name = false) rest)
    /\ (exists front last,
           names = (front ++ [last])%list
           /\ Forall (fun name => ends_blank name = false) front).
Proof.
  intros s names. subst names. unfold re_split_commas.
  split; [apply re_split_go_length|].
  split; [now apply re_split_go_no_comma|].
  split; [apply re_split_go_first | now apply re_split_go_last].
Qed.

(** The characters of a name, once the name has begun. *)
Lemma re_split_go_body (rest : string) (s : string) :
  forall cur pend,
    Py.mem_char ","%char s = false ->
    all_blank pend = true ->
    ends_blank (pend ++ s) = false ->
    re_split_go (s ++ rest) cur pend false
    = re_split_go rest (cur ++ pend ++ s) EmptyString false.
Proof.
  induction s as [|c s IH]; intros cur pend Hcomma Hpend Hend.
  - rewrite append_empty_r in Hend.
    rewrite (all_blank_ends pend Hpend Hend). simpl.
    now rewrite append_empty_r.
  - apply mem_comma_cons in Hcomma as [Hc Hcomma].
    cbn [append re_split_go]. rewrite Hc.
    destruct (Py.isspace c) eqn:Hs.
    + rewrite (IH cur (pend ++ String c EmptyString)%string Hcomma).
      * now rewrite !string_app_assoc.
      * now apply all_blank_snoc.
      * now rewrite string_app_assoc.
    + rewrite (IH (cur ++ pend ++ String c EmptyString)%string EmptyString
                 Hcomma eq_refl).
      * now rewrite !string_app_assoc.
      * rewrite ends_blank_app, (ends_blank_cons c s Hs) in Hend. exact Hend.
Qed.

Lemma re_split_go_separator (l rest : string) :
  forall cur pend skipping,
    all_blank l = true ->
    re_split_go (l ++ "," ++ rest) cur pend skipping
    = cur :: re_split_go rest EmptyString EmptyString true.
Proof.
  induction l as [|c l IH]; intros cur pend skipping Hl; [reflexivity|].
  cbn [all_blank] in Hl. apply andb_true_iff in Hl as [Hc Hl].
  cbn [append re_split_go]. rewrite (isspace_not_comma c Hc), Hc.
  destruct skipping; now apply IH.
Qed.

Lemma re_split_go_skip (r rest : string) :
  all_blank r = true ->
  re_split_go (r ++ rest) EmptyString EmptyString true
  = re_split_go rest EmptyString EmptyString true.
Proof.
  induction r as [|c r IH]; intros Hr; [reflexivity|].
  cbn [all_blank] in Hr. apply andb_true_iff in Hr as [Hc Hr].
  cbn [append re_split_go]. rewrite (isspace_not_comma c Hc), Hc.
  now apply IH.
Qed.

Lemma plain_name_inv (name : string) :
  plain_name name = true ->
  Py.mem_char ","%char name = false
  /\ starts_blank name = false
  /\ ends_blank name = false.
Proof.
  unfold plain_name. intros H.
  apply andb_true_iff in H as [H He]. apply andb_true_iff in H as [Hc Hs].
  apply negb_true_iff in Hc, Hs, He. now repeat split.
Qed.

Lemma re_split_go_name (name rest : string) (skipping : bool) :
  plain_name name = true ->
  name <> EmptyString ->
  re_split_go (name ++ rest) EmptyString EmptyString skipping
  = re_split_go rest name EmptyString false.
Proof.
  intros Hplain Hne. apply plain_name_inv in Hplain as (Hcomma & Hstart & Hend).
  destruct name as [|c name]; [contradiction|].
  apply mem_comma_cons in Hcomma as [Hc Hcomma].
  cbn [starts_blank] in Hstart.
  cbn [append re_split_go]. rewrite Hc, Hstart.
  rewrite (re_split_go_body rest name _ EmptyString Hcomma eq_refl).
  - reflexivity.
  - cbn [append]. rewrite <- (ends_blank_cons c name Hstart). exact Hend.
Qed.

Lemma re_split_go_names (sep_left sep_right : string) (names : list string) :
  all_blank sep_left = true ->
  all_blank sep_right = true ->
  names <> [] ->
  Forall (fun name => plain_name name = true) names ->
  forall skipping,
    re_split_go (Py.join (sep_left ++ "," ++ sep_right) names)
      EmptyString EmptyString skipping
    = names.
Proof.
  intros Hl Hr Hne Hplain.
  induction Hplain as [|name rest Hname Hrest IH]; [contradiction|].
  intros skipping. destruct rest as [|next rest].
  - cbn [Py.join String.concat].
    destruct (string_dec name EmptyString) as [->|Hname'];
      [now destruct skipping|].
    rewrite <- (append_empty_r name) at 1.
    rewrite (re_split_go_name name EmptyString skipping Hname Hname').
    simpl. now rewrite append_empty_r.
  - change (Py.join (sep_left ++ "," ++ sep_right) (name :: next :: rest))
      with (name ++ (sep_left ++ "," ++ sep_right)
                 ++ Py.join (sep_left ++ "," ++ sep_right) (next :: rest))%string.
    rewrite !string_app_assoc.
    assert (re_split_go
              (name ++ sep_left ++ "," ++ sep_right
                    ++ Py.join (sep_left ++ "," ++ sep_right) (next :: rest))
              EmptyString EmptyString skipping
            = name :: re_split_go
                        (sep_right
                           ++ Py.join (sep_left ++ "," ++ sep_right) (next :: rest))
                        EmptyString EmptyString true) as ->.
    { destruct (string_dec name EmptyString) as [->|Hname'].
      - cbn [append]. now apply re_split_go_separator.
      - rewrite (re_split_go_name name _ skipping Hname Hname').
        now apply re_split_go_separator. }
    rewrite (re_split_go_skip _ _ Hr).
    f_equal. apply IH. discriminate.
Qed.

(** X14.  Splitting undoes joining: names that hold no comma and
    neither begin nor end with a blank, joined by a comma with any
    blanks around it, are the names [re.split] gives back.  So the
    flavors the no-match message lists, joined by a comma and a space,
    can be passed to [--flavors] again as they are. *)
Theorem split_undoes_join :
  forall (sep_left sep_right : string) (names : list string),
    all_blank sep_left = true ->
    all_blank sep_right = true ->
    names <> [] ->
    Forall (fun name => plain_name name = true) names ->
    re_split_commas (Py.join (sep_left ++ "," ++ sep_right) names) = names.
Proof.
  intros sep_left sep_right names Hl Hr Hne Hplain.
  now apply re_split_go_names.
Qed.

End FlavorList.

Lemma split_undoes_join_witness :
  Runtime.re_split_commas
    (Py.join (EmptyString ++ "," ++ " ")
       ["HeLmod CentOS 7"; "Easy Build"; "Java"])
  = ["HeLmod CentOS 7"; "Easy Build"; "Java"].
Proof.
  apply (split_undoes_join EmptyString " "
           ["HeLmod CentOS 7"; "Easy Build"; "Java"]).
  - reflexivity.
  - reflexivity.
  - discriminate.
  - repeat constructor.
Defined.

(** ** The query text as a whole *)

Section QueryMarkers.
Import Runtime Reading.

Lemma count_marker_placeholders (n : nat) (tail : string) :
  Py.count_go "%s" (placeholders n ++ String ")"%char tail) 0
  = n + Py.count_go "%s" tail 0.
Proof.
  destruct n as [|n]; [reflexivity|].
  induction n as [|n IH]; [reflexivity|].
  rewrite placeholders_step.
  change (S (Py.count_go "%s" (placeholders (S n) ++ String ")"%char tail) 0)
          = S (S n) + Py.count_go "%s" tail 0).
  now rewrite IH.
Qed.

Lemma count_percent_placeholders (n : nat) (tail : string) :
  Py.count_go "%" (placeholders n ++ String ")"%char tail) 0
  = n + Py.count_go "%" tail 0.
Proof.
  destruct n as [|n]; [reflexivity|].
  induction n as [|n IH]; [reflexivity|].
  rewrite placeholders_step.
  change (S (Py.count_go "%" (placeholders (S n) ++ String ")"%char tail) 0)
          = S (S n) + Py.count_go "%" tail 0).
  now rewrite IH.
Qed.

Lemma module_query_sql_markers (n : nat) (fulltext : bool) :
  Py.count "%s" (module_query_sql n fulltext) = n + 1
  /\ Py.count "%" (module_query_sql n fulltext) = n + 1.
Proof.
  unfold module_query_sql, Py.count. destruct fulltext.
  - split.
    + change (S (Py.count_go "%s"
                   (placeholders n ++ String ")"%char "            order by                app_name, br.build_order        ") 0)
              = n + 1).
      rewrite count_marker_placeholders. simpl. lia.
    + change (S (Py.count_go "%"
                   (placeholders n ++ String ")"%char "            order by                app_name, br.build_order        ") 0)
              = n + 1).
      rewrite count_percent_placeholders. simpl. lia.
  - split.
    + change (S (Py.count_go "%s"
                   (placeholders n ++ String ")"%char "        order by            app_name, br.build_order    ") 0)
              = n + 1).
      rewrite count_marker_placeholders. simpl. lia.
    + change (S (Py.count_go "%"
                   (placeholders n ++ String ")"%char "        order by            app_name, br.build_order    ") 0)
              = n + 1).
      rewrite count_percent_placeholders. simpl. lia.
Qed.

Lemma check_activation_sql_markers (n : nat) :
  Py.count "%s" (check_activation_sql n) = n + 1
  /\ Py.count "%" (check_activation_sql n) = n + 1.
Proof.
  unfold check_activation_sql, Py.count. split.
  - change (S (Py.count_go "%s" (placeholders n ++ String ")"%char "    ") 0)
            = n + 1).
    rewrite count_marker_placeholders. simpl. lia.
  - change (S (Py.count_go "%" (placeholders n ++ String ")"%char "    ") 0)
            = n + 1).
    rewrite count_percent_placeholders. simpl. lia.
Qed.

(** X15.  In the query text either fetch function builds, for any
    search string and any list of flavors, the empty list included,
    the [%s] markers are as many as the parameters bound, and every
    percent sign of the text belongs to a marker: the driver's
    substitution of the parameters into the text finds one parameter
    per marker and no other conversion. *)
Theorem markers_match_parameters :
  forall (search : string) (build_stack_names : list string) (fulltext : bool),
    (exists sql params,
        ModuleQuery.build_query search build_stack_names fulltext
        = Return (sql, params)
        /\ Py.count "%s" sql = List.length params
        /\ Py.count "%" sql = List.length params)
    /\ (exists sql params,
           CheckActivation.build_query search build_stack_names
           = Return (sql, params)
           /\ Py.count "%s" sql = List.length params
           /\ Py.count "%" sql = List.length params).
Proof.
  intros search build_stack_names fulltext. split.
  - eexists _, _. split; [apply module_query_build_query|].
    destruct (module_query_sql_markers (List.length build_stack_names) fulltext)
      as [Hs Hp].
    rewrite Hs, Hp. simpl. lia.
  - eexists _, _. split; [apply check_activation_build_query|].
    destruct (check_activation_sql_markers (List.length build_stack_names))
      as [Hs Hp].
    rewrite Hs, Hp. simpl. lia.
Qed.

End QueryMarkers.

(** ** The version setup.py reads *)

Section Version.

Lemma version_run_spec (s : string) :
  s = (fst (Setup.version_run s) ++ snd (Setup.version_run s))%string
  /\ Setup.all_version (fst (Setup.version_run s)) = true.
Proof.
  induction s as [|c s [IH1 IH2]]; [now split|].
  cbn [Setup.version_run].
  destruct (Setup.version_char c) eqn:E; [|now split].
  destruct (Setup.version_run s) as [run rest]. cbn [fst snd] in *.
  split; [cbn [append]; f_equal; exact IH1|].
  cbn [Setup.all_version]. now rewrite E, IH2.
Qed.

Lemma match_here_version (s group : string) :
  Setup.match_here s = Some group ->
  group <> EmptyString /\ Setup.all_version group = true.
Proof.
  unfold Setup.match_here.
  destruct (Py.strip_prefix _ s) as [rest|]; [|discriminate].
  pose proof (version_run_spec rest) as [_ Hall].
  destruct (Setup.version_run rest) as [[|c run] tail]; [discriminate|].
  destruct tail as [|q tail]; [discriminate|].
  destruct (Ascii.eqb_spec q "'"%char) as [->|Hq].
  - intros [= <-]. split; [discriminate | exact Hall].
  - intros H. exfalso. revert H.
    destruct q as [[] [] [] [] [] [] [] []]; try discriminate.
    now destruct Hq.
Qed.

Lemma search_version (contents group : string) :
  Setup.search contents = Some group ->
  group <> EmptyString /\ Setup.all_version group = true.
Proof.
  induction contents as [|c contents IH]; cbn [Setup.search].
  - destruct (Setup.match_here EmptyString) eqn:E; [|discriminate].
    intros [= <-]. exact (match_here_version _ _ E).
  - destruct (Setup.match_here (String c contents)) eqn:E; [|exact IH].
    intros [= <-]. exact (match_here_version _ _ E).
Qed.

(** X16.  Whatever [p3/apps/__init__.py] holds, the version
    [getVersion] returns is a non-empty text of digits and dots: the
    group of the first match, or [0.0.0]. *)
Theorem version_is_digits_and_dots :
  forall file_contents : string,
    Setup.getVersion file_contents <> EmptyString
    /\ Setup.all_version (Setup.getVersion file_contents) = true.
Proof.
  intros file_contents. unfold Setup.getVersion. cbv zeta.
  destruct (Setup.search _) as [group|] eqn:E.
  - exact (search_version _ _ E).
  - split; [discriminate | reflexivity].
Qed.

Lemma lstrip_app (before rest : string) (c : ascii) :
  Py.mem_char "_"%char before = false ->
  Py.isspace c = false ->
  exists before',
    Setup.lstrip_bytes (before ++ String c rest)
    = (before' ++ String c rest)%string
    /\ Py.mem_char "_"%char before' = false.
Proof.
  intros Hb Hc. induction before as [|x before IH].
  - exists EmptyString. cbn [append Setup.lstrip_bytes]. now rewrite Hc.
  - cbn [Py.mem_char] in Hb.
    destruct (Ascii.eqb "_"%char x) eqn:Hx; [discriminate|].
    cbn [append Setup.lstrip_bytes]. destruct (Py.isspace x).
    + exact (IH Hb).
    + exists (String x before). split; [reflexivity|].
      cbn [Py.mem_char]. now rewrite Hx.
Qed.

Lemma rstrip_cons (c : ascii) (s : string) :
  Py.isspace c = false ->
  Setup.rstrip_bytes (String c s) = String c (Setup.rstrip_bytes s).
Proof.
  intros Hc. cbn [Setup.rstrip_bytes].
  destruct (Setup.rstrip_bytes s); [now rewrite Hc | reflexivity].
Qed.

Lemma rstrip_app (a : string) (c : ascii) (s : string) :
  Py.isspace c = false ->
  Setup.rstrip_bytes (a ++ String c s)
  = (a ++ String c (Setup.rstrip_bytes s))%string.
Proof.
  intros Hc. induction a as [|x a IH]; cbn [append].
  - now apply rstrip_cons.
  - cbn [Setup.rstrip_bytes]. rewrite IH.
    destruct (a ++ String c (Setup.rstrip_bytes s))%string eqn:E; [|reflexivity].
    destruct a; discriminate.
Qed.

Lemma version_run_app (v : string) (c : ascii) (rest : string) :
  Setup.all_version v = true ->
  Setup.version_char c = false ->
  Setup.version_run (v ++ String c rest) = (v, String c rest).
Proof.
  intros Hv Hc. induction v as [|x v IH]; cbn [append Setup.version_run].
  - now rewrite Hc.
  - cbn [Setup.all_version] in Hv. apply andb_true_iff in Hv as [Hx Hv].
    now rewrite Hx, (IH Hv).
Qed.

Lemma search_skips (before rest : string) :
  Py.mem_char "_"%char before = false ->
  Setup.search (before ++ rest) = Setup.search rest.
Proof.
  induction before as [|x before IH]; intros Hb; [reflexivity|].
  cbn [Py.mem_char] in Hb.
  destruct (Ascii.eqb "_"%char x) eqn:Hx; [discriminate|].
  cbn [append Setup.search].
  assert (Setup.match_here (String x (before ++ rest)) = None) as ->.
  { unfold Setup.match_here. cbn [Py.strip_prefix]. now rewrite Hx. }
  exact (IH Hb).
Qed.

(** X17.  [getVersion] reads the version back from the assignment: when
    the file holds [__version__ = 'v'], with [v] a non-empty text of
    digits and dots, after text without underscore, the result is [v],
    whatever follows the assignment. *)
Theorem version_assignment_is_read :
  forall (before v after : string),
    Py.mem_char "_"%char before = false ->
    v <> EmptyString ->
    Setup.all_version v = true ->
    Setup.getVersion (before ++ "__version__ = '" ++ v ++ "'" ++ after) = v.
Proof.
  intros before v after Hb Hne Hv. unfold Setup.getVersion. cbv zeta.
  change (before ++ "__version__ = '" ++ v ++ "'" ++ after)%string
    with (before ++ String "_"%char ("_version__ = '" ++ v ++ "'" ++ after))%string.
  destruct (lstrip_app before ("_version__ = '" ++ v ++ "'" ++ after) "_"%char
              Hb eq_refl) as (before' & -> & Hb').
  change (before' ++ String "_"%char ("_version__ = '" ++ v ++ "'" ++ after))%string
    with (before' ++ "__version__ = '" ++ v ++ String "'"%char after)%string.
  replace (before' ++ "__version__ = '" ++ v ++ String "'"%char after)%string
    with ((before' ++ "__version__ = '" ++ v) ++ String "'"%char after)%string.
  2:{ rewrite !string_app_assoc. reflexivity. }
  rewrite rstrip_app by reflexivity.
  rewrite !string_app_assoc, (search_skips before' _ Hb').
  assert (Setup.match_here
            ("__version__ = '" ++ v ++ String "'"%char (Setup.rstrip_bytes after))
          = Some v) as Hmatch.
  { unfold Setup.match_here.
    change (Py.strip_prefix "__version__ = '"
              ("__version__ = '" ++ v ++ String "'"%char (Setup.rstrip_bytes after)))
      with (Some (v ++ String "'"%char (Setup.rstrip_bytes after))%string).
    cbv beta iota. rewrite (version_run_app v "'"%char _ Hv eq_refl).
    destruct v; [contradiction | reflexivity]. }
  destruct ("__version__ = '" ++ v ++ String "'"%char (Setup.rstrip_bytes after))%string
    eqn:E; cbn [Setup.search]; now rewrite Hmatch.
Qed.

End Version.

Lemma version_assignment_is_read_witness :
  Setup.getVersion ("# module-query" ++ Py.nl ++ "__version__ = '" ++ "0.1.2"
                    ++ "'" ++ Py.nl)
  = "0.1.2".
Proof.
  apply (version_assignment_is_read ("# module-query" ++ Py.nl) "0.1.2" Py.nl).
  - reflexivity.
  - discriminate.
  - reflexivity.
Defined.

(** ** What a whole run costs *)

Section Footprint.
Import Runtime Reading Census.

Lemma commands_app (a b : Trace) :
  commands (a ++ b)%list = (commands a ++ commands b)%list.
Proof. apply flat_map_app. Qed.

Lemma output_only_nil : output_only [].
Proof. reflexivity. Qed.

Lemma output_only_app (a b : Trace) :
  output_only a -> output_only b -> output_only (a ++ b)%list.
Proof. unfold output_only. intros Ha Hb. now rewrite forallb_app, Ha, Hb. Qed.

Lemma verifier_only_nil : verifier_only [].
Proof. reflexivity. Qed.

Lemma verifier_only_app (a b : Trace) :
  verifier_only a -> verifier_only b -> verifier_only (a ++ b)%list.
Proof. unfold verifier_only. intros Ha Hb. now rewrite forallb_app, Ha, Hb. Qed.

Lemma output_only_verifier (evs : Trace) : output_only evs -> verifier_only evs.
Proof.
  unfold output_only, verifier_only. induction evs as [|e evs IH]; [reflexivity|].
  cbn [forallb]. intros H. apply andb_true_iff in H as [He Hevs].
  rewrite (IH Hevs), andb_true_r. now destruct e.
Qed.

(** Writing costs no connection, no wait, no query and no command. *)
Lemma output_only_free (evs : Trace) :
  output_only evs ->
  connects evs = 0 /\ slept evs = 0%Z /\ executed evs = [] /\ commands evs = [].
Proof.
  unfold output_only. induction evs as [|e evs IH]; [now repeat split|].
  cbn [forallb]. intros H. apply andb_true_iff in H as [He Hevs].
  destruct (IH Hevs) as (Hc & Hs & Hx & Hm).
  destruct e; try discriminate; now repeat split.
Qed.

Lemma verifier_only_free (evs : Trace) :
  verifier_only evs ->
  connects evs = 0 /\ slept evs = 0%Z /\ executed evs = []
  /\ forallb purges_first (commands evs) = true.
Proof.
  unfold verifier_only. induction evs as [|e evs IH]; [now repeat split|].
  cbn [forallb]. intros H. apply andb_true_iff in H as [He Hevs].
  destruct (IH Hevs) as (Hc & Hs & Hx & Hm).
  destruct e; try discriminate; repeat split; try assumption.
  cbn [commands flat_map app forallb]. cbn [is_verifier_event] in He.
  change (forallb purges_first (commands evs)) with
    (forallb purges_first (flat_map (fun e => match e with
                                              | EvSystem c => [c]
                                              | _ => []
                                              end) evs)) in Hm.
  now rewrite He, Hm.
Qed.

Lemma output_only_verbose (args : ModuleQuery.Args) :
  output_only (verbose_events args).
Proof. unfold verbose_events. now destruct (ModuleQuery.verbose_on args). Qed.

Lemma output_only_failure (env : Env) (user_msg : option string) :
  output_only (failure_events env user_msg).
Proof. unfold failure_events. now destruct user_msg, (DEBUG env). Qed.

Lemma output_only_debug_call (env : Env) (line : string) :
  output_only (debug_call env line).
Proof. unfold debug_call. now destruct (DEBUG env). Qed.

Lemma output_only_debug_params (env : Env) : output_only (debug_params env).
Proof. unfold debug_params. now destruct (DEBUG env). Qed.

Variable env : Env.

(** The connection loop: at most [budget] attempts, 2 seconds of wait
    for each at most, no query and no command. *)
Lemma connect_loop_footprint (budget : nat) :
  forall connection attempts tr,
    exists evs,
      snd (connect_loop env budget connection attempts tr) = (tr ++ evs)%list
      /\ connects evs <= budget
      /\ (0 <= slept evs <= 2 * Z.of_nat budget)%Z
      /\ executed evs = []
      /\ commands evs = [].
Proof.
  induction budget as [|budget IH]; intros connection attempts tr.
  - exists []. cbn [connect_loop ret snd]. rewrite app_nil_r.
    repeat split; unfold connects; simpl; lia.
  - cbn [connect_loop].
    destruct (loop_condition connection attempts).
    2:{ exists []. cbn [ret snd]. rewrite app_nil_r.
        repeat split; unfold connects; simpl; lia. }
    unfold bind, attempt, mysql_connect.
    destruct (db_connect env (connects tr)) as [c|[|kind um]].
    + destruct (IH (Some c) attempts (tr ++ [EvConnect])%list)
        as (evs & Hrun & Hc & Hs & Hx & Hm).
      exists ([EvConnect] ++ evs)%list. rewrite Hrun, <- app_assoc.
      split; [reflexivity|].
      rewrite connects_app, slept_app, executed_app, commands_app, Hx, Hm.
      cbn [connects filter is_connect List.length slept executed commands
           flat_map app].
      repeat split; lia.
    + exists [EvConnect]. cbn [raise snd].
      repeat split; unfold connects; simpl; lia.
    + unfold when, time_sleep, emit, ret.
      destruct (DEBUG env).
      * destruct (IH None (S attempts)
                    (((tr ++ [EvConnect]) ++ [EvDiagnostic Err "Connection error "])
                       ++ [EvSleep CONNECTION_WAIT])%list)
          as (evs & Hrun & Hc & Hs & Hx & Hm).
        exists ([EvConnect; EvDiagnostic Err "Connection error ";
                 EvSleep CONNECTION_WAIT] ++ evs)%list.
        rewrite Hrun, <- !app_assoc. split; [reflexivity|].
        rewrite connects_app, slept_app, executed_app, commands_app, Hx, Hm.
        unfold CONNECTION_WAIT.
        cbn [connects filter is_connect List.length slept executed commands
             flat_map app].
        repeat split; lia.
      * destruct (IH None (S attempts)
                    ((tr ++ [EvConnect]) ++ [EvSleep CONNECTION_WAIT])%list)
          as (evs & Hrun & Hc & Hs & Hx & Hm).
        exists ([EvConnect; EvSleep CONNECTION_WAIT] ++ evs)%list.
        rewrite Hrun, <- !app_assoc. split; [reflexivity|].
        rewrite connects_app, slept_app, executed_app, commands_app, Hx, Hm.
        unfold CONNECTION_WAIT.
        cbn [connects filter is_connect List.length slept executed commands
             flat_map app].
        repeat split; lia.
Qed.

Lemma connect_with_retry_footprint (tr : Trace) :
  exists evs,
    snd (connect_with_retry env tr) = (tr ++ evs)%list
    /\ connects evs <= 3
    /\ (0 <= slept evs <= 6)%Z
    /\ executed evs = []
    /\ commands evs = [].
Proof.
  destruct (connect_loop_footprint MAX_ATTEMPTS None 0 tr)
    as (evs & Hrun & Hc & Hs & Hx & Hm).
  exists evs. unfold connect_with_retry, bind.
  destruct (connect_loop env MAX_ATTEMPTS None 0 tr) as [[[conn n]|e] tr1];
    cbn [fst snd] in *.
  - unfold MAX_ATTEMPTS in *.
    destruct conn; cbn [ret lift raise snd]; unfold lift, formatted;
      [now repeat split|].
    rewrite host_formatted. now repeat split.
  - unfold MAX_ATTEMPTS in *. now repeat split.
Qed.

(** A fetch: the connection loop and one query at most, which is
    there whenever rows come back. *)
Lemma fetch_footprint (run : Outcome (list Row) * Trace) (tr : Trace)
    (line sql : string) (params : list string) :
  run = match connect_with_retry env (tr ++ debug_call env line)%list with
        | (Return c, tr1) =>
            (db_fetch env c sql params,
             (tr1 ++ debug_params env ++ [EvExecute c sql params])%list)
        | (Raise e, tr1) => (Raise e, tr1)
        end ->
  exists evs,
    snd run = (tr ++ evs)%list
    /\ connects evs <= 3
    /\ (0 <= slept evs <= 6)%Z
    /\ List.length (executed evs) <= 1
    /\ commands evs = []
    /\ (forall rows, fst run = Return rows -> List.length (executed evs) = 1).
Proof.
  intros ->.
  destruct (connect_with_retry_footprint (tr ++ debug_call env line)%list)
    as (evs & Hrun & Hc & Hs & Hx & Hm).
  destruct (output_only_free _ (output_only_debug_call env line))
    as (Hc1 & Hs1 & Hx1 & Hm1).
  destruct (output_only_free _ (output_only_debug_params env))
    as (Hc2 & Hs2 & Hx2 & Hm2).
  destruct (connect_with_retry env (tr ++ debug_call env line)%list)
    as [[c|e] tr1]; cbn [fst snd] in *; subst tr1.
  - exists (debug_call env line ++ evs ++ debug_params env
              ++ [EvExecute c sql params])%list.
    rewrite <- !app_assoc. split; [reflexivity|].
    rewrite !connects_app, !slept_app, !executed_app, !commands_app,
      Hc1, Hs1, Hx1, Hm1, Hc2, Hs2, Hx2, Hm2, Hx, Hm.
    cbn [connects filter is_connect List.length slept executed commands
         flat_map app].
    repeat split; try lia.
  - exists (debug_call env line ++ evs)%list.
    rewrite <- !app_assoc. split; [reflexivity|].
    rewrite !connects_app, !slept_app, !executed_app, !commands_app,
      Hc1, Hs1, Hx1, Hm1, Hx, Hm.
    cbn [List.length app].
    repeat split; try lia. intros rows H. discriminate H.
Qed.

End Footprint.

Ltac writes_step :=
  first
    [ apply (adds_ret Census.output_only output_only_nil)
    | apply (adds_raise Census.output_only output_only_nil)
    | apply (adds_lift Census.output_only output_only_nil)
    | apply (adds_emit Census.output_only); reflexivity
    | apply (adds_when Census.output_only output_only_nil)
    | apply (adds_with_user_msg Census.output_only output_only_nil output_only_app)
    | apply (adds_bind Census.output_only output_only_app); [|intros ?]
    | match goal with
      | |- Census.adds _ (if ?b then _ else _) => destruct b
      | |- Census.adds _ (match ?x with _ => _ end) => destruct x
      | |- Census.adds _ (let _ := _ in _) => cbv zeta
      end ].

Section RunFootprint.
Import Runtime Reading Census.

Variable json_loads : string -> option ModuleQuery.JValue.
Variable wrap_layout : ModuleQuery.TextWrapper -> string -> string.
Variable py_format : ModuleQuery.JValue -> Py.Arg.
Variable dict_items : forall K V : Type, list (K * V) -> list (K * V).
Variable env : Env.

Lemma detail_report_writes (buildreport : Row) (terminalsize : Z) :
  adds output_only
    (ModuleQuery.printDetailReport json_loads wrap_layout py_format dict_items
       env buildreport terminalsize).
Proof.
  unfold ModuleQuery.printDetailReport, ModuleQuery.load_report,
    ModuleQuery.has_comments, print. cbv zeta.
  repeat writes_step.
Qed.

Lemma consolidated_report_writes (buildreports : list Row) (terminalsize : Z) :
  adds output_only
    (ModuleQuery.printConsolidatedReport json_loads wrap_layout py_format
       dict_items env buildreports terminalsize).
Proof.
  unfold ModuleQuery.printConsolidatedReport. cbv zeta.
  apply (adds_bind output_only output_only_app).
  - apply (adds_for_each output_only output_only_nil output_only_app).
    intros st row.
    unfold ModuleQuery.consolidate_row, ModuleQuery.load_report,
      ModuleQuery.has_comments.
    repeat writes_step.
  - intros st.
    apply (adds_for_each output_only output_only_nil output_only_app).
    intros [] [app_name details]. unfold ModuleQuery.print_app, print.
    apply (adds_bind output_only output_only_app).
    + apply (adds_for_each output_only output_only_nil output_only_app).
      intros strs [build_stack versionlines]. repeat writes_step.
    + intros strs. repeat writes_step.
Qed.

(** Once the rows are fetched, module-query only writes. *)
Lemma main_after_fetch (args : ModuleQuery.Args) (tr : Trace) :
  exists outs,
    output_only outs
    /\ snd (ModuleQuery.main json_loads wrap_layout py_format dict_items env
              args tr)
       = (snd (ModuleQuery.fetchBuildReports env (ModuleQuery.arg_build_name args)
                 (re_split_commas (ModuleQuery.arg_build_stacks args))
                 (ModuleQuery.arg_full_text args)
                 (tr ++ verbose_events args)%list) ++ outs)%list.
Proof.
  rewrite main_handles.
  destruct (ModuleQuery.fetchBuildReports env _ _ _ _) as [[rows|e] tr1] eqn:Hfetch.
  - rewrite (main_body_run json_loads wrap_layout py_format dict_items env args
               tr tr1 rows Hfetch). cbn [snd].
    assert (forall (m : M unit),
               adds output_only m ->
               exists outs,
                 output_only outs
                 /\ snd (match (match m tr1 with
                                | (Return _, tr2) => (Return 0%Z, tr2)
                                | (Raise e, tr2) => (Raise e, tr2)
                                end) with
                         | (Return code, tr') => (Return code, tr')
                         | (Raise KeyboardInterrupt, tr') => (Return 0%Z, tr')
                         | (Raise (PyError _ user_msg), tr') =>
                             (Return 2%Z, (tr' ++ failure_events env user_msg)%list)
                         end) = (tr1 ++ outs)%list) as Hrender.
    { intros m Hm. destruct (Hm tr1) as (outs & Hrun & Houts).
      destruct (m tr1) as [[[]|[|kind um]] tr2]; cbn [snd] in *; subst tr2.
      - now exists outs.
      - now exists outs.
      - exists (outs ++ failure_events env um)%list.
        split; [|now rewrite app_assoc].
        apply output_only_app; [exact Houts | apply output_only_failure]. }
    destruct rows as [|row [|second rest]].
    + now eexists.
    + destruct (getTerminalSize env) as [ts|[|kind um]].
      * apply Hrender, detail_report_writes.
      * exists []. now rewrite app_nil_r.
      * exists (failure_events env um). split; [apply output_only_failure|].
        reflexivity.
    + destruct (getTerminalSize env) as [ts|[|kind um]].
      * apply Hrender, consolidated_report_writes.
      * exists []. now rewrite app_nil_r.
      * exists (failure_events env um). split; [apply output_only_failure|].
        reflexivity.
  - rewrite (main_body_fetch_raises json_loads wrap_layout py_format dict_items
               env args tr tr1 e Hfetch). cbn [snd].
    destruct e as [|kind um].
    + exists []. now rewrite app_nil_r.
    + exists (failure_events env um). split; [apply output_only_failure|].
      reflexivity.
Qed.

(** X18.  A run of module-query, whatever the parsed command line, the
    database, the terminal and the documents: the trace is extended by
    events among which there are at most 3 connection attempts, at most
    6 seconds of waiting, at most one query and no shell command. *)
Theorem module_query_footprint :
  forall (args : ModuleQuery.Args) (tr : Trace),
    exists events,
      snd (ModuleQuery.main json_loads wrap_layout py_format dict_items env
             args tr) = (tr ++ events)%list
      /\ connects events <= 3
      /\ (0 <= slept events <= 6)%Z
      /\ List.length (executed events) <= 1
      /\ commands events = [].
Proof.
  intros args tr.
  destruct (main_after_fetch args tr) as (outs & Houts & Hrun).
  destruct (fetch_footprint env _ (tr ++ verbose_events args)%list _ _ _
              (fetchBuildReports_run env (ModuleQuery.arg_build_name args)
                 (re_split_commas (ModuleQuery.arg_build_stacks args))
                 (ModuleQuery.arg_full_text args)
                 (tr ++ verbose_events args)%list))
    as (evs & Hfetch & Hc & Hs & Hx & Hm & _).
  destruct (output_only_free _ Houts) as (Hc1 & Hs1 & Hx1 & Hm1).
  destruct (output_only_free _ (output_only_verbose args))
    as (Hc2 & Hs2 & Hx2 & Hm2).
  exists (verbose_events args ++ evs ++ outs)%list.
  rewrite Hrun, Hfetch, <- !app_assoc. split; [reflexivity|].
  rewrite !connects_app, !slept_app, !executed_app, !commands_app,
    Hc1, Hs1, Hx1, Hm1, Hc2, Hs2, Hx2, Hm2, Hm, app_nil_r.
  cbn [app]. repeat split; lia.
Qed.

Lemma unicode_not_ascii (s : string) :
  Py.is_ascii s = false -> Py.unicode s = fun _ => None.
Proof. intros H. unfold Py.unicode. now rewrite H. Qed.

Lemma sql_arg_cases (v : SqlValue) :
  CheckActivation.sql_arg v = Py.text (CheckActivation.sql_text v)
  \/ CheckActivation.sql_arg v = fun _ => None.
Proof.
  destruct v as [|s]; [now left|]. cbn [CheckActivation.sql_arg].
  destruct (Py.is_ascii s) eqn:E.
  - left. now apply unicode_ascii.
  - right. now apply unicode_not_ascii.
Qed.

Lemma check_build_events (verbosestr : string) (build : Row) :
  adds verifier_only (CheckActivation.check_build env verbosestr tt build).
Proof.
  intros tr.
  unfold CheckActivation.check_build, CheckActivation.column,
    CheckActivation.activation_command.
  destruct (Py.assoc "activation" build) as [activation|];
    [|exists []; cbn; now rewrite app_nil_r].
  destruct (Py.assoc "name" build) as [name|];
    [|exists []; cbn; now rewrite app_nil_r].
  cbv [bind lift encoded formatted bound stdout_write emit system ret].
  destruct (sql_arg_cases activation) as [-> | ->];
    [|exists []; cbn; now rewrite app_nil_r].
  destruct (sql_arg_cases name) as [-> | ->];
    [|exists []; cbn; now rewrite app_nil_r].
  rewrite attempting_formatted. cbv beta iota.
  rewrite command_formatted. cbv beta iota.
  set (status := os_system env _ _).
  destruct (status =? 0)%Z; rewrite result_formatted; cbn [snd];
    rewrite <- !app_assoc; eexists; (split; [reflexivity|]); reflexivity.
Qed.

(** X19.  A run of check-activation, whatever the parsed command line, the
    database and the shell do: at most 3 connection attempts, at most
    6 seconds of waiting and at most one query; every shell command
    begins with [module purge]; and no shell command is run unless the
    query was submitted. *)
Theorem check_activation_footprint :
  forall (args : CheckActivation.Args) (tr : Trace),
    exists events,
      snd (CheckActivation.main env args tr) = (tr ++ events)%list
      /\ connects events <= 3
      /\ (0 <= slept events <= 6)%Z
      /\ List.length (executed events) <= 1
      /\ forallb purges_first (commands events) = true
      /\ (executed events = [] -> commands events = []).
Proof.
  intros args tr.
  destruct (fetch_footprint env _ tr _ _ _
              (fetchBuildActivation_run env (CheckActivation.arg_search args)
                 (re_split_commas (CheckActivation.arg_build_stacks args)) tr))
    as (evs & Hfetch & Hc & Hs & Hx & Hm & Hsent).
  assert (exists outs,
             verifier_only outs
             /\ snd (CheckActivation.main env args tr)
                = (tr ++ evs ++ outs)%list
             /\ (executed evs = [] -> commands outs = []))
    as (outs & Houts & Hrun & Hnone).
  { destruct (CheckActivation.fetchBuildActivation env _ _ tr)
      as [[builds|e] tr1] eqn:E; cbn [fst snd] in *; subst tr1.
    - rewrite (check_activation_main_run env args tr _ builds E).
      specialize (Hsent builds eq_refl).
      assert (executed evs = [] -> False) as Habs
          by (intros H; rewrite H in Hsent; discriminate Hsent).
      destruct builds as [|build builds].
      + eexists. split; [|split; [cbn [snd]; now rewrite <- app_assoc|]].
        * reflexivity.
        * intros H. destruct (Habs H).
      + assert (forall st b,
                   adds verifier_only
                     (CheckActivation.check_build env
                        (CheckActivation.verbosestr
                           (CheckActivation.arg_verbose args)) st b)) as Hbody.
        { intros [] b. apply check_build_events. }
        destruct (adds_for_each verifier_only verifier_only_nil verifier_only_app
                    _ (build :: builds) Hbody tt (tr ++ evs)%list)
          as (outs & Hloop & Houts).
        destruct (for_each _ (build :: builds) tt (tr ++ evs)%list)
          as [[[]|[|kind um]] tr2]; cbn [snd] in *; subst tr2.
        * exists (outs ++ [EvSystem "module purge"])%list.
          split; [|split; [now rewrite <- !app_assoc|]].
          -- apply verifier_only_app; [exact Houts | reflexivity].
          -- intros H. destruct (Habs H).
        * exists outs. split; [exact Houts|].
          split; [now rewrite <- !app_assoc|].
          intros H. destruct (Habs H).
        * eexists (outs ++ _)%list.
          split; [|split; [now rewrite <- !app_assoc|]].
          -- apply verifier_only_app; [exact Houts|].
             now destruct um, (DEBUG env).
          -- intros H. destruct (Habs H).
    - rewrite check_activation_main_handles,
        (check_body_fetch_raises env args tr _ e E).
      destruct e as [|kind um]; cbn [snd].
      + exists []. rewrite app_nil_r. now repeat split.
      + exists (failure_events env um).
        split; [apply output_only_verifier, output_only_failure|].
        split; [now rewrite <- app_assoc|].
        intros _. now destruct (output_only_free _ (output_only_failure env um))
          as (_ & _ & _ & H). }
  destruct (verifier_only_free _ Houts) as (Hc1 & Hs1 & Hx1 & Hm1).
  exists (evs ++ outs)%list. split; [exact Hrun|].
  rewrite !connects_app, !slept_app, !executed_app, !commands_app,
    Hc1, Hs1, Hx1, Hm, app_nil_r.
  cbn [app]. repeat split; try lia; [exact Hm1 | exact Hnone].
Qed.

End RunFootprint.

(** ** Comments made of blanks *)

Section BlankComments.
Import Runtime Reading Census.

Variable json_loads : string -> option ModuleQuery.JValue.
Variable wrap_layout : ModuleQuery.TextWrapper -> string -> string.
Variable py_format : ModuleQuery.JValue -> Py.Arg.
Variable dict_items : forall K V : Type, list (K * V) -> list (K * V).
Variable env : Env.

Lemma strip_all_space (s : string) :
  all_space s = true -> Py.strip s = EmptyString.
Proof.
  unfold Py.strip. intros H.
  enough (Py.lstrip s = EmptyString) as -> by reflexivity.
  induction s as [|c s IH]; [reflexivity|].
  cbn [all_space] in H. apply andb_true_iff in H as [Hc Hs].
  cbn [Py.lstrip]. rewrite Hc. exact (IH Hs).
Qed.

Lemma has_comments_blank (d : list (string * ModuleQuery.JValue)) (blank : string)
    (tr : Trace) :
  all_space blank = true ->
  ModuleQuery.has_comments
    (ModuleQuery.JObj (("comments", ModuleQuery.JStr blank) :: d)) tr
  = (Return false, tr).
Proof.
  intros Hblank. unfold ModuleQuery.has_comments.
  cbv [bind lift ModuleQuery.contains ModuleQuery.getitem].
  cbn [Py.assoc String.eqb Ascii.eqb Bool.eqb].
  cbv [ModuleQuery.truthy].
  destruct (String.eqb blank EmptyString); [reflexivity|].
  cbn [negb]. cbv [ModuleQuery.str_strip ret].
  now rewrite (strip_all_space blank Hblank).
Qed.

Lemma has_comments_none (d : list (string * ModuleQuery.JValue)) (tr : Trace) :
  Py.assoc "comments" d = None ->
  ModuleQuery.has_comments (ModuleQuery.JObj d) tr = (Return false, tr).
Proof.
  intros Hnone. unfold ModuleQuery.has_comments.
  cbv [bind lift ModuleQuery.contains]. now rewrite Hnone.
Qed.

Lemma load_report_run (buildreport : Row) (text : string)
    (br : ModuleQuery.JValue) (tr : Trace) :
  Py.assoc "report_text" buildreport = Some (SqlText text) ->
  json_loads text = Some br ->
  ModuleQuery.load_report json_loads env buildreport tr
  = (Return br,
     (tr ++ (if DEBUG env then [EvDiagnostic Out EmptyString] else []))%list).
Proof.
  intros Hcol Hparse.
  unfold ModuleQuery.load_report, with_user_msg, ModuleQuery.json_loads_column.
  rewrite Hcol, Hparse. cbv [bind attempt lift when emit ret].
  destruct (DEBUG env); [reflexivity | now rewrite app_nil_r].
Qed.

(** X20.  A comment made of blanks only counts as no comment, in both
    renderers.  With the debug flag off (when it is on, each run dumps
    the document it parsed, and the two documents differ), a document
    whose [comments] is such a text is rendered exactly as the same
    document without [comments], outcome and trace, and leaves the same
    entry in the consolidated report. *)
Theorem blank_comments_count_as_none :
  forall (d : list (string * ModuleQuery.JValue))
         (blank plain_text blank_text : string) (plain_row blank_row : Row),
    DEBUG env = false ->
    Py.assoc "comments" d = None ->
    all_space blank = true ->
    Py.assoc "report_text" plain_row = Some (SqlText plain_text) ->
    json_loads plain_text = Some (ModuleQuery.JObj d) ->
    Py.assoc "report_text" blank_row = Some (SqlText blank_text) ->
    json_loads blank_text
    = Some (ModuleQuery.JObj (("comments", ModuleQuery.JStr blank) :: d)) ->
    (forall terminalsize tr,
        ModuleQuery.printDetailReport json_loads wrap_layout py_format dict_items
          env blank_row terminalsize tr
        = ModuleQuery.printDetailReport json_loads wrap_layout py_format
            dict_items env plain_row terminalsize tr)
    /\ (forall versionwrapper textmargin st tr,
           ModuleQuery.consolidate_row json_loads wrap_layout py_format env
             versionwrapper textmargin st blank_row tr
           = ModuleQuery.consolidate_row json_loads wrap_layout py_format env
               versionwrapper textmargin st plain_row tr).
Proof.
  intros d blank plain_text blank_text plain_row blank_row _ Hnone Hblank
    Hplain Hparse Hcol Hparse'.
  assert (forall key,
             String.eqb key "comments" = false ->
             ModuleQuery.getitem
               (ModuleQuery.JObj (("comments", ModuleQuery.JStr blank) :: d)) key
             = ModuleQuery.getitem (ModuleQuery.JObj d) key) as Hget.
  { intros key Hkey. unfold ModuleQuery.getitem. cbn [Py.assoc].
    now rewrite Hkey. }
  assert (ModuleQuery.contains "build_stack_activation"
            (ModuleQuery.JObj (("comments", ModuleQuery.JStr blank) :: d))
          = ModuleQuery.contains "build_stack_activation" (ModuleQuery.JObj d))
    as Hcontains by reflexivity.
  split.
  - intros terminalsize tr. unfold ModuleQuery.printDetailReport. cbv zeta.
    unfold bind at 1. symmetry. unfold bind at 1. symmetry.
    rewrite (load_report_run _ _ _ _ Hcol Hparse'),
      (load_report_run _ _ _ _ Hplain Hparse).
    rewrite !Hget by reflexivity. rewrite Hcontains.
    set (tr0 := (tr ++ _)%list).
    repeat (unfold bind at 1; symmetry; unfold bind at 1; symmetry;
            match goal with
            | |- (let (o, tr') := ?m ?t in _) = (let (o', tr'') := ?m ?t in _) =>
                destruct (m t) as [[?a|?e] ?tr]; [|reflexivity]
            end).
    unfold bind at 1. symmetry. unfold bind at 1. symmetry.
    rewrite has_comments_blank by exact Hblank.
    rewrite has_comments_none by exact Hnone.
    reflexivity.
  - intros versionwrapper textmargin st tr. unfold ModuleQuery.consolidate_row.
    unfold bind at 1. symmetry. unfold bind at 1. symmetry.
    rewrite (load_report_run _ _ _ _ Hcol Hparse'),
      (load_report_run _ _ _ _ Hplain Hparse).
    rewrite !Hget by reflexivity.
    set (tr0 := (tr ++ _)%list).
    repeat (unfold bind at 1; symmetry; unfold bind at 1; symmetry;
            match goal with
            | |- (let (o, tr') := ?m ?t in _) = (let (o', tr'') := ?m ?t in _) =>
                destruct (m t) as [[?a|?e] ?tr]; [|reflexivity]
            end).
    unfold bind at 1. symmetry. unfold bind at 1. symmetry.
    rewrite has_comments_blank by exact Hblank.
    rewrite has_comments_none by exact Hnone.
    reflexivity.
Qed.

End BlankComments.

Lemma blank_comments_count_as_none_witness :
  let d := [("title", ModuleQuery.JStr "R");
            ("name", ModuleQuery.JStr "R/3.6-fasrc01");
            ("description", ModuleQuery.JStr "Statistics");
            ("activation", ModuleQuery.JStr "module load R/3.6-fasrc01");
            ("build_stack", ModuleQuery.JStr "Easy Build");
            ("run_dependencies", ModuleQuery.JList []);
            ("preferred_build", ModuleQuery.JBool true)] in
  let loads := fun text : string =>
                 if String.eqb text "blank"
                 then Some (ModuleQuery.JObj
                              (("comments", ModuleQuery.JStr "  ") :: d))
                 else Some (ModuleQuery.JObj d) in
  let env := Samples.sample_env Samples.first_try [] in
  let detail := fun text =>
    ModuleQuery.printDetailReport loads Samples.wrap_layout Samples.py_format
      Samples.dict_items env (Samples.row text) 80%Z [] in
  let entry := fun text =>
    ModuleQuery.consolidate_row loads Samples.wrap_layout Samples.py_format env
      {| ModuleQuery.replace_whitespace := true; ModuleQuery.width := 66;
         ModuleQuery.initial_indent := "      ";
         ModuleQuery.subsequent_indent := "      " |} 6
      ModuleQuery.empty_state (Samples.row text) [] in
  (fst (detail "plain") = Runtime.Return tt /\ detail "blank" = detail "plain")
  /\ ((exists st, fst (entry "plain") = Runtime.Return st)
      /\ entry "blank" = entry "plain").
Proof.
  intros d loads env detail entry.
  destruct (blank_comments_count_as_none loads Samples.wrap_layout
              Samples.py_format Samples.dict_items env d "  " "plain" "blank"
              (Samples.row "plain") (Samples.row "blank")
              eq_refl eq_refl eq_refl eq_refl eq_refl eq_refl eq_refl)
    as [Hdetail Hentry].
  split; split.
  - vm_compute. reflexivity.
  - apply Hdetail.
  - eexists. vm_compute. reflexivity.
  - apply Hentry.
Defined.
